(** * The [/file_parse] request handler of [mineru/cli/fast_api.py]

    A shallow embedding of [get_infer_result], [encode_image] and the
    handler [parse_pdf], followed by the properties of its orchestration:
    intake validation, staging, language reconciliation, the single engine
    dispatch, result collection and the response envelope.

    Conventions of the embedding.
    - Python [str] and [bytes] are both [string] (a sequence of bytes).
    - The file system is a finite map from path strings to nodes; paths are
      compared as strings (no symbolic links, no resolution of [..]).
    - The handler runs in a small state-and-exception monad over [World];
      an early [return JSONResponse(...)] and a raised exception are two
      distinct abrupt outcomes.
    - Collaborators that live outside the file ([read_fn], [aio_do_parse],
      the suffix lists, [uuid.uuid4], [glob], [b64encode], the text codec,
      [__version__], the process configuration, the name the interpreter
      prints for the engine function) are the fields of the class
      [Collaborators]; every property holds for all of them.
    - Telemetry ([sentry_sdk], [logger]) has no effect on responses or on
      the file system and is left out. *)

From stdpp Require Import gmap strings list fin_maps.
From Stdlib Require Import Ascii ZArith.

Local Open Scope string_scope.
Local Open Scope list_scope.

(** ** Python string and path helpers *)

Module Py.

(** [c.lower()] on one byte: ASCII capitals are shifted, everything else
    is kept. *)
Definition ascii_lower (c : ascii) : ascii :=
  let n := nat_of_ascii c in
  if (65 <=? n)%nat && (n <=? 90)%nat then ascii_of_nat (n + 32) else c.

(** [s.lower()] *)
Fixpoint lower (s : string) : string :=
  match s with
  | EmptyString => EmptyString
  | String c s' => String (ascii_lower c) (lower s')
  end.

(** [s.startswith(p)] *)
Definition startswith (s p : string) : bool := String.prefix p s.

(** [s.endswith("/")] *)
Fixpoint endswith_sep (s : string) : bool :=
  match s with
  | EmptyString => false
  | String c EmptyString => Ascii.eqb c "/"
  | String _ s' => endswith_sep s'
  end.

(** [s.rfind(c)], with [None] for Python's [-1]. *)
Fixpoint rfind (c : ascii) (s : string) : option nat :=
  match s with
  | EmptyString => None
  | String a s' =>
      match rfind c s' with
      | Some i => Some (S i)
      | None => if Ascii.eqb a c then Some 0 else None
      end
  end.

(** [s[i:]] *)
Definition from_index (i : nat) (s : string) : string :=
  String.substring i (String.length s - i) s.

(** [s[:i]] *)
Definition upto_index (i : nat) (s : string) : string :=
  String.substring 0 i s.

(** [s.split(c)] *)
Fixpoint split (c : ascii) (s : string) : list string :=
  match s with
  | EmptyString => [EmptyString]
  | String a s' =>
      if Ascii.eqb a c then EmptyString :: split c s'
      else match split c s' with
           | h :: t => String a h :: t
           | [] => [String a EmptyString]
           end
  end.

(** [sep.join(parts)] for [sep = "/"] *)
Fixpoint join_sep (parts : list string) : string :=
  match parts with
  | [] => ""
  | [p] => p
  | p :: rest => p +:+ "/" +:+ join_sep rest
  end.

(** One step of [posixpath.join]: an absolute component replaces what
    came before; otherwise a separator is added unless the path is empty
    or already ends with one. *)
Definition join2 (path b : string) : string :=
  if startswith b "/" then b
  else if bool_decide (path = "") || endswith_sep path then path +:+ b
  else path +:+ "/" +:+ b.

(** [os.path.join(a, *p)] *)
Definition os_path_join (a : string) (p : list string) : string :=
  foldl join2 a p.

(** [os.path.basename(p)]: what follows the last separator. *)
Definition os_path_basename (p : string) : string :=
  match rfind "/" p with
  | Some i => from_index (S i) p
  | None => p
  end.

(** The parts of a [PurePosixPath]: empty and [.] components are
    dropped. *)
Definition path_parts (s : string) : list string :=
  filter (λ x, x ≠ "" ∧ x ≠ ".") (split "/" s).

(** [Path(s).name]: the last part, or the empty string. *)
Definition Path_name (s : string) : string :=
  List.last (path_parts s) "".

(** The index of the dot that starts the suffix of a name, when it has
    one: [0 < i < len(name) - 1] for [i = name.rfind('.')]. *)
Definition suffix_index (name : string) : option nat :=
  match rfind "." name with
  | Some i =>
      if (0 <? i)%nat && (i <? String.length name - 1)%nat then Some i
      else None
  | None => None
  end.

(** [Path(s).suffix], as [pathlib] computes it up to Python 3.13. *)
Definition Path_suffix (s : string) : string :=
  let name := Path_name s in
  match suffix_index name with
  | Some i => from_index i name
  | None => ""
  end.

(** [Path(s).stem] *)
Definition Path_stem (s : string) : string :=
  let name := Path_name s in
  match suffix_index name with
  | Some i => upto_index i name
  | None => name
  end.

(** [str(Path(s))]: the parts joined again behind the root, [.] for an
    empty relative path (a root of exactly two slashes is not told apart
    from a single one). *)
Definition Path_str (s : string) : string :=
  let parts := path_parts s in
  if startswith s "/" then "/" +:+ join_sep parts
  else match parts with
       | [] => "."
       | _ => join_sep parts
       end.

(** [str(Path(dir) / name)] *)
Definition Path_div (dir name : string) : string :=
  Path_str (join2 dir name).

(** [sub in s] *)
Fixpoint contains (s sub : string) : bool :=
  String.prefix sub s
  || match s with
     | EmptyString => false
     | String _ s' => contains s' sub
     end.

(** [[x] * n] *)
Definition list_times {A} (x : A) (n : nat) : list A := replicate n x.

(** [s.rstrip("/")] *)
Fixpoint rstrip_sep (s : string) : string :=
  match s with
  | EmptyString => EmptyString
  | String c s' =>
      match rstrip_sep s' with
      | EmptyString => if Ascii.eqb c "/" then EmptyString else String c EmptyString
      | r => String c r
      end
  end.

(** [s == "/" * len(s)] *)
Fixpoint all_sep (s : string) : bool :=
  match s with
  | EmptyString => true
  | String c s' => Ascii.eqb c "/" && all_sep s'
  end.

(** [posixpath.split(p)]: the head loses its trailing slashes unless it
    is made of slashes only. *)
Definition os_path_split (p : string) : string * string :=
  match rfind "/" p with
  | Some i =>
      let head := upto_index (S i) p in
      let tail := from_index (S i) p in
      (if negb (bool_decide (head = "")) && negb (all_sep head)
       then rstrip_sep head else head, tail)
  | None => ("", p)
  end.

(** The heads [os.path.split] yields one after another, nearest first,
    until the head is empty or does not change any more. *)
Fixpoint heads (fuel : nat) (p : string) : list string :=
  match fuel with
  | O => []
  | S fuel' =>
      let head := (os_path_split p).1 in
      if bool_decide (head = "" ∨ head = p) then [] else head :: heads fuel' head
  end.

(** The directories above [p], nearest first. Every head is shorter than
    the path it is split from, so the length of [p] is fuel enough. *)
Definition parents (p : string) : list string := heads (String.length p) p.

(** A path made of nothing but [.], [..] and slashes: the current
    directory, a directory above it, or the root. *)
Definition always_dir (p : string) : bool :=
  forallb (λ c, bool_decide (c ∈ [""; "."; ".."])) (split "/" p).

(** What reading a file in text mode does to the line ends of the decoded
    text: [\r\n] and a lone [\r] become [\n]. *)
Fixpoint universal_newlines (s : string) : string :=
  match s with
  | EmptyString => EmptyString
  | String c s' =>
      if Ascii.eqb c "013" then
        match s' with
        | String d s'' =>
            if Ascii.eqb d "010" then String "010" (universal_newlines s'')
            else String "010" (universal_newlines s')
        | EmptyString => String "010" EmptyString
        end
      else String c (universal_newlines s')
  end.

End Py.

(** ** The world the handler runs in *)

(** A node of the file system: a directory or a regular file with its
    bytes. *)
Inductive node : Type :=
| Dir
| File (data : string).

Abbreviation filesystem := (gmap string node).

(** What a collaborator hands back: a value, or an exception with its
    [str(e)]. *)
Inductive result (A : Type) : Type :=
| Ok (a : A)
| Exception (msg : string).
Arguments Ok {A} a.
Arguments Exception {A} msg.

(** [UploadFile]: the client's file name and the bytes [await file.read()]
    yields. *)
Record UploadFile : Type := {
  filename : string;
  file_bytes : string
}.

(** The form fields of [parse_pdf], under the names of its parameters. *)
Record Request : Type := {
  files : list UploadFile;
  output_dir : string;
  lang_list : list string;
  backend : string;
  parse_method : string;
  formula_enable : bool;
  table_enable : bool;
  server_url : option string;
  return_md : bool;
  return_middle_json : bool;
  return_model_output : bool;
  return_content_list : bool;
  return_images : bool;
  start_page_id : Z;
  end_page_id : Z
}.

(** A value of the process configuration ([app.state.config]); the handler
    never looks inside one. *)
Inductive cfgval : Type :=
| CBool (b : bool)
| CInt (z : Z)
| CStr (s : string).

(** The keyword arguments of the one call of [aio_do_parse], [kw_x] for the
    keyword [x]; [kw_config] holds the entries spliced in by [**config]. *)
Record EngineArgs : Type := {
  kw_output_dir : string;
  kw_pdf_file_names : list string;
  kw_pdf_bytes_list : list string;
  kw_p_lang_list : list string;
  kw_backend : string;
  kw_parse_method : string;
  kw_formula_enable : bool;
  kw_table_enable : bool;
  kw_server_url : option string;
  kw_f_draw_layout_bbox : bool;
  kw_f_draw_span_bbox : bool;
  kw_f_dump_md : bool;
  kw_f_dump_middle_json : bool;
  kw_f_dump_model_output : bool;
  kw_f_dump_orig_pdf : bool;
  kw_f_dump_content_list : bool;
  kw_start_page_id : Z;
  kw_end_page_id : Z;
  kw_config : list (string * cfgval)
}.

(** The names of the keywords the call site writes out. *)
Definition explicit_keywords : list string :=
  ["output_dir"; "pdf_file_names"; "pdf_bytes_list"; "p_lang_list";
   "backend"; "parse_method"; "formula_enable"; "table_enable";
   "server_url"; "f_draw_layout_bbox"; "f_draw_span_bbox"; "f_dump_md";
   "f_dump_middle_json"; "f_dump_model_output"; "f_dump_orig_pdf";
   "f_dump_content_list"; "start_page_id"; "end_page_id"].

(** A value stored under a key of one stem's [data] dict: the
    [Optional[str]] of [get_infer_result], or the dict of inline images. *)
Inductive pyvalue : Type :=
| PNone
| PStr (s : string)
| PDict (d : gmap string string).

Definition of_optional (o : option string) : pyvalue :=
  match o with
  | Some s => PStr s
  | None => PNone
  end.

Abbreviation result_dict_t := (gmap string (gmap string pyvalue)).

(** A value of the top-level response dict. *)
Inductive jvalue : Type :=
| JStr (s : string)
| JResults (r : gmap string (gmap string pyvalue)).

Record JSONResponse : Type := {
  status_code : nat;
  content : gmap string jvalue
}.

(** The state a request can touch: the disk, the position in the stream of
    identifiers [uuid.uuid4()] draws from, and the log of the calls that
    entered the engine. *)
Record World : Type := {
  fs : gmap string node;
  uuid_draws : nat;
  engine_calls : list EngineArgs
}.

Definition set_fs (d : gmap string node) (w : World) : World :=
  {| fs := d; uuid_draws := uuid_draws w; engine_calls := engine_calls w |}.

(** The world after one more identifier has been drawn. *)
Definition drawn (w : World) : World :=
  {| fs := fs w; uuid_draws := S (uuid_draws w); engine_calls := engine_calls w |}.

(** The world after one more call has entered the engine. *)
Definition logged (args : EngineArgs) (w : World) : World :=
  {| fs := fs w; uuid_draws := uuid_draws w; engine_calls := engine_calls w ++ [args] |}.

(** ** The handler monad: state, early return, exceptions *)

Inductive outcome (A : Type) : Type :=
| Normal (a : A)
| Return (r : JSONResponse)
| Raise (e : string).
Arguments Normal {A} a.
Arguments Return {A} r.
Arguments Raise {A} e.

Definition M (A : Type) : Type := World → outcome A * World.

Definition ret {A} (a : A) : M A := λ w, (Normal a, w).

Definition bind {A B} (m : M A) (k : A → M B) : M B :=
  λ w, match m w with
       | (Normal a, w') => k a w'
       | (Return r, w') => (Return r, w')
       | (Raise e, w') => (Raise e, w')
       end.

(** [return JSONResponse(...)] *)
Definition return_ {A} (r : JSONResponse) : M A := λ w, (Return r, w).

(** [raise] *)
Definition raise {A} (e : string) : M A := λ w, (Raise e, w).

(** [try: body  except Exception as e: handler(e)] *)
Definition try_except {A} (body : M A) (handler : string → M A) : M A :=
  λ w, match body w with
       | (Raise e, w') => handler e w'
       | other => other
       end.

Declare Scope handler_scope.
Delimit Scope handler_scope with handler.
Notation "x <- m ;; k" := (bind m (λ x, k))
  (at level 100, m at next level, right associativity) : handler_scope.
Notation "m ;; k" := (bind m (λ _, k))
  (at level 100, right associativity) : handler_scope.
Local Open Scope handler_scope.

(** ** File-system primitives *)

(** The node a path above a directory stands for: what the disk holds
    under it, and a directory for a path that is always there. *)
Definition node_above (disk : gmap string node) (p : string) : option node :=
  match disk !! p with
  | Some n => Some n
  | None => if Py.always_dir p then Some Dir else None
  end.

(** [os.makedirs] walks up from [child] until a path is there. Under a
    directory it creates what was missing, topmost first; under a regular
    file the first [mkdir] raises [NotADirectoryError]. [below] holds the
    missing paths met so far. *)
Fixpoint missing_dirs (disk : gmap string node) (above : list string)
  (child : string) (below : list string) : result (list string) :=
  match above with
  | [] => Ok (child :: below)
  | a :: up =>
      match node_above disk a with
      | Some Dir => Ok (child :: below)
      | Some (File _) => Exception ("[Errno 20] Not a directory: '" +:+ child +:+ "'")
      | None => missing_dirs disk up a (child :: below)
      end
  end.

(** [os.mkdir] of each path of a list, in order. *)
Definition mkdirs (dirs : list string) (disk : gmap string node) : gmap string node :=
  foldl (λ d q, <[q := Dir]> d) disk dirs.

(** The disk [os.makedirs(p, exist_ok=True)] leaves, or the [str(e)] of
    the error it raises. A directory that is there is left alone
    ([exist_ok]); a regular file under [p] raises [FileExistsError]; when
    [p] is missing, the missing directories above it are created with it,
    and a regular file on the way up raises [NotADirectoryError]. Nothing
    is created when the call raises. (The disks of interest are those
    where the directories above an entry are there, as on every real file
    system; on them this is what the library function does.) *)
Definition makedirs_on (p : string) (disk : gmap string node)
  : result (gmap string node) :=
  match disk !! p with
  | Some (File _) => Exception ("[Errno 17] File exists: '" +:+ p +:+ "'")
  | Some Dir => Ok disk
  | None =>
      match missing_dirs disk (Py.parents p) p [] with
      | Ok dirs => Ok (mkdirs dirs disk)
      | Exception e => Exception e
      end
  end.

(** [os.makedirs(p, exist_ok=True)] *)
Definition os_makedirs (p : string) : M unit :=
  λ w, match makedirs_on p (fs w) with
       | Ok disk => (Normal (), set_fs disk w)
       | Exception e => (Raise e, w)
       end.

(** [with open(p, "wb") as f: f.write(data)] *)
Definition open_write (p data : string) : M unit :=
  λ w, match fs w !! p with
       | Some Dir => (Raise ("[Errno 21] Is a directory: '" +:+ p +:+ "'"), w)
       | _ => (Normal (), set_fs (<[p := File data]> (fs w)) w)
       end.

(** [os.remove(p)] *)
Definition os_remove (p : string) : M unit :=
  λ w, match fs w !! p with
       | Some (File _) => (Normal (), set_fs (delete p (fs w)) w)
       | Some Dir => (Raise ("[Errno 21] Is a directory: '" +:+ p +:+ "'"), w)
       | None => (Raise ("[Errno 2] No such file or directory: '" +:+ p +:+ "'"), w)
       end.

(** [os.path.exists(p)] *)
Definition os_path_exists (p : string) : M bool :=
  λ w, (Normal (bool_decide (is_Some (fs w !! p))), w).

(** [with open(p, "rb") as f: f.read()] *)
Definition open_read_bytes (p : string) : M string :=
  λ w, match fs w !! p with
       | Some (File data) => (Normal data, w)
       | Some Dir => (Raise ("[Errno 21] Is a directory: '" +:+ p +:+ "'"), w)
       | None => (Raise ("[Errno 2] No such file or directory: '" +:+ p +:+ "'"), w)
       end.

(** ** Collaborators *)

(** Everything [fast_api.py] imports or reads from its environment.
    - [pdf_suffixes], [image_suffixes]: the accepted extensions
      ([mineru.cli.common]).
    - [read_fn path disk]: the decoder, reading the staged file.
    - [aio_do_parse args disk]: the engine; it leaves a new disk behind and
      completes or raises.
    - [uuid4 k]: the [k]-th identifier [str(uuid.uuid4())] produces.
    - [glob pattern disk]: the paths matching a pattern.
    - [b64encode]: [base64.b64encode(..).decode()].
    - [decode_utf8]: the codec [open(.., "r", encoding="utf-8")] decodes
      the bytes of the file with ([bytes.decode("utf-8")]).
    - [__version__]: the service version.
    - [config]: [app.state.config], in the iteration order of the dict
      (empty when the attribute was never set).
    - [aio_do_parse_str]: how the interpreter names the callee in the
      [TypeError] of a call ([mineru.cli.common.aio_do_parse()] for a
      plain function of that module on Python 3.9 and later). *)
Class Collaborators : Type := {
  pdf_suffixes : list string;
  image_suffixes : list string;
  read_fn : string → gmap string node → result string;
  aio_do_parse : EngineArgs → gmap string node → gmap string node * result unit;
  uuid4 : nat → string;
  glob : string → gmap string node → list string;
  b64encode : string → string;
  decode_utf8 : string → result string;
  __version__ : string;
  config : list (string * cfgval);
  aio_do_parse_str : string
}.

Section Handler.
Context `{Collaborators}.

(** [str(uuid.uuid4())] *)
Definition str_uuid4 : M string :=
  λ w, (Normal (uuid4 (uuid_draws w)), drawn w).

(** [with open(p, "r", encoding="utf-8") as fp: fp.read()]: the bytes
    are decoded, and text mode translates the line ends. *)
Definition open_read_text (p : string) : M string :=
  data <- open_read_bytes p ;;
  match decode_utf8 data with
  | Ok s => ret (Py.universal_newlines s)
  | Exception e => raise e
  end.

(** [read_fn(temp_path)] *)
Definition call_read_fn (p : string) : M string :=
  λ w, match read_fn p (fs w) with
       | Ok b => (Normal b, w)
       | Exception e => (Raise e, w)
       end.

(** [str(e)] of the [TypeError] a call raises when [**config] repeats a
    keyword the call site already wrote. *)
Definition multiple_values (k : string) : string :=
  aio_do_parse_str +:+ " got multiple values for keyword argument '" +:+ k +:+ "'".

(** [await aio_do_parse(.., **config)]: a key of [config] that repeats an
    explicit keyword makes the call itself raise, before the engine is
    entered; otherwise the engine runs on the disk. *)
Definition call_aio_do_parse (args : EngineArgs) : M unit :=
  λ w, match List.find (λ kv, bool_decide (kv.1 ∈ explicit_keywords)) (kw_config args) with
       | Some kv => (Raise (multiple_values kv.1), w)
       | None =>
           match aio_do_parse args (fs w) with
           | (disk, Ok _) => (Normal (), set_fs disk (logged args w))
           | (disk, Exception e) => (Raise e, set_fs disk (logged args w))
           end
       end.

(** [encode_image] *)
Definition encode_image (image_path : string) : M string :=
  data <- open_read_bytes image_path ;;
  ret (b64encode data).

(** [get_infer_result] *)
Definition get_infer_result (file_suffix_identifier pdf_name parse_dir : string)
  : M (option string) :=
  let result_file_path := Py.os_path_join parse_dir [pdf_name +:+ file_suffix_identifier] in
  ex <- os_path_exists result_file_path ;;
  if ex : bool then
    s <- open_read_text result_file_path ;;
    ret (Some s)
  else ret None.

(** The body of the staging loop, lines 116-141: validate the extension,
    write the temporary copy, decode it, remove the copy. *)
Definition stage_file (unique_dir : string) (file : UploadFile)
  (pdf_file_names pdf_bytes_list : list string) : M (list string * list string) :=
  let content := file_bytes file in
  let file_path := filename file in
  if negb (bool_decide (Py.lower (Py.Path_suffix file_path) ∈ pdf_suffixes ++ image_suffixes)) then
    return_ {| status_code := 400;
               content := {[ "error" := JStr ("Unsupported file type: " +:+ Py.Path_suffix file_path) ]} |}
  else
    let temp_path := Py.Path_div unique_dir (Py.Path_name file_path) in
    open_write temp_path content ;;
    try_except
      (pdf_bytes <- call_read_fn temp_path ;;
       let pdf_bytes_list := pdf_bytes_list ++ [pdf_bytes] in
       let pdf_file_names := pdf_file_names ++ [Py.Path_stem file_path] in
       os_remove temp_path ;;
       ret (pdf_file_names, pdf_bytes_list))
      (λ e, return_ {| status_code := 400;
                       content := {[ "error" := JStr ("Failed to load file: " +:+ e) ]} |}).

(** [for file in files: ...] *)
Fixpoint stage_files (unique_dir : string) (files : list UploadFile)
  (pdf_file_names pdf_bytes_list : list string) : M (list string * list string) :=
  match files with
  | [] => ret (pdf_file_names, pdf_bytes_list)
  | file :: rest =>
      acc <- stage_file unique_dir file pdf_file_names pdf_bytes_list ;;
      stage_files unique_dir rest acc.1 acc.2
  end.

(** Lines 143-146. *)
Definition actual_lang_list (lang_list pdf_file_names : list string) : list string :=
  let actual_lang_list := lang_list in
  if bool_decide (length actual_lang_list ≠ length pdf_file_names) then
    Py.list_times (match actual_lang_list with
                   | l0 :: _ => l0
                   | [] => "ch"
                   end) (length pdf_file_names)
  else actual_lang_list.

(** [data[key] = v], where [data] is the dict stored under
    [result_dict[pdf_name]]: the store goes through the alias. *)
Definition data_setitem (pdf_name key : string) (v : pyvalue)
  (result_dict : result_dict_t) : result_dict_t :=
  alter (<[key := v]>) pdf_name result_dict.

(** The dict comprehension of lines 196-201. *)
Fixpoint images_dict (image_paths : list string) (acc : gmap string string)
  : M (gmap string string) :=
  match image_paths with
  | [] => ret acc
  | image_path :: rest =>
      enc <- encode_image image_path ;;
      images_dict rest
        (<[Py.os_path_basename image_path := "data:image/jpeg;base64," +:+ enc]> acc)
  end.

(** [data[key] = get_infer_result(suffix, pdf_name, parse_dir)] *)
Definition store_infer_result (key suffix pdf_name parse_dir : string)
  (result_dict : result_dict_t) : M result_dict_t :=
  v <- get_infer_result suffix pdf_name parse_dir ;;
  ret (data_setitem pdf_name key (of_optional v) result_dict).

(** [data["images"] = {basename(p): "data:..." for p in glob(..)}] *)
Definition store_images (pdf_name parse_dir : string)
  (result_dict : result_dict_t) : M result_dict_t :=
  image_paths <- (λ w, (Normal (glob (parse_dir +:+ "/images/*.jpg") (fs w)), w)) ;;
  images <- images_dict image_paths ∅ ;;
  ret (data_setitem pdf_name "images" (PDict images) result_dict).

(** The body of the collection loop, lines 174-201. *)
Definition collect_stem (req : Request) (unique_dir pdf_name : string)
  (result_dict : result_dict_t) : M result_dict_t :=
  let result_dict := <[pdf_name := ∅]> result_dict in
  let parse_dir :=
    if Py.startswith (backend req) "pipeline"
    then Py.os_path_join unique_dir [pdf_name; parse_method req]
    else Py.os_path_join unique_dir [pdf_name; "vlm"] in
  ex <- os_path_exists parse_dir ;;
  if ex : bool then
    result_dict <-
      (if return_md req
       then store_infer_result "md_content" ".md" pdf_name parse_dir result_dict
       else ret result_dict) ;;
    result_dict <-
      (if return_middle_json req
       then store_infer_result "middle_json" "_middle.json" pdf_name parse_dir result_dict
       else ret result_dict) ;;
    result_dict <-
      (if return_model_output req then
         if Py.startswith (backend req) "pipeline"
         then store_infer_result "model_output" "_model.json" pdf_name parse_dir result_dict
         else store_infer_result "model_output" "_model_output.txt" pdf_name parse_dir result_dict
       else ret result_dict) ;;
    result_dict <-
      (if return_content_list req
       then store_infer_result "content_list" "_content_list.json" pdf_name parse_dir result_dict
       else ret result_dict) ;;
    if return_images req
    then store_images pdf_name parse_dir result_dict
    else ret result_dict
  else ret result_dict.

(** [for pdf_name in pdf_file_names: ...] *)
Fixpoint collect (req : Request) (unique_dir : string) (pdf_file_names : list string)
  (result_dict : result_dict_t) : M result_dict_t :=
  match pdf_file_names with
  | [] => ret result_dict
  | pdf_name :: rest =>
      result_dict <- collect_stem req unique_dir pdf_name result_dict ;;
      collect req unique_dir rest result_dict
  end.

(** The [try] block of [parse_pdf], lines 94-209; it always leaves by
    [return] or by an exception. *)
Definition parse_pdf_try (req : Request) : M Empty_set :=
  uid <- str_uuid4 ;;
  let unique_dir := Py.os_path_join (output_dir req) [uid] in
  os_makedirs unique_dir ;;
  staged <- stage_files unique_dir (files req) [] [] ;;
  let pdf_file_names := staged.1 in
  let pdf_bytes_list := staged.2 in
  let actual_lang_list := actual_lang_list (lang_list req) pdf_file_names in
  call_aio_do_parse
    {| kw_output_dir := unique_dir;
       kw_pdf_file_names := pdf_file_names;
       kw_pdf_bytes_list := pdf_bytes_list;
       kw_p_lang_list := actual_lang_list;
       kw_backend := backend req;
       kw_parse_method := parse_method req;
       kw_formula_enable := formula_enable req;
       kw_table_enable := table_enable req;
       kw_server_url := server_url req;
       kw_f_draw_layout_bbox := false;
       kw_f_draw_span_bbox := false;
       kw_f_dump_md := return_md req;
       kw_f_dump_middle_json := return_middle_json req;
       kw_f_dump_model_output := return_model_output req;
       kw_f_dump_orig_pdf := false;
       kw_f_dump_content_list := return_content_list req;
       kw_start_page_id := start_page_id req;
       kw_end_page_id := end_page_id req;
       kw_config := config |} ;;
  result_dict <- collect req unique_dir pdf_file_names ∅ ;;
  return_ {| status_code := 200;
             content := {[ "backend" := JStr (backend req);
                           "version" := JStr __version__;
                           "results" := JResults result_dict ]} |}.

(** [parse_pdf]: the [try] block under its [except Exception as e]. *)
Definition parse_pdf (req : Request) (w : World) : JSONResponse * World :=
  match parse_pdf_try req w with
  | (Normal never, _) => match never with end
  | (Return r, w') => (r, w')
  | (Raise e, w') =>
      let request_id := uuid4 (uuid_draws w') in
      ({| status_code := 500;
          content := {[ "error" := JStr ("Failed to process file: " +:+ e);
                        "request_id" := JStr request_id ]} |}, drawn w')
  end.

(** One request served on a disk, with the identifier stream at position
    [k] and an empty call log. *)
Definition serve (req : Request) (disk : gmap string node) (k : nat)
  : JSONResponse * World :=
  parse_pdf req {| fs := disk; uuid_draws := k; engine_calls := [] |}.

End Handler.

(** ** The collector as a table (section 4.5 and 9 of the design)

    The design describes the collector by a two-way backend family and a
    table from artifact kinds to keys and file suffixes. These definitions
    follow that description; [collect_stem_by_table] is compared with the
    loop body [collect_stem] below. *)

Inductive backend_family : Type :=
| PipelineFamily
| AlternateFamily.

Definition family_of (backend : string) : backend_family :=
  if Py.startswith backend "pipeline" then PipelineFamily else AlternateFamily.

(** [{workspace}/{stem}/{parse_method}] or [{workspace}/{stem}/vlm] *)
Definition output_subtree (fam : backend_family) (workspace stem parse_method : string)
  : string :=
  match fam with
  | PipelineFamily => Py.os_path_join workspace [stem; parse_method]
  | AlternateFamily => Py.os_path_join workspace [stem; "vlm"]
  end.

(** The artifact kinds that are read from one fixed-suffix file. *)
Inductive text_kind : Type :=
| RenderedText
| IntermediateStructure
| RawModelOutput
| ContentList.

Definition text_kinds : list text_kind :=
  [RenderedText; IntermediateStructure; RawModelOutput; ContentList].

Definition kind_key (k : text_kind) : string :=
  match k with
  | RenderedText => "md_content"
  | IntermediateStructure => "middle_json"
  | RawModelOutput => "model_output"
  | ContentList => "content_list"
  end.

Definition kind_suffix (fam : backend_family) (k : text_kind) : string :=
  match k with
  | RenderedText => ".md"
  | IntermediateStructure => "_middle.json"
  | RawModelOutput =>
      match fam with
      | PipelineFamily => "_model.json"
      | AlternateFamily => "_model_output.txt"
      end
  | ContentList => "_content_list.json"
  end.

Definition kind_requested (req : Request) (k : text_kind) : bool :=
  match k with
  | RenderedText => return_md req
  | IntermediateStructure => return_middle_json req
  | RawModelOutput => return_model_output req
  | ContentList => return_content_list req
  end.

(** The file a text kind is read from. *)
Definition kind_path (fam : backend_family) (subtree stem : string) (k : text_kind)
  : string :=
  Py.os_path_join subtree [stem +:+ kind_suffix fam k].

(** The pattern the extracted images are globbed with. *)
Definition images_pattern (subtree : string) : string :=
  subtree +:+ "/images/*.jpg".

Section Table.
Context `{Collaborators}.

Fixpoint collect_kinds (req : Request) (fam : backend_family) (subtree stem : string)
  (kinds : list text_kind) (result_dict : result_dict_t) : M result_dict_t :=
  match kinds with
  | [] => ret result_dict
  | k :: rest =>
      result_dict <-
        (if kind_requested req k
         then store_infer_result (kind_key k) (kind_suffix fam k) stem subtree result_dict
         else ret result_dict) ;;
      collect_kinds req fam subtree stem rest result_dict
  end.

Definition collect_stem_by_table (req : Request) (workspace stem : string)
  (result_dict : result_dict_t) : M result_dict_t :=
  let fam := family_of (backend req) in
  let subtree := output_subtree fam workspace stem (parse_method req) in
  let result_dict := <[stem := ∅]> result_dict in
  ex <- os_path_exists subtree ;;
  if ex : bool then
    result_dict <- collect_kinds req fam subtree stem text_kinds result_dict ;;
    if return_images req
    then store_images stem subtree result_dict
    else ret result_dict
  else ret result_dict.

End Table.

(** ** Names for the pieces of a request's run *)

Section Pieces.
Context `{Collaborators}.

(** The workspace the handler allocates when the identifier stream is at
    position [k]. *)
Definition workspace (req : Request) (k : nat) : string :=
  Py.os_path_join (output_dir req) [uuid4 k].

(** The temporary path an upload is staged at. *)
Definition temp_path (unique_dir : string) (file : UploadFile) : string :=
  Py.Path_div unique_dir (Py.Path_name (filename file)).

(** The intake check of line 120. *)
Definition accepted (file : UploadFile) : bool :=
  bool_decide (Py.lower (Py.Path_suffix (filename file)) ∈ pdf_suffixes ++ image_suffixes).

Definition stem_of (file : UploadFile) : string := Py.Path_stem (filename file).

(** The per-file output subtree of a stem. *)
Definition parse_dir_of (req : Request) (unique_dir pdf_name : string) : string :=
  output_subtree (family_of (backend req)) unique_dir pdf_name (parse_method req).

(** The three envelopes. *)
Definition unsupported_response (file : UploadFile) : JSONResponse :=
  {| status_code := 400;
     content := {[ "error" := JStr ("Unsupported file type: " +:+ Py.Path_suffix (filename file)) ]} |}.

Definition load_failed_response (e : string) : JSONResponse :=
  {| status_code := 400;
     content := {[ "error" := JStr ("Failed to load file: " +:+ e) ]} |}.

Definition server_error_response (e request_id : string) : JSONResponse :=
  {| status_code := 500;
     content := {[ "error" := JStr ("Failed to process file: " +:+ e);
                   "request_id" := JStr request_id ]} |}.

Definition success_response (req : Request) (result_dict : result_dict_t) : JSONResponse :=
  {| status_code := 200;
     content := {[ "backend" := JStr (backend req);
                   "version" := JStr __version__;
                   "results" := JResults result_dict ]} |}.

(** Some key of the configuration repeats a keyword of the call site. *)
Definition config_clashes : bool :=
  bool_decide (Exists (λ kv : string * cfgval, kv.1 ∈ explicit_keywords) config).

(** The keyword arguments the handler builds once staging is done. *)
Definition engine_args (req : Request) (unique_dir : string)
  (pdf_file_names pdf_bytes_list : list string) : EngineArgs :=
  {| kw_output_dir := unique_dir;
     kw_pdf_file_names := pdf_file_names;
     kw_pdf_bytes_list := pdf_bytes_list;
     kw_p_lang_list := actual_lang_list (lang_list req) pdf_file_names;
     kw_backend := backend req;
     kw_parse_method := parse_method req;
     kw_formula_enable := formula_enable req;
     kw_table_enable := table_enable req;
     kw_server_url := server_url req;
     kw_f_draw_layout_bbox := false;
     kw_f_draw_span_bbox := false;
     kw_f_dump_md := return_md req;
     kw_f_dump_middle_json := return_middle_json req;
     kw_f_dump_model_output := return_model_output req;
     kw_f_dump_orig_pdf := false;
     kw_f_dump_content_list := return_content_list req;
     kw_start_page_id := start_page_id req;
     kw_end_page_id := end_page_id req;
     kw_config := config |}.

(** The world a request starts in, and the one left by the first draw. *)
Definition initial (disk : gmap string node) (k : nat) : World :=
  {| fs := disk; uuid_draws := k; engine_calls := [] |}.

(** The workspace was allocated and every upload staged and decoded. *)
Definition staged (req : Request) (disk : gmap string node) (k : nat)
  (pdf_file_names pdf_bytes_list : list string) (w : World) : Prop :=
  ∃ w2, os_makedirs (workspace req k) (drawn (initial disk k)) = (Normal (), w2)
        ∧ stage_files (workspace req k) (files req) [] [] w2
          = (Normal (pdf_file_names, pdf_bytes_list), w).

(** The engine call of the request completed and left the world [w]. *)
Definition dispatched (req : Request) (disk : gmap string node) (k : nat)
  (pdf_file_names : list string) (w : World) : Prop :=
  ∃ pdf_bytes_list w3,
    staged req disk k pdf_file_names pdf_bytes_list w3
    ∧ call_aio_do_parse
        (engine_args req (workspace req k) pdf_file_names pdf_bytes_list) w3
      = (Normal (), w).

(** The ways the [try] block can end, by the phase that ends it. *)
Inductive tried (req : Request) (disk : gmap string node) (k : nat)
  : outcome Empty_set → World → Prop :=
| tried_allocation_raised e w2 :
    os_makedirs (workspace req k) (drawn (initial disk k)) = (Raise e, w2) →
    tried req disk k (Raise e) w2
| tried_staging_returned w2 r w3 :
    os_makedirs (workspace req k) (drawn (initial disk k)) = (Normal (), w2) →
    stage_files (workspace req k) (files req) [] [] w2 = (Return r, w3) →
    tried req disk k (Return r) w3
| tried_staging_raised w2 e w3 :
    os_makedirs (workspace req k) (drawn (initial disk k)) = (Normal (), w2) →
    stage_files (workspace req k) (files req) [] [] w2 = (Raise e, w3) →
    tried req disk k (Raise e) w3
| tried_dispatch_raised names payloads w3 e w4 :
    staged req disk k names payloads w3 →
    call_aio_do_parse (engine_args req (workspace req k) names payloads) w3
      = (Raise e, w4) →
    tried req disk k (Raise e) w4
| tried_collection_raised names w4 e :
    dispatched req disk k names w4 →
    collect req (workspace req k) names ∅ w4 = (Raise e, w4) →
    tried req disk k (Raise e) w4
| tried_success names w4 result_dict :
    dispatched req disk k names w4 →
    collect req (workspace req k) names ∅ w4 = (Normal result_dict, w4) →
    tried req disk k (Return (success_response req result_dict)) w4.

(** The [except] clause around the [try] block. *)
Definition respond (o : outcome Empty_set) (w : World) : JSONResponse * World :=
  match o with
  | Normal never => match never with end
  | Return r => (r, w)
  | Raise e => (server_error_response e (uuid4 (uuid_draws w)), drawn w)
  end.

(** Writing through the alias [data] of the entry of [pdf_name]: the
    outcome of a step on the entry, put back into the dict around it. *)
Definition entry_out (pdf_name : string) (result_dict : result_dict_t)
  (o : outcome (gmap string pyvalue)) : outcome result_dict_t :=
  match o with
  | Normal data => Normal (<[pdf_name := data]> result_dict)
  | Return r => Return r
  | Raise e => Raise e
  end.

(** A step that reads the disk and touches nothing but the entry of
    [pdf_name]. *)
Definition entry_local (pdf_name : string) (step : result_dict_t → M result_dict_t)
  : Prop :=
  ∀ data w, ∃ o, ∀ result_dict,
    step (<[pdf_name := data]> result_dict) w = (entry_out pdf_name result_dict o, w).

(** What an entry holds for a file read by [get_infer_result]: [None]
    when the file is not there, the text when it is a regular file whose
    bytes decode; no value when the read raises. *)
Definition artifact_value (disk : gmap string node) (path : string) : option pyvalue :=
  match disk !! path with
  | None => Some PNone
  | Some (File bytes) =>
      match decode_utf8 bytes with
      | Ok text => Some (PStr (Py.universal_newlines text))
      | Exception _ => None
      end
  | Some Dir => None
  end.

(** The key of a text artifact in an entry: asked for, it holds the value
    read from [path]; not asked for, it is no key. *)
Definition stored_under (data : gmap string pyvalue) (key : string) (requested : bool)
  (disk : gmap string node) (path : string) : Prop :=
  if requested
  then ∃ v, artifact_value disk path = Some v ∧ data !! key = Some v
  else data !! key = None.

(** The entry [data] of a stem is what the disk of [w] holds for it under
    [subtree], with the raw model output in the file that ends in
    [model_suffix]. *)
Definition collected_from (req : Request) (stem subtree model_suffix : string)
  (w : World) (data : gmap string pyvalue) : Prop :=
  if bool_decide (is_Some (fs w !! subtree)) then
    stored_under data "md_content" (return_md req) (fs w)
      (Py.os_path_join subtree [stem +:+ ".md"])
    ∧ stored_under data "middle_json" (return_middle_json req) (fs w)
        (Py.os_path_join subtree [stem +:+ "_middle.json"])
    ∧ stored_under data "model_output" (return_model_output req) (fs w)
        (Py.os_path_join subtree [stem +:+ model_suffix])
    ∧ stored_under data "content_list" (return_content_list req) (fs w)
        (Py.os_path_join subtree [stem +:+ "_content_list.json"])
    ∧ (if return_images req
       then ∃ images,
              images_dict (glob (subtree +:+ "/images/*.jpg") (fs w)) ∅ w = (Normal images, w)
              ∧ data !! "images" = Some (PDict images)
       else data !! "images" = None)
  else data = ∅.

(** A computation that leaves the world as it found it and never returns
    early. *)
Definition observer {A} (m : M A) : Prop :=
  ∀ w, (m w).2 = w ∧ ∀ r, (m w).1 ≠ Return r.

End Pieces.

(** ** A concrete set of collaborators, to run the handler on *)

Module Demo.

Definition b64_alphabet : string :=
  "ABCDEFGHIJKLMNOPQRSTUVWXYZabcdefghijklmnopqrstuvwxyz0123456789+/".

Definition b64_char (i : N) : ascii :=
  match String.get (N.to_nat i) b64_alphabet with
  | Some c => c
  | None => "="%char
  end.

(** Base64 with padding, three bytes to four characters. *)
Fixpoint b64_groups (bytes : list N) : list ascii :=
  match bytes with
  | a :: b :: c :: rest =>
      let n := (a * 65536 + b * 256 + c)%N in
      b64_char (n / 262144) :: b64_char ((n / 4096) mod 64)
        :: b64_char ((n / 64) mod 64) :: b64_char (n mod 64) :: b64_groups rest
  | [a; b] =>
      let n := (a * 65536 + b * 256)%N in
      [b64_char (n / 262144); b64_char ((n / 4096) mod 64);
       b64_char ((n / 64) mod 64); "="%char]
  | [a] =>
      let n := (a * 65536)%N in
      [b64_char (n / 262144); b64_char ((n / 4096) mod 64); "="%char; "="%char]
  | [] => []
  end.

Definition base64 (data : string) : string :=
  String.string_of_list_ascii (b64_groups (N_of_ascii <$> String.list_ascii_of_string data)).

(** The codec, restricted to the single-byte range of UTF-8. *)
Definition decode_ascii (data : string) : result string :=
  if forallb (λ c, (N_of_ascii c <? 128)%N) (String.list_ascii_of_string data)
  then Ok data
  else Exception "'utf-8' codec can't decode bytes".

(** A decoder that goes by the suffix of the path: the bytes of a PDF are
    handed back as they are, an image is converted when its bytes start
    with [PNG] and rejected otherwise. *)
Definition read_by_suffix (p : string) (disk : gmap string node) : result string :=
  match disk !! p with
  | Some (File data) =>
      if bool_decide (Py.Path_suffix p ∈ [".png"; ".jpeg"; ".jpg"]) then
        if String.prefix "PNG" data then Ok ("%PDF-of-image " +:+ data)
        else Exception "cannot identify image file"
      else if bool_decide (Py.Path_suffix p ∈ [".pdf"]) then Ok data
      else Exception ("Unknown file suffix: " +:+ Py.Path_suffix p)
  | _ => Exception ("[Errno 2] No such file or directory: '" +:+ p +:+ "'")
  end.

(** Identifiers [u], [ux], [uxx], ... *)
Fixpoint uuid_unary (k : nat) : string :=
  match k with
  | O => "u"
  | S k' => uuid_unary k' +:+ "x"
  end.

(** An engine that writes, for every stem but [skipped], the output
    subtree and the markdown file when asked to, and that fails on the
    backend [pipeline-broken]. *)
Definition engine_outputs (args : EngineArgs) (disk : gmap string node) (stem : string)
  : gmap string node :=
  if bool_decide (stem = "skipped") then disk
  else
    let subtree :=
      output_subtree (family_of (kw_backend args)) (kw_output_dir args) stem
        (kw_parse_method args) in
    let disk := <[subtree := Dir]> disk in
    if kw_f_dump_md args
    then <[Py.os_path_join subtree [stem +:+ ".md"] := File ("# " +:+ stem)]> disk
    else disk.

Definition engine_md (args : EngineArgs) (disk : gmap string node)
  : gmap string node * result unit :=
  if bool_decide (kw_backend args = "pipeline-broken")
  then (disk, Exception "engine failure")
  else (foldl (engine_outputs args) disk (kw_pdf_file_names args), Ok ()).

(** [glob] for patterns of the shape [dir/*.jpg]. *)
Definition glob_jpg (pattern : string) (disk : gmap string node) : list string :=
  let dir := Py.upto_index (String.length pattern - 5) pattern in
  filter (λ p, String.prefix dir p = true ∧ Py.Path_suffix p = ".jpg")
    (map_to_list disk).*1.

#[export] Instance collaborators : Collaborators := {|
  pdf_suffixes := [".pdf"];
  image_suffixes := [".png"; ".jpeg"; ".jpg"];
  read_fn := read_by_suffix;
  aio_do_parse := engine_md;
  uuid4 := uuid_unary;
  glob := glob_jpg;
  b64encode := base64;
  decode_utf8 := decode_ascii;
  __version__ := "2.0.0";
  config := [];
  aio_do_parse_str := "mineru.cli.common.aio_do_parse()"
|}.

(** The same process started with [--backend vlm-transformers]. *)
Definition clashing : Collaborators := {|
  pdf_suffixes := [".pdf"];
  image_suffixes := [".png"; ".jpeg"; ".jpg"];
  read_fn := read_by_suffix;
  aio_do_parse := engine_md;
  uuid4 := uuid_unary;
  glob := glob_jpg;
  b64encode := base64;
  decode_utf8 := decode_ascii;
  __version__ := "2.0.0";
  config := [("backend", CStr "vlm-transformers")];
  aio_do_parse_str := "mineru.cli.common.aio_do_parse()"
|}.

(** A request that leaves the toggles, the server URL, the output root
    and the page range at the defaults of the form. *)
Definition request_with (uploads : list UploadFile) (langs : list string)
  (backend_id : string) (md middle model contents images : bool) : Request := {|
  files := uploads;
  output_dir := "./output";
  lang_list := langs;
  backend := backend_id;
  parse_method := "auto";
  formula_enable := true;
  table_enable := true;
  server_url := None;
  return_md := md;
  return_middle_json := middle;
  return_model_output := model;
  return_content_list := contents;
  return_images := images;
  start_page_id := 0;
  end_page_id := 99999
|}.

(** A request with every form field at its default. *)
Definition request (uploads : list UploadFile) : Request :=
  request_with uploads ["ch"] "pipeline" true false false false false.

Definition upload (name data : string) : UploadFile :=
  {| filename := name; file_bytes := data |}.

(** The line ends [\r\n] and [\n]. *)
Definition crlf : string := String "013" (String "010" EmptyString).

Definition lf : string := String "010" EmptyString.

(** A request for the rendered text of one file, with a parse method
    that is an absolute path. *)
Definition request_absolute (uploads : list UploadFile) : Request := {|
  files := uploads;
  output_dir := "./output";
  lang_list := ["ch"];
  backend := "pipeline";
  parse_method := "/srv/shared";
  formula_enable := true;
  table_enable := true;
  server_url := None;
  return_md := true;
  return_middle_json := false;
  return_model_output := false;
  return_content_list := false;
  return_images := false;
  start_page_id := 0;
  end_page_id := 99999
|}.

End Demo.


(** ** Process start and the health endpoint *)

Module PyDict.

(** [d[k]] as [d.get(k)]: the value under the key, if any. *)
Fixpoint get {V} (k : string) (d : list (string * V)) : option V :=
  match d with
  | [] => None
  | (k', v) :: rest => if bool_decide (k = k') then Some v else get k rest
  end.

(** [d[k] = v]: a key that is there keeps its place, a new key goes to
    the end. *)
Fixpoint setitem {V} (k : string) (v : V) (d : list (string * V)) : list (string * V) :=
  match d with
  | [] => [(k, v)]
  | (k', v') :: rest =>
      if bool_decide (k = k') then (k, v) :: rest else (k', v') :: setitem k v rest
  end.

(** [d1 |= d2] *)
Definition ior {V} (d1 d2 : list (string * V)) : list (string * V) :=
  foldl (λ d kv, setitem kv.1 kv.2 d) d1 d2.

End PyDict.

(** [app.state], as far as the file uses it: the attribute [config] is
    set or not. *)
Record AppState : Type := {
  state_config : option (list (string * cfgval))
}.

(** [main], lines 228-233: [kwargs |= arg_parse(ctx)] and
    [app.state.config = kwargs]. [parsed] stands for what [arg_parse(ctx)]
    returns; the banner and [uvicorn.run] are left out. *)
Definition main (kwargs parsed : list (string * cfgval)) (st : AppState) : AppState :=
  let kwargs := PyDict.ior kwargs parsed in
  {| state_config := Some kwargs |}.

(** [getattr(app.state, "config", {})], line 91. *)
Definition getattr_config (st : AppState) : list (string * cfgval) :=
  default [] (state_config st).

(** The collaborators a request meets when the application state is
    [st]. *)
Definition serving (C : Collaborators) (st : AppState) : Collaborators := {|
  pdf_suffixes := @pdf_suffixes C;
  image_suffixes := @image_suffixes C;
  read_fn := @read_fn C;
  aio_do_parse := @aio_do_parse C;
  uuid4 := @uuid4 C;
  glob := @glob C;
  b64encode := @b64encode C;
  decode_utf8 := @decode_utf8 C;
  __version__ := @__version__ C;
  config := getattr_config st;
  aio_do_parse_str := @aio_do_parse_str C
|}.

Section Endpoints.
Context `{Collaborators}.

(** [health_check], lines 51-54. *)
Definition health_check : gmap string string :=
  {[ "status" := "healthy"; "service" := "mineru-api"; "version" := __version__ ]}.

(** The disk once [os.makedirs] has made the workspace, with the
    directories above it that were missing, and every upload has been
    staged, decoded and removed again. *)
Definition staged_disk (unique_dir : string) (uploads : list UploadFile)
  (disk : gmap string node) : gmap string node :=
  foldl (λ d f, delete (temp_path unique_dir f) d)
    (match makedirs_on unique_dir disk with
     | Ok made => made
     | Exception _ => disk
     end) uploads.

(** The keys of the artifact kinds a request asks for. *)
Definition requested_keys (req : Request) : gset string :=
  list_to_set (kind_key <$> filter (λ k, kind_requested req k = true) text_kinds)
  ∪ (if return_images req then {[ "images" ]} else ∅).

(** The same form with other uploads. *)
Definition with_files (uploads : list UploadFile) (req : Request) : Request := {|
  files := uploads;
  output_dir := output_dir req;
  lang_list := lang_list req;
  backend := backend req;
  parse_method := parse_method req;
  formula_enable := formula_enable req;
  table_enable := table_enable req;
  server_url := server_url req;
  return_md := return_md req;
  return_middle_json := return_middle_json req;
  return_model_output := return_model_output req;
  return_content_list := return_content_list req;
  return_images := return_images req;
  start_page_id := start_page_id req;
  end_page_id := end_page_id req
|}.

(** The inline form of an image, line 199. *)
Definition data_uri (data : string) : string :=
  "data:image/jpeg;base64," +:+ b64encode data.

End Endpoints.

(** * Properties *)

(** ** The path helpers on examples *)

Example lower_TIFF : Py.lower ".TiFf" = ".tiff".
Proof. reflexivity. Qed.

Example suffix_report : Py.Path_suffix "dir/report.v2.PDF" = ".PDF".
Proof. reflexivity. Qed.

Example stem_report : Py.Path_stem "dir/report.v2.PDF" = "report.v2".
Proof. reflexivity. Qed.

Example suffix_hidden : Py.Path_suffix ".bashrc" = "".
Proof. reflexivity. Qed.

Example join_three :
  Py.os_path_join "./output/u" ["report"; "auto"] = "./output/u/report/auto".
Proof. reflexivity. Qed.

Example join_absolute : Py.os_path_join "./output/u" ["report"; "/tmp"] = "/tmp".
Proof. reflexivity. Qed.

Example div_temp : Py.Path_div "./output/u" "report.pdf" = "output/u/report.pdf".
Proof. reflexivity. Qed.

Example basename_img : Py.os_path_basename "a/b/images/x.jpg" = "x.jpg".
Proof. reflexivity. Qed.

Example split_workspace : Py.os_path_split "./output/u" = ("./output", "u").
Proof. reflexivity. Qed.

Example split_slashes : Py.os_path_split "a//b" = ("a", "b").
Proof. reflexivity. Qed.

Example split_root : Py.os_path_split "/u" = ("/", "u").
Proof. reflexivity. Qed.

Example parents_workspace : Py.parents "./output/u" = ["./output"; "."].
Proof. reflexivity. Qed.

Example parents_absolute : Py.parents "/data/out/u" = ["/data/out"; "/data"; "/"].
Proof. reflexivity. Qed.

Example newlines_of_text :
  Py.universal_newlines ("a" +:+ Demo.crlf +:+ "b" +:+ String "013" "c" +:+ Demo.lf)
  = "a" +:+ Demo.lf +:+ "b" +:+ Demo.lf +:+ "c" +:+ Demo.lf.
Proof. reflexivity. Qed.

Example makedirs_first_request :
  makedirs_on "./output/u" ∅ = Ok {[ "./output" := Dir; "./output/u" := Dir ]}.
Proof. vm_compute. reflexivity. Qed.

Example makedirs_root_is_there :
  makedirs_on "./output/u" {[ "./output" := Dir ]}
  = Ok {[ "./output" := Dir; "./output/u" := Dir ]}.
Proof. vm_compute. reflexivity. Qed.

Example makedirs_under_a_file :
  makedirs_on "./output/u" {[ "./output" := File "notes" ]}
  = Exception "[Errno 20] Not a directory: './output/u'".
Proof. vm_compute. reflexivity. Qed.

Example makedirs_deep_under_a_file :
  makedirs_on "a/b/c" {[ "a" := File "notes" ]}
  = Exception "[Errno 20] Not a directory: 'a/b'".
Proof. vm_compute. reflexivity. Qed.

Example base64_padding :
  (Demo.base64 "Man", Demo.base64 "Ma", Demo.base64 "M") = ("TWFu", "TWE=", "TQ==").
Proof. reflexivity. Qed.

(** ** Joining plain components *)

Lemma append_assoc a b c : (a +:+ b) +:+ c = a +:+ b +:+ c.
Proof.
  induction a as [|x a IH]; [done|].
  change (String x ((a +:+ b) +:+ c) = String x (a +:+ b +:+ c)). by rewrite IH.
Qed.

Lemma append_empty_r a b : a +:+ b = "" → b = "".
Proof. destruct a; [done|discriminate]. Qed.

Lemma endswith_sep_app a b :
  b ≠ "" → Py.endswith_sep (a +:+ b) = Py.endswith_sep b.
Proof.
  intros Hb. induction a as [|c a IH]; [done|].
  change (String c a +:+ b) with (String c (a +:+ b)).
  destruct (a +:+ b) as [|c' rest] eqn:Hab.
  - by apply append_empty_r in Hab.
  - exact IH.
Qed.

Lemma join2_plain a b :
  a ≠ "" → Py.endswith_sep a = false → Py.startswith b "/" = false →
  Py.join2 a b = a +:+ "/" +:+ b.
Proof.
  intros Ha Hsep Hb. unfold Py.join2. rewrite Hb, Hsep.
  by rewrite bool_decide_eq_false_2.
Qed.

(** For a workspace, a stem and a parse method that are plain relative
    names, the subtree is the three of them with a slash in between. *)
Lemma output_subtree_plain fam workspace stem parse_method :
  workspace ≠ "" → Py.endswith_sep workspace = false →
  stem ≠ "" → Py.startswith stem "/" = false → Py.endswith_sep stem = false →
  Py.startswith parse_method "/" = false →
  output_subtree fam workspace stem parse_method
  = workspace +:+ "/" +:+ stem +:+ "/"
      +:+ match fam with PipelineFamily => parse_method | AlternateFamily => "vlm" end.
Proof.
  intros Hw Hwsep Hs Hsabs Hssep Hp.
  assert (Py.join2 workspace stem = workspace +:+ "/" +:+ stem) as Hfirst
    by by apply join2_plain.
  assert (∀ last, Py.startswith last "/" = false →
            Py.join2 (workspace +:+ "/" +:+ stem) last
            = workspace +:+ "/" +:+ stem +:+ "/" +:+ last) as Hsecond.
  { intros last Hlast. rewrite join2_plain; [| | |done].
    - by rewrite !append_assoc.
    - intros Hempty. by apply append_empty_r in Hempty.
    - rewrite endswith_sep_app by done.
      change ("/" +:+ stem) with (String "/" stem).
      destruct stem; [done|exact Hssep]. }
  unfold output_subtree, Py.os_path_join. destruct fam; simpl; rewrite Hfirst.
  - by apply Hsecond.
  - by apply Hsecond.
Qed.

(** ** The monad *)

Lemma bind_Normal {A B} (m : M A) (k : A → M B) w b w' :
  bind m k w = (Normal b, w') →
  ∃ a w1, m w = (Normal a, w1) ∧ k a w1 = (Normal b, w').
Proof.
  unfold bind. destruct (m w) as [[a|r|e] w1]; intros Hk; try discriminate.
  by exists a, w1.
Qed.

Lemma bind_Return {A B} (m : M A) (k : A → M B) w r w' :
  bind m k w = (Return r, w') →
  m w = (Return r, w') ∨ ∃ a w1, m w = (Normal a, w1) ∧ k a w1 = (Return r, w').
Proof.
  unfold bind. destruct (m w) as [[a|r1|e] w1]; intros Hk; try discriminate.
  - right. by exists a, w1.
  - left. congruence.
Qed.

Lemma bind_Raise {A B} (m : M A) (k : A → M B) w e w' :
  bind m k w = (Raise e, w') →
  m w = (Raise e, w') ∨ ∃ a w1, m w = (Normal a, w1) ∧ k a w1 = (Raise e, w').
Proof.
  unfold bind. destruct (m w) as [[a|r|e1] w1]; intros Hk; try discriminate.
  - right. by exists a, w1.
  - left. congruence.
Qed.

Lemma observer_ret {A} (a : A) : observer (ret a).
Proof. intros w. split; [done|]. intros r. discriminate. Qed.

Lemma observer_raise {A} e : observer (@raise A e).
Proof. intros w. split; [done|]. intros r. discriminate. Qed.

Lemma observer_bind {A B} (m : M A) (k : A → M B) :
  observer m → (∀ a, observer (k a)) → observer (bind m k).
Proof.
  intros Hm Hk w. unfold bind. destruct (Hm w) as [Hw Hr].
  destruct (m w) as [[a|r|e] w1]; simpl in *; subst.
  - apply Hk.
  - by destruct (Hr r).
  - split; [done|]. intros r. discriminate.
Qed.

(** What an observer does is told by its outcome alone. *)
Lemma observer_run {A} (m : M A) w :
  observer m → m w = ((m w).1, w).
Proof. intros Hm. destruct (Hm w) as [Hw _]. destruct (m w); simpl in *. by subst. Qed.

(** ** File-system primitives *)

Lemma mkdirs_lookup dirs disk q :
  mkdirs dirs disk !! q = if bool_decide (q ∈ dirs) then Some Dir else disk !! q.
Proof.
  unfold mkdirs. revert disk. induction dirs as [|d rest IH]; intros disk.
  - rewrite bool_decide_eq_false_2; [done|]. apply not_elem_of_nil.
  - cbn [foldl]. rewrite IH. destruct (decide (q ∈ rest)) as [Hin|Hnotin].
    + rewrite !bool_decide_eq_true_2; [done| |done]. by right.
    + rewrite (bool_decide_eq_false_2 (q ∈ rest)) by done.
      destruct (decide (q = d)) as [->|Hne].
      * rewrite bool_decide_eq_true_2 by left. by rewrite lookup_insert_eq.
      * rewrite bool_decide_eq_false_2.
        -- by rewrite lookup_insert_ne.
        -- by intros [?|?]%elem_of_cons.
Qed.

(** The paths to create: the one asked for, the missing ones met so far,
    and paths above. *)
Lemma missing_dirs_keeps disk above child below dirs :
  missing_dirs disk above child below = Ok dirs →
  ∀ q, q ∈ child :: below → q ∈ dirs.
Proof.
  revert child below. induction above as [|a up IH]; intros child below; simpl.
  - by intros [= <-].
  - destruct (node_above disk a) as [[|data]|]; [by intros [= <-]|discriminate|].
    intros Hup q Hq. apply (IH _ _ Hup). by right.
Qed.

Lemma missing_dirs_among disk above child below dirs :
  missing_dirs disk above child below = Ok dirs →
  ∀ q, q ∈ dirs → q ∈ child :: below ∨ q ∈ above.
Proof.
  revert child below. induction above as [|a up IH]; intros child below; simpl.
  - intros [= <-] q Hq. by left.
  - destruct (node_above disk a) as [[|data]|]; [intros [= <-] q Hq; by left|discriminate|].
    intros Hup q Hq. destruct (IH _ _ Hup q Hq) as [[->|Hin]%elem_of_cons|Hin].
    + right. left.
    + by left.
    + right. by right.
Qed.

Lemma makedirs_on_Ok p disk disk' :
  makedirs_on p disk = Ok disk' →
  disk' !! p = Some Dir
  ∧ (∀ q, disk !! q = Some Dir → disk' !! q = Some Dir)
  ∧ (∀ q, disk' !! q = disk !! q ∨ disk' !! q = Some Dir ∧ (q = p ∨ q ∈ Py.parents p))
  ∧ ∀ q, q ≠ p → q ∉ Py.parents p → disk' !! q = disk !! q.
Proof.
  unfold makedirs_on. destruct (disk !! p) as [[|data]|] eqn:Hp; [|discriminate|].
  - intros [= <-]. split_and!; [done|done|by left|done].
  - destruct (missing_dirs disk (Py.parents p) p []) as [dirs|e] eqn:Hdirs; [|discriminate].
    intros [= <-].
    pose proof (missing_dirs_keeps _ _ _ _ _ Hdirs) as Hkeeps.
    pose proof (missing_dirs_among _ _ _ _ _ Hdirs) as Hamong.
    assert (∀ q, q ∈ dirs → q = p ∨ q ∈ Py.parents p) as Hwhere.
    { intros q Hq. destruct (Hamong q Hq) as [[->|Hnil]%elem_of_cons|Hin].
      - by left.
      - by apply elem_of_nil in Hnil.
      - by right. }
    split_and!.
    + rewrite mkdirs_lookup. rewrite bool_decide_eq_true_2; [done|]. apply Hkeeps. left.
    + intros q Hq. rewrite mkdirs_lookup. by destruct (bool_decide (q ∈ dirs)).
    + intros q. rewrite mkdirs_lookup. destruct (decide (q ∈ dirs)) as [Hin|Hnotin].
      * rewrite bool_decide_eq_true_2 by done. right. split; [done|]. by apply Hwhere.
      * rewrite bool_decide_eq_false_2 by done. by left.
    + intros q Hne Hnotin. rewrite mkdirs_lookup. rewrite bool_decide_eq_false_2; [done|].
      intros Hin. destruct (Hwhere q Hin); done.
Qed.

Lemma os_makedirs_Normal p w w' :
  os_makedirs p w = (Normal (), w') →
  fs w' !! p = Some Dir
  ∧ uuid_draws w' = uuid_draws w ∧ engine_calls w' = engine_calls w
  ∧ ∀ q, fs w !! q = Some Dir → fs w' !! q = Some Dir.
Proof.
  unfold os_makedirs. destruct (makedirs_on p (fs w)) as [disk'|e] eqn:Hmk; [|discriminate].
  intros [= <-]. apply makedirs_on_Ok in Hmk as (Hdir & Hkeep & _). by split_and!.
Qed.

(** A call that raises has created nothing. *)
Lemma os_makedirs_Raise p w e w' :
  os_makedirs p w = (Raise e, w') → w' = w.
Proof.
  unfold os_makedirs. destruct (makedirs_on p (fs w)) as [disk'|e']; intros Hm;
    by simplify_eq.
Qed.

Lemma os_makedirs_not_Return p w r w' : os_makedirs p w ≠ (Return r, w').
Proof. unfold os_makedirs. by destruct (makedirs_on p (fs w)). Qed.


Lemma observer_os_path_exists p : observer (os_path_exists p).
Proof. intros w. split; [done|]. intros r. discriminate. Qed.

Lemma observer_open_read_bytes p : observer (open_read_bytes p).
Proof.
  intros w. unfold open_read_bytes. destruct (fs w !! p) as [[|data]|];
    (split; [done|]; intros r; discriminate).
Qed.

Section Facts.
Context `{Collaborators}.

Lemma observer_open_read_text p : observer (open_read_text p).
Proof.
  apply observer_bind; [apply observer_open_read_bytes|].
  intros data. destruct (decode_utf8 data); [apply observer_ret|apply observer_raise].
Qed.

Lemma observer_get_infer_result suffix pdf_name parse_dir :
  observer (get_infer_result suffix pdf_name parse_dir).
Proof.
  apply observer_bind; [apply observer_os_path_exists|].
  intros [|]; [|apply observer_ret].
  apply observer_bind; [apply observer_open_read_text|]. intros s. apply observer_ret.
Qed.

Lemma observer_encode_image p : observer (encode_image p).
Proof.
  apply observer_bind; [apply observer_open_read_bytes|]. intros d. apply observer_ret.
Qed.

Lemma observer_images_dict image_paths acc : observer (images_dict image_paths acc).
Proof.
  revert acc. induction image_paths as [|p rest IH]; intros acc; simpl.
  - apply observer_ret.
  - apply observer_bind; [apply observer_encode_image|]. intros enc. apply IH.
Qed.

(** A read of a file that is not there yields [None] and raises nothing. *)
Lemma get_infer_result_absent suffix pdf_name parse_dir w :
  fs w !! Py.os_path_join parse_dir [pdf_name +:+ suffix] = None →
  get_infer_result suffix pdf_name parse_dir w = (Normal None, w).
Proof.
  intros Hp. unfold get_infer_result, bind, os_path_exists.
  rewrite Hp. rewrite bool_decide_eq_false_2; [done|]. by intros [? ?].
Qed.

(** A read of a regular file yields its decoded text, with the line
    ends text mode makes of it, or raises what the codec raises. *)
Lemma get_infer_result_present suffix pdf_name parse_dir w data :
  fs w !! Py.os_path_join parse_dir [pdf_name +:+ suffix] = Some (File data) →
  get_infer_result suffix pdf_name parse_dir w
  = (match decode_utf8 data with
     | Ok s => Normal (Some (Py.universal_newlines s))
     | Exception e => Raise e
     end, w).
Proof.
  intros Hp. unfold get_infer_result, bind, os_path_exists, open_read_text, bind,
    open_read_bytes.
  rewrite Hp. rewrite bool_decide_eq_true_2 by eauto.
  rewrite Hp. by destruct (decode_utf8 data).
Qed.

Lemma get_infer_result_directory suffix pdf_name parse_dir w :
  fs w !! Py.os_path_join parse_dir [pdf_name +:+ suffix] = Some Dir →
  ∃ e, get_infer_result suffix pdf_name parse_dir w = (Raise e, w).
Proof.
  intros Hp. unfold get_infer_result, bind, os_path_exists, open_read_text, bind,
    open_read_bytes.
  rewrite Hp. rewrite bool_decide_eq_true_2 by eauto. rewrite Hp. eauto.
Qed.

(** A read that raises nothing stored the value of the file. *)
Lemma get_infer_result_value suffix pdf_name parse_dir w v w' :
  get_infer_result suffix pdf_name parse_dir w = (Normal v, w') →
  artifact_value (fs w) (Py.os_path_join parse_dir [pdf_name +:+ suffix])
  = Some (of_optional v).
Proof.
  unfold artifact_value.
  destruct (fs w !! Py.os_path_join parse_dir [pdf_name +:+ suffix]) as [[|data]|] eqn:Hp.
  - destruct (get_infer_result_directory _ _ _ _ Hp) as [e ->]. discriminate.
  - rewrite (get_infer_result_present _ _ _ _ _ Hp).
    destruct (decode_utf8 data); [|discriminate]. by intros [= <- _].
  - rewrite (get_infer_result_absent _ _ _ _ Hp). by intros [= <- _].
Qed.

(** ** Staging *)

(** The loop body, by cases on the check, the write and the decoder. *)
Lemma stage_file_eq unique_dir file names payloads w :
  stage_file unique_dir file names payloads w =
    if accepted file then
      match fs w !! temp_path unique_dir file with
      | Some Dir =>
          (Raise ("[Errno 21] Is a directory: '" +:+ temp_path unique_dir file +:+ "'"), w)
      | _ =>
          let disk := <[temp_path unique_dir file := File (file_bytes file)]> (fs w) in
          match read_fn (temp_path unique_dir file) disk with
          | Ok b =>
              (Normal (names ++ [stem_of file], payloads ++ [b]),
               set_fs (delete (temp_path unique_dir file) (fs w)) w)
          | Exception e => (Return (load_failed_response e), set_fs disk w)
          end
      end
    else (Return (unsupported_response file), w).
Proof.
  unfold stage_file, accepted, temp_path, stem_of.
  destruct (bool_decide _) eqn:Hacc; simpl; [|done].
  set (p := Py.Path_div unique_dir (Py.Path_name (filename file))).
  assert (∀ disk0 : gmap string node,
    (disk0 = <[p := File (file_bytes file)]> (fs w)) →
    try_except
      (bind (call_read_fn p) (λ pdf_bytes,
         bind (os_remove p) (λ _, ret (names ++ [Py.Path_stem (filename file)],
                                       payloads ++ [pdf_bytes]))))
      (λ e, return_ {| status_code := 400;
                       content := {[ "error" := JStr ("Failed to load file: " +:+ e) ]} |})
      (set_fs disk0 w)
    = match read_fn p disk0 with
      | Ok b => (Normal (names ++ [Py.Path_stem (filename file)], payloads ++ [b]),
                 set_fs (delete p (fs w)) w)
      | Exception e => (Return (load_failed_response e), set_fs disk0 w)
      end) as Htry.
  { intros disk0 ->. unfold try_except, bind, call_read_fn, os_remove, ret, return_. simpl.
    destruct (read_fn p _) as [b|e]; [|done].
    unfold set_fs; simpl. rewrite lookup_insert_eq. simpl. by rewrite delete_insert_eq. }
  unfold bind at 1. unfold open_write.
  destruct (fs w !! p) as [[|data]|] eqn:Hp; [done| |]; by apply Htry.
Qed.

Lemma stage_file_world unique_dir file names payloads w o w' :
  stage_file unique_dir file names payloads w = (o, w') →
  uuid_draws w' = uuid_draws w ∧ engine_calls w' = engine_calls w
  ∧ ∀ q, fs w !! q = Some Dir → fs w' !! q = Some Dir.
Proof.
  rewrite stage_file_eq. set (p := temp_path unique_dir file).
  destruct (accepted file); [|intros; by simplify_eq].
  assert (∀ q, fs w !! p ≠ Some Dir → fs w !! q = Some Dir → p ≠ q) as Hne
    by (intros q Hp Hq ->; done).
  destruct (fs w !! p) as [[|data]|] eqn:Hp; [intros; by simplify_eq| |];
    simpl; destruct (read_fn p _); intros; simplify_eq; simpl; repeat split; try done;
    intros q Hq; specialize (Hne q ltac:(done) Hq);
    rewrite ?lookup_delete_ne, ?lookup_insert_ne; done.
Qed.

Lemma stage_file_Normal unique_dir file names payloads w acc w' :
  stage_file unique_dir file names payloads w = (Normal acc, w') →
  accepted file = true
  ∧ fs w' = delete (temp_path unique_dir file) (fs w)
  ∧ ∃ b, acc = (names ++ [stem_of file], payloads ++ [b])
         ∧ read_fn (temp_path unique_dir file)
             (<[temp_path unique_dir file := File (file_bytes file)]> (fs w)) = Ok b.
Proof.
  rewrite stage_file_eq. set (p := temp_path unique_dir file).
  destruct (accepted file); [|discriminate].
  destruct (fs w !! p) as [[|data]|] eqn:Hp; [discriminate| |];
    simpl; destruct (read_fn p _) as [b|e] eqn:Hr; intros; simplify_eq; simpl; eauto.
Qed.

Lemma stage_file_Return unique_dir file names payloads w r w' :
  stage_file unique_dir file names payloads w = (Return r, w') →
  (accepted file = false ∧ r = unsupported_response file ∧ w' = w)
  ∨ (accepted file = true
     ∧ fs w' !! temp_path unique_dir file = Some (File (file_bytes file))
     ∧ ∃ e, read_fn (temp_path unique_dir file) (fs w') = Exception e
            ∧ r = load_failed_response e).
Proof.
  rewrite stage_file_eq. set (p := temp_path unique_dir file).
  destruct (accepted file); [|intros; simplify_eq; by left].
  destruct (fs w !! p) as [[|data]|] eqn:Hp; [discriminate| |];
    simpl; destruct (read_fn p _) as [b|e] eqn:Hr; intros; simplify_eq; simpl;
    right; rewrite lookup_insert_eq; eauto.
Qed.

Lemma stage_file_Raise unique_dir file names payloads w e w' :
  stage_file unique_dir file names payloads w = (Raise e, w') →
  accepted file = true ∧ fs w !! temp_path unique_dir file = Some Dir ∧ w' = w.
Proof.
  rewrite stage_file_eq. set (p := temp_path unique_dir file).
  destruct (accepted file); [|discriminate].
  destruct (fs w !! p) as [[|data]|] eqn:Hp; [intros; by simplify_eq| |];
    simpl; destruct (read_fn p _); discriminate.
Qed.

Lemma stage_files_cons unique_dir file rest names payloads w :
  stage_files unique_dir (file :: rest) names payloads w =
    match stage_file unique_dir file names payloads w with
    | (Normal acc, w1) => stage_files unique_dir rest acc.1 acc.2 w1
    | (Return r, w1) => (Return r, w1)
    | (Raise e, w1) => (Raise e, w1)
    end.
Proof. reflexivity. Qed.

Lemma stage_files_app unique_dir pre post names payloads w :
  stage_files unique_dir (pre ++ post) names payloads w =
    match stage_files unique_dir pre names payloads w with
    | (Normal acc, w1) => stage_files unique_dir post acc.1 acc.2 w1
    | (Return r, w1) => (Return r, w1)
    | (Raise e, w1) => (Raise e, w1)
    end.
Proof.
  revert names payloads w. induction pre as [|f pre IH]; intros names payloads w.
  - reflexivity.
  - rewrite <- app_comm_cons, !stage_files_cons.
    destruct (stage_file unique_dir f names payloads w) as [[acc|r|e] w1]; [|done..].
    apply IH.
Qed.

Lemma stage_files_world unique_dir files names payloads w o w' :
  stage_files unique_dir files names payloads w = (o, w') →
  uuid_draws w' = uuid_draws w ∧ engine_calls w' = engine_calls w
  ∧ ∀ q, fs w !! q = Some Dir → fs w' !! q = Some Dir.
Proof.
  revert names payloads w. induction files as [|f rest IH]; intros names payloads w.
  - intros [= <- <-]. done.
  - rewrite stage_files_cons.
    destruct (stage_file unique_dir f names payloads w) as [o1 w1] eqn:Hf.
    apply stage_file_world in Hf as (Hu & Hc & Hd).
    destruct o1 as [acc|r|e].
    + intros Hrest. apply IH in Hrest as (Hu' & Hc' & Hd').
      repeat split; [congruence..|]. intros q Hq. by apply Hd', Hd.
    + intros [= <- <-]. done.
    + intros [= <- <-]. done.
Qed.

(** A staging loop that runs to its end accepted and decoded every file,
    in upload order, and left no temporary copy behind. *)
Lemma stage_files_Normal unique_dir files names payloads w names' payloads' w' :
  stage_files unique_dir files names payloads w = (Normal (names', payloads'), w') →
  Forall (λ f, accepted f = true) files
  ∧ names' = names ++ (stem_of <$> files)
  ∧ (∃ bs, payloads' = payloads ++ bs
           ∧ Forall2 (λ f b, ∃ disk, disk !! temp_path unique_dir f = Some (File (file_bytes f))
                                      ∧ read_fn (temp_path unique_dir f) disk = Ok b) files bs)
  ∧ (∀ f, f ∈ files → fs w' !! temp_path unique_dir f = None)
  ∧ (∀ q, fs w !! q = None → fs w' !! q = None).
Proof.
  revert names payloads w. induction files as [|f rest IH]; intros names payloads w.
  - intros [= <- <- <-]. rewrite !app_nil_r. split_and!; try done.
    + exists []. by rewrite app_nil_r.
    + intros f Hf. by apply elem_of_nil in Hf.
  - rewrite stage_files_cons.
    destruct (stage_file unique_dir f names payloads w) as [[acc|r|e] w1] eqn:Hf;
      [|discriminate..].
    apply stage_file_Normal in Hf as (Hacc & Hfs & b & -> & Hread). simpl.
    intros Hrest. apply IH in Hrest as (Hall & -> & (bs & -> & Hdec) & Hgone & Hnone).
    split_and!.
    + by constructor.
    + by rewrite <- app_assoc.
    + exists (b :: bs). split; [by rewrite <- app_assoc|].
      constructor; [|done]. eexists. split; [|exact Hread]. by rewrite lookup_insert_eq.
    + intros g [->|Hg]%elem_of_cons; [|by apply Hgone].
      apply Hnone. rewrite Hfs. apply lookup_delete_eq.
    + intros q Hq. apply Hnone. rewrite Hfs.
      destruct (decide (temp_path unique_dir f = q)) as [<-|Hne].
      * apply lookup_delete_eq.
      * by rewrite lookup_delete_ne.
Qed.

(** A staging loop that returns early stopped at the first file that is
    unsupported or fails to decode; in the second case the temporary copy
    of that file is still on the disk. *)
Lemma stage_files_Return unique_dir files names payloads w r w' :
  stage_files unique_dir files names payloads w = (Return r, w') →
  ∃ pre f post,
    files = pre ++ f :: post
    ∧ Forall (λ f, accepted f = true) pre
    ∧ ((accepted f = false ∧ r = unsupported_response f)
       ∨ (accepted f = true
          ∧ fs w' !! temp_path unique_dir f = Some (File (file_bytes f))
          ∧ ∃ e, read_fn (temp_path unique_dir f) (fs w') = Exception e
                 ∧ r = load_failed_response e)).
Proof.
  revert names payloads w. induction files as [|f rest IH]; intros names payloads w.
  - discriminate.
  - rewrite stage_files_cons.
    destruct (stage_file unique_dir f names payloads w) as [[acc|r1|e] w1] eqn:Hf;
      [| |discriminate].
    + apply stage_file_Normal in Hf as (Hacc & _).
      intros Hrest. apply IH in Hrest as (pre & g & post & -> & Hpre & Hg).
      exists (f :: pre), g, post. split_and!; [done|by constructor|done].
    + intros [= <- <-]. exists [], f, rest. split_and!; [done|constructor|].
      apply stage_file_Return in Hf as [(? & ? & ?)|(? & ? & ?)]; [left|right]; done.
Qed.

(** With an unsupported file among the uploads the staging loop never
    runs to its end. *)
Lemma stage_files_unsupported unique_dir files names payloads w acc w' :
  Exists (λ f, accepted f = false) files →
  stage_files unique_dir files names payloads w ≠ (Normal acc, w').
Proof.
  intros Hex Hrun. destruct acc as [names' payloads'].
  apply stage_files_Normal in Hrun as (Hall & _).
  apply Exists_exists in Hex as (f & Hf & Hno).
  rewrite Forall_forall in Hall. specialize (Hall f Hf). congruence.
Qed.

(** ** Dispatch *)

Lemma call_aio_do_parse_clash args w :
  kw_config args = config → config_clashes = true →
  ∃ key, key ∈ explicit_keywords ∧ key ∈ config.*1
         ∧ call_aio_do_parse args w = (Raise (multiple_values key), w).
Proof.
  intros Hcfg Hclash. unfold call_aio_do_parse. rewrite Hcfg.
  apply bool_decide_eq_true_1 in Hclash.
  destruct (List.find _ config) as [kv|] eqn:Hfind.
  - apply find_some in Hfind as [Hin Hkey]. apply bool_decide_eq_true_1 in Hkey.
    exists kv.1. split_and!; [done| |done].
    apply list_elem_of_fmap. exists kv. split; [done|]. by apply list_elem_of_In.
  - exfalso. apply Exists_exists in Hclash as (kv & Hin & Hkey).
    apply list_elem_of_In in Hin.
    pose proof (find_none _ _ Hfind kv Hin) as Hno. simpl in Hno.
    by apply bool_decide_eq_false_1 in Hno.
Qed.

Lemma call_aio_do_parse_no_clash args w :
  kw_config args = config → config_clashes = false →
  call_aio_do_parse args w =
    match aio_do_parse args (fs w) with
    | (disk, Ok _) => (Normal (), set_fs disk (logged args w))
    | (disk, Exception e) => (Raise e, set_fs disk (logged args w))
    end.
Proof.
  intros Hcfg Hclash. unfold call_aio_do_parse. rewrite Hcfg.
  apply bool_decide_eq_false_1 in Hclash.
  destruct (List.find _ config) as [kv|] eqn:Hfind; [|done].
  exfalso. apply Hclash. apply find_some in Hfind as [Hin Hkey].
  apply bool_decide_eq_true_1 in Hkey. apply Exists_exists. exists kv.
  split; [by apply list_elem_of_In|done].
Qed.

Lemma call_aio_do_parse_not_Return args w r w' :
  call_aio_do_parse args w ≠ (Return r, w').
Proof.
  unfold call_aio_do_parse. destruct (List.find _ _); [done|].
  by destruct (aio_do_parse args (fs w)) as [disk [[]|e]].
Qed.

(** The log grows by the call exactly when the engine was entered, which
    happens exactly when no key clashes. *)
Lemma call_aio_do_parse_log args w o w' :
  kw_config args = config →
  call_aio_do_parse args w = (o, w') →
  uuid_draws w' = uuid_draws w
  ∧ (if config_clashes then engine_calls w' = engine_calls w ∧ ∃ e, o = Raise e
     else engine_calls w' = engine_calls w ++ [args]).
Proof.
  intros Hcfg Hcall. destruct config_clashes eqn:Hclash.
  - destruct (call_aio_do_parse_clash args w Hcfg Hclash) as (key & _ & _ & Hrun).
    rewrite Hrun in Hcall. simplify_eq. eauto.
  - rewrite (call_aio_do_parse_no_clash args w Hcfg Hclash) in Hcall.
    destruct (aio_do_parse args (fs w)) as [disk [[]|e]]; by simplify_eq.
Qed.

(** ** Collection *)

Lemma data_setitem_insert pdf_name key v data (result_dict : result_dict_t) :
  data_setitem pdf_name key v (<[pdf_name := data]> result_dict)
  = <[pdf_name := <[key := v]> data]> result_dict.
Proof. unfold data_setitem. apply alter_insert_eq. Qed.

Lemma entry_local_ret pdf_name : entry_local pdf_name ret.
Proof. intros data w. exists (Normal data). done. Qed.

Lemma entry_local_bind pdf_name step1 step2 :
  entry_local pdf_name step1 → entry_local pdf_name step2 →
  entry_local pdf_name (λ result_dict, bind (step1 result_dict) step2).
Proof.
  intros H1 H2 data w. destruct (H1 data w) as [[data1|r|e] Ho1].
  - destruct (H2 data1 w) as [o2 Ho2]. exists o2. intros rd.
    unfold bind. rewrite Ho1. simpl. apply Ho2.
  - exists (Return r). intros rd. unfold bind. by rewrite Ho1.
  - exists (Raise e). intros rd. unfold bind. by rewrite Ho1.
Qed.

Lemma entry_local_if pdf_name (flag : bool) step1 step2 :
  entry_local pdf_name step1 → entry_local pdf_name step2 →
  entry_local pdf_name (λ result_dict, if flag then step1 result_dict else step2 result_dict).
Proof. by destruct flag. Qed.

Lemma entry_local_store_infer_result key suffix pdf_name parse_dir :
  entry_local pdf_name (store_infer_result key suffix pdf_name parse_dir).
Proof.
  intros data w. unfold store_infer_result, bind.
  rewrite (observer_run _ w (observer_get_infer_result suffix pdf_name parse_dir)).
  destruct ((get_infer_result suffix pdf_name parse_dir w).1) as [v|r|e].
  - exists (Normal (<[key := of_optional v]> data)). intros rd.
    unfold ret. simpl. by rewrite data_setitem_insert.
  - by exists (Return r).
  - by exists (Raise e).
Qed.

Lemma entry_local_store_images pdf_name parse_dir :
  entry_local pdf_name (store_images pdf_name parse_dir).
Proof.
  intros data w. unfold store_images, bind.
  rewrite (observer_run _ w (observer_images_dict _ ∅)).
  destruct ((images_dict _ ∅ w).1) as [images|r|e].
  - exists (Normal (<["images" := PDict images]> data)). intros rd.
    unfold ret. simpl. by rewrite data_setitem_insert.
  - by exists (Return r).
  - by exists (Raise e).
Qed.

Lemma entry_local_collect_kinds req fam subtree stem kinds :
  entry_local stem (collect_kinds req fam subtree stem kinds).
Proof.
  induction kinds as [|k rest IH]; simpl.
  - apply entry_local_ret.
  - apply entry_local_bind; [|exact IH].
    apply entry_local_if; [apply entry_local_store_infer_result|apply entry_local_ret].
Qed.

(** The loop body and its table form are the same computation. *)
Lemma collect_stem_table req unique_dir pdf_name result_dict w :
  collect_stem req unique_dir pdf_name result_dict w
  = collect_stem_by_table req unique_dir pdf_name result_dict w.
Proof.
  unfold collect_stem, collect_stem_by_table, family_of, output_subtree.
  destruct (Py.startswith (backend req) "pipeline"); simpl;
    unfold bind; destruct (os_path_exists _ w) as [[[|]|r|e] w0]; try reflexivity;
    repeat match goal with
           | |- context [match (if ?b then ?s else ret ?rd) ?w with _ => _ end] =>
               destruct ((if b then s else ret rd) w) as [[?|?|?] ?]; try reflexivity
           end.
Qed.

Lemma observer_store_infer_result key suffix pdf_name parse_dir result_dict :
  observer (store_infer_result key suffix pdf_name parse_dir result_dict).
Proof.
  apply observer_bind; [apply observer_get_infer_result|]. intros v. apply observer_ret.
Qed.

Lemma observer_store_images pdf_name parse_dir result_dict :
  observer (store_images pdf_name parse_dir result_dict).
Proof.
  apply observer_bind; [intros w0; split; [done|]; intros r; discriminate|].
  intros paths. apply observer_bind; [apply observer_images_dict|].
  intros images. apply observer_ret.
Qed.

Lemma observer_collect_kinds req fam subtree stem kinds result_dict :
  observer (collect_kinds req fam subtree stem kinds result_dict).
Proof.
  revert result_dict. induction kinds as [|k rest IH]; intros rd; simpl.
  - apply observer_ret.
  - apply observer_bind; [|exact IH].
    destruct (kind_requested req k);
      [apply observer_store_infer_result|apply observer_ret].
Qed.

Lemma observer_collect_stem_by_table req unique_dir pdf_name result_dict :
  observer (collect_stem_by_table req unique_dir pdf_name result_dict).
Proof.
  unfold collect_stem_by_table. apply observer_bind; [apply observer_os_path_exists|].
  intros [|]; [|apply observer_ret].
  apply observer_bind; [apply observer_collect_kinds|].
  intros rd. destruct (return_images req);
    [apply observer_store_images|apply observer_ret].
Qed.

(** What the loop body does to the dict is a matter of the entry of its
    stem alone, and of the disk; it changes nothing else and never
    returns early. *)
Lemma collect_stem_local req unique_dir pdf_name w :
  ∃ o, (∀ r, o ≠ Return r)
       ∧ ∀ result_dict,
           collect_stem req unique_dir pdf_name result_dict w
           = (entry_out pdf_name result_dict o, w).
Proof.
  set (fam := family_of (backend req)).
  set (subtree := output_subtree fam unique_dir pdf_name (parse_method req)).
  assert (entry_local pdf_name (λ rd,
            bind (collect_kinds req fam subtree pdf_name text_kinds rd)
              (λ rd, if return_images req then store_images pdf_name subtree rd
                     else ret rd))) as Hchain.
  { apply entry_local_bind; [apply entry_local_collect_kinds|].
    apply entry_local_if; [apply entry_local_store_images|apply entry_local_ret]. }
  pose proof (observer_collect_stem_by_table req unique_dir pdf_name ∅) as Hobs.
  destruct (bool_decide (is_Some (fs w !! subtree))) eqn:Hex.
  - destruct (Hchain ∅ w) as [o Ho]. exists o. split.
    + intros r ->. destruct (Hobs w) as [_ Hr]. apply (Hr r).
      unfold collect_stem_by_table, bind at 1, os_path_exists.
      fold fam. fold subtree. rewrite Hex. by rewrite (Ho ∅).
    + intros rd. rewrite collect_stem_table.
      unfold collect_stem_by_table, bind at 1, os_path_exists.
      fold fam. fold subtree. rewrite Hex. apply Ho.
  - exists (Normal ∅). split; [done|]. intros rd. rewrite collect_stem_table.
    unfold collect_stem_by_table, bind, os_path_exists.
    fold fam. fold subtree. by rewrite Hex.
Qed.

Lemma collect_cons req unique_dir pdf_name rest result_dict w :
  collect req unique_dir (pdf_name :: rest) result_dict w =
    match collect_stem req unique_dir pdf_name result_dict w with
    | (Normal rd, w1) => collect req unique_dir rest rd w1
    | (Return r, w1) => (Return r, w1)
    | (Raise e, w1) => (Raise e, w1)
    end.
Proof. reflexivity. Qed.

(** The collection loop reads the disk and never returns early. *)
Lemma collect_observer req unique_dir names result_dict w o w' :
  collect req unique_dir names result_dict w = (o, w') →
  w' = w ∧ ∀ r, o ≠ Return r.
Proof.
  revert result_dict. induction names as [|name rest IH]; intros rd.
  - intros [= <- <-]. done.
  - rewrite collect_cons.
    destruct (collect_stem_local req unique_dir name w) as (o1 & Hnr & Ho1).
    rewrite Ho1. destruct o1 as [data|r|e]; simpl.
    + apply IH.
    + by destruct (Hnr r).
    + intros [= <- <-]. done.
Qed.

(** After the loop the dict has one entry per distinct stem, and the entry
    of a stem is what one pass of the loop body for that stem builds from
    an empty dict. *)
Lemma collect_Normal req unique_dir names result_dict w result_dict' w' :
  collect req unique_dir names result_dict w = (Normal result_dict', w') →
  dom result_dict' = dom result_dict ∪ list_to_set names
  ∧ (∀ name, name ∉ names → result_dict' !! name = result_dict !! name)
  ∧ ∀ name, name ∈ names →
      ∃ data, result_dict' !! name = Some data
              ∧ collect_stem req unique_dir name ∅ w = (Normal {[name := data]}, w).
Proof.
  revert result_dict. induction names as [|name rest IH]; intros rd.
  - intros [= <- <-]. split_and!.
    + simpl. by rewrite union_empty_r_L.
    + done.
    + intros name Hin. by apply elem_of_nil in Hin.
  - rewrite collect_cons.
    destruct (collect_stem_local req unique_dir name w) as (o1 & Hnr & Ho1).
    rewrite Ho1. destruct o1 as [data|r|e]; simpl; [|discriminate..].
    intros Hrest. apply IH in Hrest as (Hdom & Hother & Hentry). split_and!.
    + rewrite Hdom, dom_insert_L. simpl.
      by rewrite (comm_L (∪) {[name]} (dom rd)), (assoc_L (∪)).
    + intros n Hn. apply not_elem_of_cons in Hn as [Hne Hn].
      rewrite (Hother n Hn). by rewrite lookup_insert_ne.
    + intros n Hn. destruct (decide (n ∈ rest)) as [Hin|Hnotin]; [by apply Hentry|].
      apply elem_of_cons in Hn as [->|Hn]; [|done].
      exists data. split.
      * rewrite (Hother name Hnotin). apply lookup_insert_eq.
      * rewrite Ho1. simpl. by rewrite insert_empty.
Qed.

(** The loop runs to its end as soon as every stem's own pass does. *)
Lemma collect_succeeds req unique_dir names result_dict w :
  (∀ name, name ∈ names →
     ∃ rd, collect_stem req unique_dir name ∅ w = (Normal rd, w)) →
  ∃ result_dict', collect req unique_dir names result_dict w = (Normal result_dict', w).
Proof.
  revert result_dict. induction names as [|name rest IH]; intros rd Hall.
  - by exists rd.
  - rewrite collect_cons.
    destruct (collect_stem_local req unique_dir name w) as (o1 & Hnr & Ho1).
    destruct (Hall name) as [rd1 Hrd1]; [left|].
    rewrite Ho1 in Hrd1. rewrite Ho1.
    destruct o1 as [data|r|e]; simpl in *; [|discriminate..].
    apply IH. intros n Hn. apply Hall. by right.
Qed.

Lemma text_kind_keys_NoDup : NoDup (kind_key <$> text_kinds).
Proof. apply (bool_decide_unpack _). by vm_compute. Qed.

Lemma text_kinds_all k : k ∈ text_kinds.
Proof. unfold text_kinds. destruct k; rewrite !elem_of_cons; tauto. Qed.

Lemma images_key_fresh k : "images" ≠ kind_key k.
Proof. by destruct k. Qed.

(** The entry of the stem after the text kinds of a list have been
    stored: a requested kind holds what [get_infer_result] gave, the keys
    of the other kinds are as before. *)
Lemma collect_kinds_entry req fam subtree stem kinds result_dict w result_dict' w' data :
  collect_kinds req fam subtree stem kinds result_dict w = (Normal result_dict', w') →
  result_dict !! stem = Some data →
  NoDup (kind_key <$> kinds) →
  ∃ data', result_dict' !! stem = Some data'
    ∧ (∀ key, key ∉ kind_key <$> kinds → data' !! key = data !! key)
    ∧ ∀ k, k ∈ kinds →
        if kind_requested req k
        then ∃ v, get_infer_result (kind_suffix fam k) stem subtree w = (Normal v, w)
                  ∧ data' !! kind_key k = Some (of_optional v)
        else data' !! kind_key k = data !! kind_key k.
Proof.
  revert result_dict data. induction kinds as [|k rest IH]; intros rd data.
  - intros [= <- <-] Hd _. exists data. split_and!; [done..|].
    intros k Hk. by apply elem_of_nil in Hk.
  - simpl. intros Hrun Hd [Hfresh Hnd]%NoDup_cons.
    apply bind_Normal in Hrun as (rd1 & w1 & Hstep & Hrest).
    assert (w1 = w ∧ ∃ data1, rd1 !! stem = Some data1
              ∧ (∀ key, key ≠ kind_key k → data1 !! key = data !! key)
              ∧ if kind_requested req k
                then ∃ v, get_infer_result (kind_suffix fam k) stem subtree w = (Normal v, w)
                          ∧ data1 !! kind_key k = Some (of_optional v)
                else data1 !! kind_key k = data !! kind_key k)
      as (-> & data1 & Hd1 & Hkeep & Hk).
    { destruct (kind_requested req k).
      - apply bind_Normal in Hstep as (v & w2 & Hget & Hret).
        pose proof (observer_run _ w (observer_get_infer_result (kind_suffix fam k) stem subtree))
          as Hobs.
        rewrite Hget in Hobs. simpl in Hobs. injection Hobs as ->.
        injection Hret as <- <-. split; [done|].
        exists (<[kind_key k := of_optional v]> data). split_and!.
        + unfold data_setitem. by rewrite lookup_alter_eq, Hd.
        + intros key Hne. by rewrite lookup_insert_ne.
        + exists v. split; [done|]. by rewrite lookup_insert_eq.
      - injection Hstep as <- <-. split; [done|]. by exists data. }
    destruct (IH rd1 data1 Hrest Hd1 Hnd) as (data' & Hd' & Hkeep' & Hks).
    exists data'. split_and!; [done| |].
    + intros key [Hne Hnotin]%not_elem_of_cons.
      by rewrite (Hkeep' key Hnotin), (Hkeep key Hne).
    + intros k' [->|Hin]%elem_of_cons.
      * rewrite (Hkeep' (kind_key k) Hfresh). exact Hk.
      * specialize (Hks k' Hin). destruct (kind_requested req k'); [done|].
        rewrite Hks. apply Hkeep. intros Heq. apply Hfresh. rewrite <- Heq.
        apply list_elem_of_fmap. by exists k'.
Qed.

(** The entry one pass of the loop body leaves for its stem. With no
    subtree the entry is empty. With a subtree, every requested text kind
    is a key of the entry, holding the [Optional[str]] its read gave; a
    kind that was not requested is no key; [images] is a key exactly when
    images were requested. *)
Lemma collect_stem_entry req unique_dir pdf_name result_dict w result_dict' w' :
  collect_stem req unique_dir pdf_name result_dict w = (Normal result_dict', w') →
  ∃ data, result_dict' !! pdf_name = Some data ∧
    if bool_decide (is_Some (fs w !! parse_dir_of req unique_dir pdf_name)) then
      (∀ k, if kind_requested req k
            then ∃ v, get_infer_result (kind_suffix (family_of (backend req)) k) pdf_name
                        (parse_dir_of req unique_dir pdf_name) w = (Normal v, w)
                      ∧ data !! kind_key k = Some (of_optional v)
            else data !! kind_key k = None)
      ∧ (if return_images req
         then ∃ images,
                images_dict (glob (images_pattern (parse_dir_of req unique_dir pdf_name)) (fs w))
                  ∅ w = (Normal images, w)
                ∧ data !! "images" = Some (PDict images)
         else data !! "images" = None)
    else data = ∅.
Proof.
  rewrite collect_stem_table. unfold collect_stem_by_table, parse_dir_of.
  set (fam := family_of (backend req)).
  set (subtree := output_subtree fam unique_dir pdf_name (parse_method req)).
  unfold bind at 1, os_path_exists.
  destruct (bool_decide (is_Some (fs w !! subtree))).
  - intros Hrun. apply bind_Normal in Hrun as (rd1 & w1 & Hkinds & Himages).
    pose proof (observer_run _ w (observer_collect_kinds req fam subtree pdf_name text_kinds
                                    (<[pdf_name:=∅]> result_dict))) as Hobs.
    rewrite Hkinds in Hobs. simpl in Hobs. injection Hobs as ->.
    destruct (collect_kinds_entry _ _ _ _ _ _ _ _ _ ∅ Hkinds
                (lookup_insert_eq _ _ _) text_kind_keys_NoDup)
      as (data1 & Hd1 & Hkeep1 & Hks).
    assert (∀ k, if kind_requested req k
                 then ∃ v, get_infer_result (kind_suffix fam k) pdf_name subtree w = (Normal v, w)
                           ∧ data1 !! kind_key k = Some (of_optional v)
                 else data1 !! kind_key k = None) as Hks1.
    { intros k. specialize (Hks k (text_kinds_all k)).
      destruct (kind_requested req k); [done|]. by rewrite Hks, lookup_empty. }
    destruct (return_images req).
    + unfold store_images in Himages.
      apply bind_Normal in Himages as (paths & w2 & Hglob & Himages).
      injection Hglob as <- <-.
      apply bind_Normal in Himages as (images & w3 & Hdict & Hret).
      pose proof (observer_run _ w (observer_images_dict (glob (subtree +:+ "/images/*.jpg") (fs w)) ∅))
        as Hobs.
      rewrite Hdict in Hobs. simpl in Hobs. injection Hobs as ->.
      injection Hret as <- <-.
      exists (<["images" := PDict images]> data1). split_and!.
      * unfold data_setitem. by rewrite lookup_alter_eq, Hd1.
      * intros k. specialize (Hks1 k). rewrite lookup_insert_ne by apply images_key_fresh.
        exact Hks1.
      * exists images. split; [done|]. by rewrite lookup_insert_eq.
    + injection Himages as <- <-. exists data1. split_and!; [done..|].
      rewrite Hkeep1; [apply lookup_empty|].
      intros (k & Hk & _)%list_elem_of_fmap. by apply (images_key_fresh k).
  - intros [= <- <-]. exists ∅. by rewrite lookup_insert_eq.
Qed.

(** ** The handler as a sequence of phases *)

Lemma parse_pdf_try_phases req disk k :
  parse_pdf_try req (initial disk k) =
    bind (os_makedirs (workspace req k)) (λ _,
      bind (stage_files (workspace req k) (files req) [] []) (λ staged,
        bind (call_aio_do_parse (engine_args req (workspace req k) staged.1 staged.2)) (λ _,
          bind (collect req (workspace req k) staged.1 ∅) (λ result_dict,
            return_ (success_response req result_dict)))))
      (drawn (initial disk k)).
Proof. reflexivity. Qed.

Lemma engine_args_config req unique_dir names payloads :
  kw_config (engine_args req unique_dir names payloads) = config.
Proof. reflexivity. Qed.

(** Every run of the [try] block is one of the six of [tried]. *)
Lemma parse_pdf_try_inv req disk k o w :
  parse_pdf_try req (initial disk k) = (o, w) → tried req disk k o w.
Proof.
  rewrite parse_pdf_try_phases. unfold bind at 1.
  destruct (os_makedirs _ _) as [[[]|r|e] w2] eqn:Hmk.
  2:{ by apply os_makedirs_not_Return in Hmk. }
  2:{ intros [= <- <-]. by apply tried_allocation_raised. }
  unfold bind at 1.
  destruct (stage_files _ _ _ _ w2) as [[[names payloads]|r|e] w3] eqn:Hst.
  2:{ intros [= <- <-]. by eapply tried_staging_returned. }
  2:{ intros [= <- <-]. by eapply tried_staging_raised. }
  assert (staged req disk k names payloads w3) as Hstaged by (by exists w2).
  unfold bind at 1. simpl.
  destruct (call_aio_do_parse _ w3) as [[[]|r|e] w4] eqn:Hcall.
  2:{ by apply call_aio_do_parse_not_Return in Hcall. }
  2:{ intros [= <- <-]. by eapply tried_dispatch_raised. }
  assert (dispatched req disk k names w4) as Hdisp by (by exists payloads, w3).
  unfold bind at 1.
  destruct (collect _ _ _ _ w4) as [[rd|r|e] w5] eqn:Hcol;
    pose proof (collect_observer _ _ _ _ _ _ _ Hcol) as [-> Hnr].
  - intros [= <- <-]. by eapply tried_success.
  - by destruct (Hnr r).
  - intros [= <- <-]. by eapply tried_collection_raised.
Qed.

Lemma parse_pdf_respond req w :
  parse_pdf req w = respond (parse_pdf_try req w).1 (parse_pdf_try req w).2.
Proof. unfold parse_pdf. by destruct (parse_pdf_try req w) as [[[]|r|e] w']. Qed.

(** A request is served by running the [try] block and answering its
    outcome. *)
Lemma serve_tried req disk k :
  ∃ o w, parse_pdf_try req (initial disk k) = (o, w)
         ∧ tried req disk k o w
         ∧ serve req disk k = respond o w.
Proof.
  destruct (parse_pdf_try req (initial disk k)) as [o w] eqn:Htry.
  exists o, w. split_and!; [done|by apply parse_pdf_try_inv|].
  unfold serve. fold (initial disk k). by rewrite parse_pdf_respond, Htry.
Qed.

(** What staging and dispatch leave behind. *)
Lemma staged_world req disk k names payloads w :
  staged req disk k names payloads w →
  engine_calls w = [] ∧ uuid_draws w = S k
  ∧ fs w !! workspace req k = Some Dir
  ∧ names = stem_of <$> files req
  ∧ length payloads = length (files req)
  ∧ Forall (λ f, accepted f = true) (files req)
  ∧ ∀ f, f ∈ files req → fs w !! temp_path (workspace req k) f = None.
Proof.
  intros (w2 & Hmk & Hst).
  apply os_makedirs_Normal in Hmk as (Hdir & Hu2 & Hc2 & _).
  pose proof (stage_files_world _ _ _ _ _ _ _ Hst) as (Hu3 & Hc3 & Hd3).
  apply stage_files_Normal in Hst as (Hall & Hnames & (bs & -> & Hdec) & Hgone & _).
  split_and!; try done.
  - by rewrite Hc3, Hc2.
  - by rewrite Hu3, Hu2.
  - by apply Hd3.
  - simpl. symmetry. by eapply Forall2_length.
Qed.

Lemma dispatched_world req disk k names w :
  dispatched req disk k names w →
  config_clashes = false ∧ uuid_draws w = S k
  ∧ names = stem_of <$> files req
  ∧ ∃ payloads, length payloads = length (files req)
      ∧ engine_calls w = [engine_args req (workspace req k) names payloads].
Proof.
  intros (payloads & w3 & Hst & Hcall).
  apply staged_world in Hst as (Hc3 & Hu3 & _ & Hnames & Hlen & _).
  pose proof (call_aio_do_parse_log _ _ _ _ (engine_args_config _ _ _ _) Hcall) as [Hu4 Hlog].
  destruct config_clashes.
  - destruct Hlog as [_ [e He]]. discriminate.
  - split_and!; [done|congruence|done|]. exists payloads. by rewrite Hlog, Hc3.
Qed.

(** The [try] block draws no identifier of its own after the first. *)
Lemma tried_draws req disk k o w :
  tried req disk k o w → uuid_draws w = S k.
Proof.
  intros [e w2 Hmk|w2 r w3 Hmk Hst|w2 e w3 Hmk Hst|names payloads w3 e w4 Hst Hcall
         |names w4 e Hdisp Hcol|names w4 rd Hdisp Hcol].
  - by apply os_makedirs_Raise in Hmk as ->.
  - apply os_makedirs_Normal in Hmk as (_ & Hu2 & _).
    apply stage_files_world in Hst as (Hu3 & _). by rewrite Hu3, Hu2.
  - apply os_makedirs_Normal in Hmk as (_ & Hu2 & _).
    apply stage_files_world in Hst as (Hu3 & _). by rewrite Hu3, Hu2.
  - apply staged_world in Hst as (_ & Hu3 & _).
    pose proof (call_aio_do_parse_log _ _ _ _ (engine_args_config _ _ _ _) Hcall) as [Hu4 _].
    by rewrite Hu4.
  - by apply dispatched_world in Hdisp as (_ & Hu & _).
  - by apply dispatched_world in Hdisp as (_ & Hu & _).
Qed.

(** The engine is entered at most once, and only with the arguments built
    from a fully staged batch under a configuration that does not clash. *)
Lemma tried_calls req disk k o w :
  tried req disk k o w →
  engine_calls w = []
  ∨ config_clashes = false
    ∧ ∃ payloads, length payloads = length (files req)
        ∧ engine_calls w = [engine_args req (workspace req k) (stem_of <$> files req) payloads].
Proof.
  intros [e w2 Hmk|w2 r w3 Hmk Hst|w2 e w3 Hmk Hst|names payloads w3 e w4 Hst Hcall
         |names w4 e Hdisp Hcol|names w4 rd Hdisp Hcol].
  - apply os_makedirs_Raise in Hmk as ->. by left.
  - apply os_makedirs_Normal in Hmk as (_ & _ & Hc2 & _).
    apply stage_files_world in Hst as (_ & Hc3 & _). left. by rewrite Hc3, Hc2.
  - apply os_makedirs_Normal in Hmk as (_ & _ & Hc2 & _).
    apply stage_files_world in Hst as (_ & Hc3 & _). left. by rewrite Hc3, Hc2.
  - apply staged_world in Hst as (Hc3 & _ & _ & Hnames & Hlen & _).
    pose proof (call_aio_do_parse_log _ _ _ _ (engine_args_config _ _ _ _) Hcall) as [_ Hlog].
    destruct config_clashes.
    + left. destruct Hlog as [-> _]. done.
    + right. split; [done|]. exists payloads. by rewrite Hlog, Hc3, Hnames.
  - apply dispatched_world in Hdisp as (Hclash & _ & -> & payloads & Hlen & Hlog).
    right. split; [done|]. by exists payloads.
  - apply dispatched_world in Hdisp as (Hclash & _ & -> & payloads & Hlen & Hlog).
    right. split; [done|]. by exists payloads.
Qed.

Lemma respond_calls o w : engine_calls (respond o w).2 = engine_calls w.
Proof. by destruct o as [[]|r|e]. Qed.

Lemma serve_calls req disk k args :
  args ∈ engine_calls (serve req disk k).2 →
  config_clashes = false
  ∧ engine_calls (serve req disk k).2 = [args]
  ∧ ∃ payloads, length payloads = length (files req)
      ∧ args = engine_args req (workspace req k) (stem_of <$> files req) payloads.
Proof.
  destruct (serve_tried req disk k) as (o & w & _ & Htried & ->).
  rewrite respond_calls. intros Hin.
  destruct (tried_calls _ _ _ _ _ Htried) as [Hnil|(Hclash & payloads & Hlen & Hlog)].
  - rewrite Hnil in Hin. by apply elem_of_nil in Hin.
  - rewrite Hlog in Hin. apply list_elem_of_singleton in Hin as ->.
    split_and!; [done..|]. by exists payloads.
Qed.

(** ** Language reconciliation *)

Lemma actual_lang_list_length langs names :
  length (actual_lang_list langs names) = length names.
Proof.
  unfold actual_lang_list, Py.list_times. case_bool_decide as Hlen.
  - apply length_replicate.
  - by destruct (decide (length langs = length names)).
Qed.

Lemma actual_lang_list_same langs names :
  length langs = length names → actual_lang_list langs names = langs.
Proof. intros Hlen. unfold actual_lang_list. by rewrite bool_decide_eq_false_2 by tauto. Qed.

Lemma actual_lang_list_broadcast langs names :
  length langs ≠ length names →
  actual_lang_list langs names = replicate (length names) (default "ch" (head langs)).
Proof.
  intros Hlen. unfold actual_lang_list, Py.list_times.
  rewrite bool_decide_eq_true_2 by done. by destruct langs.
Qed.

(** C1. Whenever the engine is called, its language list has one entry per
    accepted file; it is the caller's list when the lengths agree, and
    otherwise every entry is the caller's first language, or ["ch"] when
    the caller's list is empty. *)
Theorem C1_language_reconciliation req disk k args :
  args ∈ engine_calls (serve req disk k).2 →
  let N := length (kw_pdf_file_names args) in
  let M := length (lang_list req) in
  kw_pdf_file_names args = stem_of <$> files req
  ∧ N = length (files req)
  ∧ length (kw_p_lang_list args) = N
  ∧ (M = N → kw_p_lang_list args = lang_list req)
  ∧ (M ≠ N →
     kw_p_lang_list args = replicate N (default "ch" (head (lang_list req)))
     ∧ ∀ l, l ∈ kw_p_lang_list args → l = default "ch" (head (lang_list req))).
Proof.
  intros (_ & _ & payloads & _ & ->)%serve_calls. simpl. split_and!.
  - done.
  - apply length_fmap.
  - apply actual_lang_list_length.
  - apply actual_lang_list_same.
  - intros Hne. rewrite (actual_lang_list_broadcast _ _ Hne). split; [done|].
    intros l Hl. by apply elem_of_replicate in Hl as [-> _].
Qed.

(** C7. Whenever the engine is called, each dump flag is the caller's
    [return_] flag of the same artifact, and the two bounding-box overlays
    and the dump of the original PDF are off; the engine is called at most
    once per request. *)
Theorem C7_dump_flags req disk k args :
  args ∈ engine_calls (serve req disk k).2 →
  kw_f_dump_md args = return_md req
  ∧ kw_f_dump_middle_json args = return_middle_json req
  ∧ kw_f_dump_model_output args = return_model_output req
  ∧ kw_f_dump_content_list args = return_content_list req
  ∧ kw_f_draw_layout_bbox args = false
  ∧ kw_f_draw_span_bbox args = false
  ∧ kw_f_dump_orig_pdf args = false
  ∧ engine_calls (serve req disk k).2 = [args].
Proof.
  intros (_ & Hone & payloads & _ & Hargs)%serve_calls. by subst args.
Qed.

(** ** Responses *)

Lemma unsupported_response_keys file key :
  key ≠ "error" → content (unsupported_response file) !! key = None.
Proof. intros Hne. simpl. by rewrite lookup_singleton_ne. Qed.

Lemma load_failed_response_keys e key :
  key ≠ "error" → content (load_failed_response e) !! key = None.
Proof. intros Hne. simpl. by rewrite lookup_singleton_ne. Qed.

Lemma server_error_response_keys e request_id :
  content (server_error_response e request_id) !! "error"
    = Some (JStr ("Failed to process file: " +:+ e))
  ∧ content (server_error_response e request_id) !! "request_id" = Some (JStr request_id)
  ∧ content (server_error_response e request_id) !! "results" = None.
Proof.
  simpl. split_and!.
  - by rewrite lookup_insert_eq.
  - by rewrite lookup_insert_ne, lookup_singleton_eq.
  - by rewrite lookup_insert_ne, lookup_singleton_ne.
Qed.

Lemma success_response_keys req result_dict :
  content (success_response req result_dict) !! "results" = Some (JResults result_dict)
  ∧ content (success_response req result_dict) !! "request_id" = None
  ∧ content (success_response req result_dict) !! "error" = None.
Proof.
  simpl. split_and!.
  - by rewrite !lookup_insert_ne, lookup_singleton_eq.
  - by rewrite !lookup_insert_ne, lookup_singleton_ne.
  - by rewrite !lookup_insert_ne, lookup_singleton_ne.
Qed.

(** An early return of the staging loop is one of the two client
    errors. *)
Lemma staging_returned_response unique_dir files names payloads w r w' :
  stage_files unique_dir files names payloads w = (Return r, w') →
  status_code r = 400
  ∧ (∀ key, key ≠ "error" → content r !! key = None)
  ∧ ((∃ f, f ∈ files ∧ accepted f = false ∧ r = unsupported_response f)
     ∨ (∃ f e, f ∈ files ∧ accepted f = true
               ∧ fs w' !! temp_path unique_dir f = Some (File (file_bytes f))
               ∧ read_fn (temp_path unique_dir f) (fs w') = Exception e
               ∧ r = load_failed_response e)).
Proof.
  intros (pre & f & post & -> & _ & Hf)%stage_files_Return.
  assert (f ∈ pre ++ f :: post) as Hin by (apply elem_of_app; right; left).
  destruct Hf as [[Hacc ->]|(Hacc & Hcopy & e & Hread & ->)]; split_and!; try done.
  - apply unsupported_response_keys.
  - left. by exists f.
  - apply load_failed_response_keys.
  - right. by exists f, e.
Qed.

(** A response with a [results] key is the success response of a run
    that went through dispatch and collection. *)
Lemma serve_results_inv req disk k result_dict :
  content (serve req disk k).1 !! "results" = Some (JResults result_dict) →
  ∃ names,
    dispatched req disk k names (serve req disk k).2
    ∧ collect req (workspace req k) names ∅ (serve req disk k).2
      = (Normal result_dict, (serve req disk k).2)
    ∧ serve req disk k = (success_response req result_dict, (serve req disk k).2).
Proof.
  destruct (serve_tried req disk k) as (o & w & _ & Htried & ->).
  destruct Htried as [e w2 Hmk|w2 r w3 Hmk Hst|w2 e w3 Hmk Hst|names payloads w3 e w4 Hst Hcall
                     |names w4 e Hdisp Hcol|names w4 rd Hdisp Hcol]; simpl;
    try (rewrite lookup_insert_ne, lookup_singleton_ne by done; discriminate).
  - apply staging_returned_response in Hst as (_ & Hkeys & _).
    rewrite Hkeys by done. discriminate.
  - rewrite !lookup_insert_ne, lookup_singleton_eq by done.
    intros [= <-]. by exists names.
Qed.

Lemma serve_success_inv req disk k result_dict w :
  serve req disk k = (success_response req result_dict, w) →
  ∃ names,
    dispatched req disk k names w
    ∧ collect req (workspace req k) names ∅ w = (Normal result_dict, w).
Proof.
  intros Hserve.
  destruct (serve_results_inv req disk k result_dict) as (names & Hdisp & Hcol & _).
  { rewrite Hserve. apply success_response_keys. }
  rewrite Hserve in Hdisp, Hcol. by exists names.
Qed.

(** The run of a request whose batch was staged, and of one whose engine
    call completed. *)
Lemma staged_run req disk k names payloads w3 :
  staged req disk k names payloads w3 →
  parse_pdf_try req (initial disk k) =
    bind (call_aio_do_parse (engine_args req (workspace req k) names payloads)) (λ _,
      bind (collect req (workspace req k) names ∅) (λ result_dict,
        return_ (success_response req result_dict))) w3.
Proof.
  intros (w2 & Hmk & Hst). rewrite parse_pdf_try_phases.
  unfold bind at 1. rewrite Hmk. unfold bind at 1. by rewrite Hst.
Qed.

Lemma dispatched_run req disk k names w :
  dispatched req disk k names w →
  parse_pdf_try req (initial disk k) =
    bind (collect req (workspace req k) names ∅) (λ result_dict,
      return_ (success_response req result_dict)) w.
Proof.
  intros (payloads & w3 & Hst & Hcall). rewrite (staged_run _ _ _ _ _ _ Hst).
  unfold bind at 1. by rewrite Hcall.
Qed.

Lemma serve_respond req disk k o w :
  parse_pdf_try req (initial disk k) = (o, w) → serve req disk k = respond o w.
Proof.
  intros Htry. unfold serve. fold (initial disk k). by rewrite parse_pdf_respond, Htry.
Qed.

(** ** Intake validation *)

(** C3, as the code has it. With an unsupported file among the uploads
    the engine is never called and the response is an error. When the
    workspace can be created and the files before the first unsupported
    one stage and decode, the response is the 400 that names the suffix of
    that file; by then the workspace directory exists and the earlier
    files have been staged, decoded, and their temporary copies removed. *)
Theorem C3_unsupported_extension_rejected req disk k pre f post :
  files req = pre ++ f :: post →
  accepted f = false →
  engine_calls (serve req disk k).2 = []
  ∧ (status_code (serve req disk k).1 = 400 ∨ status_code (serve req disk k).1 = 500)
  ∧ ∀ w2 acc w3,
      os_makedirs (workspace req k) (drawn (initial disk k)) = (Normal (), w2) →
      stage_files (workspace req k) pre [] [] w2 = (Normal acc, w3) →
      serve req disk k = (unsupported_response f, w3)
      ∧ content (unsupported_response f) !! "error"
        = Some (JStr ("Unsupported file type: " +:+ Py.Path_suffix (filename f)))
      ∧ fs w3 !! workspace req k = Some Dir
      ∧ acc.1 = stem_of <$> pre
      ∧ ∀ g, g ∈ pre → fs w3 !! temp_path (workspace req k) g = None.
Proof.
  intros Hfiles Hf.
  assert (∀ w2 acc w3,
            stage_files (workspace req k) (files req) [] [] w2 ≠ (Normal acc, w3)) as Hstop.
  { intros w2 acc w3. apply stage_files_unsupported. rewrite Hfiles.
    apply Exists_app. right. by left. }
  assert (∀ names payloads w3, ¬ staged req disk k names payloads w3) as Hnostage.
  { intros names payloads w3 (w2 & _ & Hst). by apply Hstop in Hst. }
  assert (∀ names w4, ¬ dispatched req disk k names w4) as Hnodisp.
  { intros names w4 (payloads & w3 & Hst & _). by apply Hnostage in Hst. }
  destruct (serve_tried req disk k) as (o & w & Htry & Htried & Hserve).
  rewrite Hserve. split_and!.
  - rewrite respond_calls.
    destruct (tried_calls _ _ _ _ _ Htried) as [Hnil|(_ & payloads & _ & Hlog)]; [done|].
    destruct Htried as [e w2 Hmk|w2 r w3 Hmk Hst|w2 e w3 Hmk Hst|names ps w3 e w4 Hst Hcall
                       |names w4 e Hdisp Hcol|names w4 rd Hdisp Hcol].
    + apply os_makedirs_Raise in Hmk as ->. done.
    + apply os_makedirs_Normal in Hmk as (_ & _ & Hc2 & _).
      apply stage_files_world in Hst as (_ & Hc3 & _). by rewrite Hc3, Hc2.
    + apply os_makedirs_Normal in Hmk as (_ & _ & Hc2 & _).
      apply stage_files_world in Hst as (_ & Hc3 & _). by rewrite Hc3, Hc2.
    + by apply Hnostage in Hst.
    + by apply Hnodisp in Hdisp.
    + by apply Hnodisp in Hdisp.
  - destruct Htried as [e w2 Hmk|w2 r w3 Hmk Hst|w2 e w3 Hmk Hst|names ps w3 e w4 Hst Hcall
                       |names w4 e Hdisp Hcol|names w4 rd Hdisp Hcol]; simpl; try by right.
    + apply staging_returned_response in Hst as (H400 & _). by left.
    + by apply Hnodisp in Hdisp.
  - intros w2 acc w3 Hmk Hpre.
    assert (parse_pdf_try req (initial disk k) = (Return (unsupported_response f), w3))
      as Hrun.
    { rewrite parse_pdf_try_phases. unfold bind at 1. rewrite Hmk. unfold bind at 1.
      rewrite Hfiles, stage_files_app, Hpre, stage_files_cons, stage_file_eq, Hf. done. }
    rewrite Hrun in Htry. injection Htry as <- <-. simpl.
    pose proof (os_makedirs_Normal _ _ _ Hmk) as (Hdir & _).
    pose proof (stage_files_world _ _ _ _ _ _ _ Hpre) as (_ & _ & Hkeep).
    destruct acc as [names payloads].
    apply stage_files_Normal in Hpre as (_ & Hnames & _ & Hgone & _).
    split_and!; [done|by rewrite lookup_singleton_eq|by apply Hkeep|done|done].
Qed.

(** ** The collector *)

(** C4, as the code has it. One pass of the loop body that raises nothing
    leaves for its stem the entry collected from the subtree
    [os.path.join(workspace, stem, parse_method)], with the raw model
    output read from the file that ends in [_model.json], when the backend
    starts with [pipeline]; and from [os.path.join(workspace, stem, "vlm")],
    with the raw model output read from the file that ends in
    [_model_output.txt], for any other backend. The files of the other
    kinds and the image pattern are named the same way in both cases. The
    joined path is the three components with a slash in between when the
    workspace and the stem are non-empty, do not end with a slash, and
    neither the stem nor the last component starts with one; a last
    component that starts with a slash is the whole subtree. *)
Theorem C4_backend_family_branching req unique_dir stem result_dict w result_dict' w' :
  collect_stem req unique_dir stem result_dict w = (Normal result_dict', w') →
  (∃ data, result_dict' !! stem = Some data
     ∧ (Py.startswith (backend req) "pipeline" = true →
        collected_from req stem (Py.os_path_join unique_dir [stem; parse_method req])
          "_model.json" w data)
     ∧ (Py.startswith (backend req) "pipeline" = false →
        collected_from req stem (Py.os_path_join unique_dir [stem; "vlm"])
          "_model_output.txt" w data))
  ∧ (∀ last,
       unique_dir ≠ "" → Py.endswith_sep unique_dir = false →
       stem ≠ "" → Py.startswith stem "/" = false → Py.endswith_sep stem = false →
       Py.startswith last "/" = false →
       Py.os_path_join unique_dir [stem; last]
       = unique_dir +:+ "/" +:+ stem +:+ "/" +:+ last)
  ∧ (∀ last,
       Py.startswith last "/" = true → Py.os_path_join unique_dir [stem; last] = last).
Proof.
  intros Hpass. split_and!.
  - destruct (collect_stem_entry _ _ _ _ _ _ _ Hpass) as (data & Hdata & Hshape).
    exists data. split; [exact Hdata|].
    assert (∀ subtree model_suffix,
              parse_dir_of req unique_dir stem = subtree →
              kind_suffix (family_of (backend req)) RawModelOutput = model_suffix →
              collected_from req stem subtree model_suffix w data) as Hfrom.
    { intros subtree model_suffix Hsub Hsuffix. rewrite Hsub in Hshape.
      unfold collected_from.
      destruct (bool_decide (is_Some (fs w !! subtree))); [|exact Hshape].
      destruct Hshape as [Hkinds Himages].
      assert (∀ k, stored_under data (kind_key k) (kind_requested req k) (fs w)
                     (Py.os_path_join subtree
                        [stem +:+ kind_suffix (family_of (backend req)) k])) as Hstored.
      { intros k. specialize (Hkinds k). unfold stored_under.
        destruct (kind_requested req k); [|exact Hkinds].
        destruct Hkinds as (v & Hget & Hkey). exists (of_optional v).
        split; [by apply get_infer_result_value in Hget|exact Hkey]. }
      pose proof (Hstored RawModelOutput) as Hmodel. rewrite Hsuffix in Hmodel.
      split_and!;
        [exact (Hstored RenderedText)|exact (Hstored IntermediateStructure)
        |exact Hmodel|exact (Hstored ContentList)|exact Himages]. }
    split; intros Hp; apply Hfrom; unfold parse_dir_of, family_of; by rewrite Hp.
  - intros last Hw Hwsep Hs Hsabs Hssep Hlast.
    exact (output_subtree_plain PipelineFamily unique_dir stem last Hw Hwsep Hs Hsabs Hssep Hlast).
  - intros last Hlast. unfold Py.os_path_join. simpl. unfold Py.join2 at 1. by rewrite Hlast.
Qed.

(** C5, as the code has it. In a response that carries results, take a
    stem whose subtree is on the disk. A requested text kind whose file is
    absent is a key of the stem's entry, mapped to [None], and reading it
    raised nothing; requested images that match no file are the key
    [images], mapped to an empty dict. *)
Theorem C5_missing_artifact_is_null req disk k result_dict stem data :
  content (serve req disk k).1 !! "results" = Some (JResults result_dict) →
  result_dict !! stem = Some data →
  is_Some (fs (serve req disk k).2 !! parse_dir_of req (workspace req k) stem) →
  (∀ kind,
     kind_requested req kind = true →
     fs (serve req disk k).2
       !! kind_path (family_of (backend req)) (parse_dir_of req (workspace req k) stem) stem kind
       = None →
     data !! kind_key kind = Some PNone
     ∧ get_infer_result (kind_suffix (family_of (backend req)) kind) stem
         (parse_dir_of req (workspace req k) stem) (serve req disk k).2
       = (Normal None, (serve req disk k).2))
  ∧ (return_images req = true →
     glob (images_pattern (parse_dir_of req (workspace req k) stem)) (fs (serve req disk k).2) = [] →
     data !! "images" = Some (PDict ∅)).
Proof.
  intros (names & _ & Hcol & _)%serve_results_inv Hdata Hdir.
  set (w := (serve req disk k).2) in *.
  apply collect_Normal in Hcol as (Hdom & _ & Hentry).
  assert (stem ∈ names) as Hin.
  { apply (elem_of_list_to_set (C:=gset string)).
    rewrite dom_empty_L, union_empty_l_L in Hdom. rewrite <- Hdom.
    apply elem_of_dom. by exists data. }
  destruct (Hentry stem Hin) as (data' & Hdata' & Hpass).
  assert (data' = data) as -> by congruence.
  apply collect_stem_entry in Hpass as (data' & Hd & Hshape).
  rewrite lookup_singleton_eq in Hd. injection Hd as <-.
  rewrite bool_decide_eq_true_2 in Hshape by done.
  destruct Hshape as [Hkinds Himages]. split.
  - intros kind Hreq Habsent. specialize (Hkinds kind). rewrite Hreq in Hkinds.
    destruct Hkinds as (v & Hget & Hkey).
    pose proof (get_infer_result_absent _ _ _ _ Habsent) as Hnone.
    split; [|exact Hnone]. rewrite Hnone in Hget. by injection Hget as <-.
  - intros Hreq Hglob. rewrite Hreq in Himages.
    destruct Himages as (images & Hdict & Hkey).
    rewrite Hglob in Hdict.
    by injection Hdict as <-.
Qed.

(** C9. A stem whose subtree is missing after the engine call gets the
    empty entry and its pass raises nothing; when the passes of the stems
    that do have a subtree raise nothing either, the response is the 200
    and every stem without a subtree maps to the empty dict in it. *)
Theorem C9_missing_subtree_degraded_success req disk k names w :
  dispatched req disk k names w →
  (∀ name, name ∈ names →
     is_Some (fs w !! parse_dir_of req (workspace req k) name) →
     ∃ rd, collect_stem req (workspace req k) name ∅ w = (Normal rd, w)) →
  (∀ stem result_dict,
     fs w !! parse_dir_of req (workspace req k) stem = None →
     collect_stem req (workspace req k) stem result_dict w
     = (Normal (<[stem := ∅]> result_dict), w))
  ∧ ∃ result_dict,
      serve req disk k = (success_response req result_dict, w)
      ∧ status_code (serve req disk k).1 = 200
      ∧ ∀ stem, stem ∈ names →
          fs w !! parse_dir_of req (workspace req k) stem = None →
          result_dict !! stem = Some ∅.
Proof.
  intros Hdisp Hothers.
  assert (∀ stem result_dict,
            fs w !! parse_dir_of req (workspace req k) stem = None →
            collect_stem req (workspace req k) stem result_dict w
            = (Normal (<[stem := ∅]> result_dict), w)) as Hmissing.
  { intros stem rd Hnone. rewrite collect_stem_table.
    unfold collect_stem_by_table, bind, os_path_exists. fold (parse_dir_of req (workspace req k) stem).
    rewrite Hnone. rewrite bool_decide_eq_false_2; [done|]. by intros [? ?]. }
  split; [exact Hmissing|].
  destruct (collect_succeeds req (workspace req k) names ∅ w) as [rd Hcol].
  { intros name Hin.
    destruct (fs w !! parse_dir_of req (workspace req k) name) as [n|] eqn:Hdir.
    - apply Hothers; [done|]. by rewrite Hdir.
    - eexists. by apply Hmissing. }
  assert (serve req disk k = (success_response req rd, w)) as Hserve.
  { apply (serve_respond _ _ _ (Return (success_response req rd)) w).
    rewrite (dispatched_run _ _ _ _ _ Hdisp). unfold bind. by rewrite Hcol. }
  exists rd. rewrite Hserve. split_and!; [done..|].
  intros stem Hin Hnone.
  apply collect_Normal in Hcol as (_ & _ & Hentry).
  destruct (Hentry stem Hin) as (data & Hdata & Hpass).
  rewrite (Hmissing stem ∅ Hnone) in Hpass.
  apply (f_equal (λ p : outcome result_dict_t * World,
                    match p.1 with Normal m => m !! stem | _ => None end)) in Hpass.
  simpl in Hpass. rewrite lookup_insert_eq, lookup_singleton_eq in Hpass. congruence.
Qed.

Lemma staged_decoded req disk k names payloads w :
  staged req disk k names payloads w →
  Forall2 (λ f b, ∃ disk', disk' !! temp_path (workspace req k) f = Some (File (file_bytes f))
                           ∧ read_fn (temp_path (workspace req k) f) disk' = Ok b)
    (files req) payloads.
Proof.
  intros (w2 & _ & Hst).
  by apply stage_files_Normal in Hst as (_ & _ & (bs & -> & Hdec) & _).
Qed.

(** C10. In a successful response every upload was staged and decoded and
    is an entry of the batch of the one engine call, in upload order, with
    equal stems repeated; the results have exactly the distinct stems as
    keys, and the entry of a stem is what a single pass of the loop body
    for that stem builds from an empty dict. *)
Theorem C10_duplicate_stems_collapse req disk k result_dict w :
  serve req disk k = (success_response req result_dict, w) →
  (∃ payloads,
     engine_calls w
       = [engine_args req (workspace req k) (stem_of <$> files req) payloads]
     ∧ Forall2 (λ f b, ∃ disk', disk' !! temp_path (workspace req k) f
                                  = Some (File (file_bytes f))
                                ∧ read_fn (temp_path (workspace req k) f) disk' = Ok b)
         (files req) payloads)
  ∧ dom result_dict = list_to_set (stem_of <$> files req)
  ∧ size result_dict = length (remove_dups (stem_of <$> files req))
  ∧ ∀ stem, stem ∈ stem_of <$> files req →
      ∃ data, result_dict !! stem = Some data
              ∧ collect_stem req (workspace req k) stem ∅ w = (Normal {[stem := data]}, w).
Proof.
  intros (names & Hdisp & Hcol)%serve_success_inv.
  pose proof Hdisp as (payloads & w3 & Hst & Hcall).
  pose proof (staged_decoded _ _ _ _ _ _ Hst) as Hdec.
  pose proof (staged_world _ _ _ _ _ _ Hst) as (Hc3 & _ & _ & Hnames & _).
  pose proof (dispatched_world _ _ _ _ _ Hdisp) as (Hclash & _).
  pose proof (call_aio_do_parse_log _ _ _ _ (engine_args_config _ _ _ _) Hcall) as [_ Hlog].
  rewrite Hclash, Hc3 in Hlog. subst names.
  apply collect_Normal in Hcol as (Hdom & _ & Hentry).
  rewrite dom_empty_L, union_empty_l_L in Hdom.
  split_and!; [by exists payloads|done| |done].
  rewrite <- size_dom, Hdom.
  rewrite <- (size_list_to_set (C:=gset string) (remove_dups (stem_of <$> files req)))
    by apply NoDup_remove_dups.
  f_equal. apply set_eq. intros x.
  by rewrite !elem_of_list_to_set, elem_of_remove_dups.
Qed.

(** ** The response envelope *)

(** C6, as the code has it. An exception that leaves the [try] block is
    answered 500 with its message after [Failed to process file: ] and a
    correlation identifier that is the draw after the one the workspace
    was named with, hence another identifier when the generator does not
    repeat itself. An early return is answered as it is, without a
    correlation identifier: the success response, the 400 that names the
    suffix of an unsupported file, or the 400 that carries the message of
    the decoder's exception. *)
Theorem C6_error_envelopes req disk k :
  uuid4 (S k) ≠ uuid4 k →
  (∀ e w,
     parse_pdf_try req (initial disk k) = (Raise e, w) →
     serve req disk k = (server_error_response e (uuid4 (S k)), drawn w)
     ∧ status_code (serve req disk k).1 = 500
     ∧ content (serve req disk k).1 !! "error"
       = Some (JStr ("Failed to process file: " +:+ e))
     ∧ content (serve req disk k).1 !! "request_id" = Some (JStr (uuid4 (S k)))
     ∧ workspace req k = Py.os_path_join (output_dir req) [uuid4 k]
     ∧ uuid4 (S k) ≠ uuid4 k)
  ∧ (∀ r w,
       parse_pdf_try req (initial disk k) = (Return r, w) →
       serve req disk k = (r, w)
       ∧ content r !! "request_id" = None
       ∧ ((status_code r = 200 ∧ ∃ result_dict, r = success_response req result_dict)
          ∨ (status_code r = 400
             ∧ ∃ f, f ∈ files req ∧ accepted f = false
                    ∧ content r !! "error"
                      = Some (JStr ("Unsupported file type: " +:+ Py.Path_suffix (filename f))))
          ∨ (status_code r = 400
             ∧ ∃ f e, f ∈ files req ∧ accepted f = true
                      ∧ read_fn (temp_path (workspace req k) f) (fs w) = Exception e
                      ∧ content r !! "error" = Some (JStr ("Failed to load file: " +:+ e))))).
Proof.
  intros Hfresh. split.
  - intros e w Htry. rewrite (serve_respond _ _ _ _ _ Htry).
    apply parse_pdf_try_inv, tried_draws in Htry. simpl. rewrite Htry.
    destruct (server_error_response_keys e (uuid4 (S k))) as (Herr & Hid & _).
    by split_and!.
  - intros r w Htry. rewrite (serve_respond _ _ _ _ _ Htry). simpl. split; [done|].
    apply parse_pdf_try_inv in Htry.
    inversion Htry as [|w2 r' w3 Hmk Hst| | | |names w4 rd Hdisp Hcol]; subst.
    + apply staging_returned_response in Hst
        as (H400 & Hkeys & [(f & Hin & Hacc & ->)|(f & e & Hin & Hacc & _ & Hread & ->)]).
      * split; [by apply Hkeys|]. right. left. split; [done|]. exists f.
        split_and!; [done..|]. simpl. by rewrite lookup_singleton_eq.
      * split; [by apply Hkeys|]. right. right. split; [done|]. exists f, e.
        split_and!; [done..|]. simpl. by rewrite lookup_singleton_eq.
    + split; [apply success_response_keys|]. left. split; [done|]. by exists rd.
Qed.

(** ** Process configuration *)

(** C8, as the code has it. The engine receives the configuration next
    to the request's own fields only when no configuration key repeats a
    keyword of the call; with a repeated key the call raises before the
    engine is entered, the engine is never called, and a request whose
    batch was staged is answered 500 with the message of that error. *)
Theorem C8_configuration_splice req disk k :
  (∀ args,
     args ∈ engine_calls (serve req disk k).2 →
     config_clashes = false
     ∧ kw_config args = config
     ∧ kw_backend args = backend req
     ∧ kw_parse_method args = parse_method req
     ∧ kw_formula_enable args = formula_enable req
     ∧ kw_table_enable args = table_enable req
     ∧ kw_server_url args = server_url req
     ∧ kw_start_page_id args = start_page_id req
     ∧ kw_end_page_id args = end_page_id req)
  ∧ (config_clashes = true →
     engine_calls (serve req disk k).2 = []
     ∧ status_code (serve req disk k).1 ≠ 200
     ∧ ∀ names payloads w3,
         staged req disk k names payloads w3 →
         ∃ key, key ∈ explicit_keywords ∧ key ∈ config.*1
                ∧ serve req disk k
                  = (server_error_response (multiple_values key) (uuid4 (S k)), drawn w3)).
Proof.
  split.
  - intros args (Hclash & _ & payloads & _ & ->)%serve_calls. by split_and!.
  - intros Hclash. split_and!.
    + destruct (serve_tried req disk k) as (o & w & _ & Htried & ->).
      rewrite respond_calls.
      destruct (tried_calls _ _ _ _ _ Htried) as [Hnil|(Hno & _)]; [done|congruence].
    + destruct (serve_tried req disk k) as (o & w & _ & Htried & ->).
      destruct Htried as [e w2 Hmk|w2 r w3 Hmk Hst|w2 e w3 Hmk Hst|names ps w3 e w4 Hst Hcall
                         |names w4 e Hdisp Hcol|names w4 rd Hdisp Hcol]; simpl; try done.
      * apply staging_returned_response in Hst as (-> & _). done.
      * apply dispatched_world in Hdisp as (Hno & _). congruence.
    + intros names payloads w3 Hst.
      destruct (call_aio_do_parse_clash (engine_args req (workspace req k) names payloads) w3
                  (engine_args_config _ _ _ _) Hclash) as (key & Hkey & Hcfg & Hcall).
      exists key. split_and!; [done..|].
      rewrite (serve_respond _ _ _ (Raise (multiple_values key)) w3).
      * simpl. by apply staged_world in Hst as (_ & -> & _).
      * rewrite (staged_run _ _ _ _ _ _ Hst). unfold bind at 1. by rewrite Hcall.
Qed.

End Facts.

(** * The properties on concrete requests *)

Lemma C1_language_reconciliation_witness :
  let req := Demo.request_with
               [Demo.upload "a.pdf" "%PDF-a"; Demo.upload "b.pdf" "%PDF-b"]
               ["en"; "fr"; "de"] "pipeline" true false false false false in
  let args := @engine_args Demo.collaborators req "./output/u" ["a"; "b"]
                ["%PDF-a"; "%PDF-b"] in
  args ∈ engine_calls (@serve Demo.collaborators req ∅ 0).2
  ∧ kw_p_lang_list args = ["en"; "en"]
  ∧ ∀ l, l ∈ kw_p_lang_list args → l = "en".
Proof.
  intros req args.
  assert (args ∈ engine_calls (@serve Demo.collaborators req ∅ 0).2) as Hin.
  { replace (engine_calls (@serve Demo.collaborators req ∅ 0).2) with [args]
      by (vm_compute; reflexivity).
    apply list_elem_of_here. }
  split; [exact Hin|].
  destruct (@C1_language_reconciliation Demo.collaborators req ∅ 0 args Hin)
    as (_ & _ & _ & _ & Hbroadcast).
  apply Hbroadcast. vm_compute. lia.
Defined.

Lemma C7_dump_flags_witness :
  let req := Demo.request_with [Demo.upload "a.pdf" "%PDF-a"] ["en"] "pipeline"
               true false true false false in
  let args := @engine_args Demo.collaborators req "./output/u" ["a"] ["%PDF-a"] in
  args ∈ engine_calls (@serve Demo.collaborators req ∅ 0).2
  ∧ kw_f_dump_md args = true
  ∧ kw_f_dump_middle_json args = false
  ∧ kw_f_dump_model_output args = true
  ∧ kw_f_dump_content_list args = false
  ∧ kw_f_draw_layout_bbox args = false
  ∧ kw_f_draw_span_bbox args = false
  ∧ kw_f_dump_orig_pdf args = false
  ∧ engine_calls (@serve Demo.collaborators req ∅ 0).2 = [args].
Proof.
  intros req args.
  assert (args ∈ engine_calls (@serve Demo.collaborators req ∅ 0).2) as Hin.
  { replace (engine_calls (@serve Demo.collaborators req ∅ 0).2) with [args]
      by (vm_compute; reflexivity).
    apply list_elem_of_here. }
  split; [exact Hin|].
  exact (@C7_dump_flags Demo.collaborators req ∅ 0 args Hin).
Defined.

(** The scenario of the design: one PDF, markdown only. *)
Example scenario_report :
  let out := @serve Demo.collaborators
               (Demo.request [Demo.upload "report.pdf" "%PDF-1.7"]) ∅ 0 in
  out.1 = @success_response Demo.collaborators
            (Demo.request [Demo.upload "report.pdf" "%PDF-1.7"])
            {[ "report" := {[ "md_content" := PStr "# report" ]} ]}
  ∧ fs out.2 !! "output/u/report.pdf" = None.
Proof. split; vm_compute; reflexivity. Qed.

(** Images found under the subtree are returned inline, keyed by their
    base name. *)
Example scenario_images :
  let req := Demo.request_with [Demo.upload "report.pdf" "%PDF-1.7"] ["en"] "pipeline"
               false false false false true in
  let disk : gmap string node :=
    {[ "./output/u/report/auto/images/x.jpg" := File "Man" ]} in
  (@serve Demo.collaborators req disk 0).1
  = @success_response Demo.collaborators req
      {[ "report" := {[ "images" := PDict {[ "x.jpg" := "data:image/jpeg;base64,TWFu" ]} ]} ]}.
Proof. vm_compute; reflexivity. Qed.

(** A file name in capitals passes the intake check. *)
Example scenario_capitals :
  @accepted Demo.collaborators (Demo.upload "SCAN.PNG" "PNG") = true.
Proof. vm_compute; reflexivity. Qed.

(** C2 on a failing input: the decoder rejects the one upload; the request
    is answered 400 and the temporary copy of the upload stays on the
    disk. *)
Theorem C2_decode_failure_leaves_temp_copy :
  let req := Demo.request [Demo.upload "scan.png" "junk"] in
  let out := @serve Demo.collaborators req ∅ 0 in
  temp_path (@workspace Demo.collaborators req 0) (Demo.upload "scan.png" "junk")
    = "output/u/scan.png"
  ∧ out.1 = load_failed_response "cannot identify image file"
  ∧ fs out.2 !! "output/u/scan.png" = Some (File "junk").
Proof. split_and!; vm_compute; reflexivity. Qed.

(** C3 does not hold as stated: a supported file followed by an
    unsupported one is answered 400, and the workspace directory, absent
    before the request, is on the disk after it. *)
Lemma C3_workspace_created_before_rejection :
  let tiff := Demo.upload "image.tiff" "II" in
  let req := Demo.request [Demo.upload "report.pdf" "%PDF-1.7"; tiff] in
  let out := @serve Demo.collaborators req ∅ 0 in
  @accepted Demo.collaborators tiff = false
  ∧ out.1 = unsupported_response tiff
  ∧ (∅ : gmap string node) !! @workspace Demo.collaborators req 0 = None
  ∧ fs out.2 !! @workspace Demo.collaborators req 0 = Some Dir
  ∧ fs out.2 ≠ ∅.
Proof.
  intros tiff req out.
  assert (fs out.2 !! @workspace Demo.collaborators req 0 = Some Dir) as Hdir
    by (vm_compute; reflexivity).
  split_and!; try (vm_compute; reflexivity).
  intros Hempty. rewrite Hempty in Hdir. by rewrite lookup_empty in Hdir.
Qed.

Lemma C3_unsupported_extension_rejected_witness :
  let report := Demo.upload "report.pdf" "%PDF-1.7" in
  let tiff := Demo.upload "image.TIFF" "II" in
  let req := Demo.request [report; tiff] in
  let out := @serve Demo.collaborators req ∅ 0 in
  files req = [report] ++ tiff :: []
  ∧ @accepted Demo.collaborators tiff = false
  ∧ engine_calls out.2 = []
  ∧ out.1 = unsupported_response tiff
  ∧ content out.1 !! "error" = Some (JStr "Unsupported file type: .TIFF")
  ∧ fs out.2 !! "./output/u" = Some Dir
  ∧ fs out.2 !! "output/u/report.pdf" = None.
Proof.
  intros report tiff req out.
  assert (@accepted Demo.collaborators tiff = false) as Hno by (vm_compute; reflexivity).
  destruct (@C3_unsupported_extension_rejected Demo.collaborators req ∅ 0
              [report] tiff [] eq_refl Hno) as (Hcalls & _ & Hrun).
  set (w2 := (os_makedirs (@workspace Demo.collaborators req 0) (drawn (initial ∅ 0))).2).
  set (w3 := (@stage_files Demo.collaborators (@workspace Demo.collaborators req 0)
                [report] [] [] w2).2).
  destruct (Hrun w2 (["report"], ["%PDF-1.7"]) w3) as (Hserve & Herr & Hdir & _ & Hgone);
    [vm_compute; reflexivity..|].
  subst out. rewrite Hserve. simpl fst. simpl snd.
  split_and!; [done|exact Hno|by rewrite Hserve in Hcalls|done|exact Herr|exact Hdir|].
  apply (Hgone report). left.
Defined.

(** C5 does not hold as stated: the subtree is there, the intermediate
    JSON was requested and its file is absent, and the key [middle_json]
    is in the entry, mapped to [None]. *)
Lemma C5_absent_artifact_key_present :
  let req := Demo.request_with [Demo.upload "report.pdf" "%PDF-1.7"] ["ch"] "pipeline"
               true true false false false in
  let out := @serve Demo.collaborators req ∅ 0 in
  status_code out.1 = 200
  ∧ fs out.2 !! "./output/u/report/auto" = Some Dir
  ∧ fs out.2 !! "./output/u/report/auto/report_middle.json" = None
  ∧ ∃ result_dict data,
      content out.1 !! "results" = Some (JResults result_dict)
      ∧ result_dict !! "report" = Some data
      ∧ data !! "middle_json" = Some PNone
      ∧ data !! "middle_json" ≠ None.
Proof.
  intros req out. split_and!; try (vm_compute; reflexivity).
  exists {[ "report" := {[ "md_content" := PStr "# report"; "middle_json" := PNone ]} ]},
         {[ "md_content" := PStr "# report"; "middle_json" := PNone ]}.
  split_and!; try (vm_compute; reflexivity). vm_compute. discriminate.
Qed.

Lemma C5_missing_artifact_is_null_witness :
  let req := Demo.request_with [Demo.upload "report.pdf" "%PDF-1.7"] ["ch"] "pipeline"
               true true false false true in
  let out := @serve Demo.collaborators req ∅ 0 in
  let data : gmap string pyvalue :=
    {[ "md_content" := PStr "# report"; "middle_json" := PNone; "images" := PDict ∅ ]} in
  content out.1 !! "results" = Some (JResults {[ "report" := data ]})
  ∧ is_Some (fs out.2 !! @parse_dir_of req (@workspace Demo.collaborators req 0) "report")
  ∧ data !! "middle_json" = Some PNone
  ∧ data !! "images" = Some (PDict ∅).
Proof.
  intros req out data.
  assert (content out.1 !! "results" = Some (JResults {[ "report" := data ]})) as Hres
    by (vm_compute; reflexivity).
  assert (is_Some (fs out.2 !! @parse_dir_of req (@workspace Demo.collaborators req 0) "report"))
    as Hdir by (exists Dir; vm_compute; reflexivity).
  destruct (@C5_missing_artifact_is_null Demo.collaborators req ∅ 0
              {[ "report" := data ]} "report" data Hres (lookup_singleton_eq _ _) Hdir)
    as [Hkinds Himages].
  split_and!; [exact Hres|exact Hdir| |].
  - apply (Hkinds IntermediateStructure); vm_compute; reflexivity.
  - apply Himages; vm_compute; reflexivity.
Defined.

(** C6 does not hold as stated: the 400 of a decode failure carries the
    message of the decoder's exception, which names neither the file nor
    its extension. *)
Lemma C6_decode_failure_message_names_no_file :
  let req := Demo.request [Demo.upload "scan.png" "junk"] in
  let out := @serve Demo.collaborators req ∅ 0 in
  let message := "Failed to load file: cannot identify image file" in
  status_code out.1 = 400
  ∧ content out.1 !! "error" = Some (JStr message)
  ∧ content out.1 !! "request_id" = None
  ∧ Py.contains message "scan.png" = false
  ∧ Py.contains message "scan" = false
  ∧ Py.contains message ".png" = false.
Proof. split_and!; vm_compute; reflexivity. Qed.

Lemma C6_error_envelopes_witness :
  let req := Demo.request_with [Demo.upload "a.pdf" "%PDF-a"] ["ch"] "pipeline-broken"
               true false false false false in
  let out := @serve Demo.collaborators req ∅ 0 in
  Demo.uuid_unary 1 ≠ Demo.uuid_unary 0
  ∧ status_code out.1 = 500
  ∧ content out.1 !! "error" = Some (JStr "Failed to process file: engine failure")
  ∧ content out.1 !! "request_id" = Some (JStr "ux")
  ∧ @workspace Demo.collaborators req 0 = "./output/u".
Proof.
  intros req out.
  assert (Demo.uuid_unary 1 ≠ Demo.uuid_unary 0) as Hfresh by (vm_compute; discriminate).
  destruct (@C6_error_envelopes Demo.collaborators req ∅ 0 Hfresh) as [H500 _].
  destruct (H500 "engine failure" (@parse_pdf_try Demo.collaborators req (initial ∅ 0)).2)
    as (_ & Hstatus & Herr & Hid & _); [vm_compute; reflexivity|].
  split_and!; [exact Hfresh|exact Hstatus|exact Herr|exact Hid|reflexivity].
Defined.

(** C4 does not hold as stated: with the parse method [/srv/shared] the
    subtree of a stem is [/srv/shared] itself, not
    [{workspace}/{stem}/{parse_method}]. Nothing is on the disk under the
    path the claim names, and the entry of the stem holds the text of
    [/srv/shared/skipped.md]. *)
Lemma C4_absolute_parse_method_replaces_the_subtree :
  let req := Demo.request_absolute [Demo.upload "skipped.pdf" "%PDF-1.7"] in
  let disk : gmap string node :=
    {[ "/srv/shared" := Dir; "/srv/shared/skipped.md" := File "old notes" ]} in
  let out := @serve Demo.collaborators req disk 0 in
  let claimed :=
    @workspace Demo.collaborators req 0 +:+ "/" +:+ "skipped" +:+ "/" +:+ parse_method req in
  Py.startswith (backend req) "pipeline" = true
  ∧ claimed = "./output/u/skipped//srv/shared"
  ∧ Py.os_path_join (@workspace Demo.collaborators req 0) ["skipped"; parse_method req]
    = "/srv/shared"
  ∧ fs out.2 !! claimed = None
  ∧ fs out.2 !! "./output/u/skipped" = None
  ∧ out.1 = @success_response Demo.collaborators req
              {[ "skipped" := {[ "md_content" := PStr "old notes" ]} ]}.
Proof. split_and!; vm_compute; reflexivity. Qed.

Lemma C4_backend_family_branching_witness :
  let req := Demo.request_with [Demo.upload "report.pdf" "%PDF-1.7"] ["ch"] "vlm-transformers"
               false false true false false in
  let w := {| fs := {[ "./output/u/report/vlm" := Dir;
                       "./output/u/report/vlm/report_model_output.txt" := File "tokens";
                       "./output/u/report/vlm/report_model.json" := File "layout" ]};
              uuid_draws := 1; engine_calls := [] |} in
  let data : gmap string pyvalue := {[ "model_output" := PStr "tokens" ]} in
  @collect_stem Demo.collaborators req "./output/u" "report" ∅ w
  = (Normal {[ "report" := data ]}, w)
  ∧ Py.os_path_join "./output/u" ["report"; "vlm"]
    = "./output/u" +:+ "/" +:+ "report" +:+ "/" +:+ "vlm"
  ∧ @stored_under Demo.collaborators data "model_output" true (fs w)
      (Py.os_path_join (Py.os_path_join "./output/u" ["report"; "vlm"])
         ["report" +:+ "_model_output.txt"])
  ∧ data !! "md_content" = None.
Proof.
  intros req w data.
  assert (@collect_stem Demo.collaborators req "./output/u" "report" ∅ w
          = (Normal {[ "report" := data ]}, w)) as Hpass by (vm_compute; reflexivity).
  destruct (@C4_backend_family_branching Demo.collaborators req "./output/u" "report" ∅ w
              {[ "report" := data ]} w Hpass)
    as ((data' & Hdata & _ & Hvlm) & Hplain & _).
  rewrite lookup_singleton_eq in Hdata. injection Hdata as <-.
  specialize (Hvlm eq_refl). unfold collected_from in Hvlm.
  rewrite bool_decide_eq_true_2 in Hvlm by (exists Dir; vm_compute; reflexivity).
  destruct Hvlm as (Hmd & _ & Hmodel & _).
  split_and!; [exact Hpass| |exact Hmodel|exact Hmd].
  apply Hplain; first [reflexivity|discriminate].
Defined.

(** C9 does not hold as stated: the engine call completes and the subtree
    of [skipped] is missing, but the middle JSON of [report] is a
    directory; reading it raises, and the request is answered 500 with no
    results at all. *)
Lemma C9_unreadable_artifact_of_another_stem :
  let req := Demo.request_with
               [Demo.upload "skipped.pdf" "%PDF-s"; Demo.upload "report.pdf" "%PDF-r"]
               ["ch"] "pipeline" true true false false false in
  let disk : gmap string node :=
    {[ "./output/u/report/auto/report_middle.json" := Dir ]} in
  let out := @serve Demo.collaborators req disk 0 in
  let w := {| fs := fs out.2; uuid_draws := 1; engine_calls := engine_calls out.2 |} in
  @dispatched Demo.collaborators req disk 0 ["skipped"; "report"] w
  ∧ fs w !! @parse_dir_of req (@workspace Demo.collaborators req 0) "skipped" = None
  ∧ status_code out.1 = 500
  ∧ content out.1 !! "results" = None
  ∧ length (engine_calls out.2) = 1.
Proof.
  intros req disk out w. split_and!; try (vm_compute; reflexivity).
  exists ["%PDF-s"; "%PDF-r"],
         (@stage_files Demo.collaborators (@workspace Demo.collaborators req 0) (files req)
            [] [] (os_makedirs (@workspace Demo.collaborators req 0)
                     (drawn (initial disk 0))).2).2.
  split; [|vm_compute; reflexivity].
  eexists. split; vm_compute; reflexivity.
Qed.

(** C8 does not hold as stated: with [backend] in the configuration, a
    request that names a backend of its own is answered 500 and the engine
    is never called. *)
Lemma C8_clashing_key_fails_the_call :
  let req := Demo.request [Demo.upload "report.pdf" "%PDF-1.7"] in
  let out := @serve Demo.clashing req ∅ 0 in
  @config Demo.clashing = [("backend", CStr "vlm-transformers")]
  ∧ backend req = "pipeline"
  ∧ status_code out.1 = 500
  ∧ content out.1 !! "error"
    = Some (JStr "Failed to process file: mineru.cli.common.aio_do_parse() got multiple values for keyword argument 'backend'")
  ∧ engine_calls out.2 = [].
Proof. split_and!; vm_compute; reflexivity. Qed.

Lemma C9_missing_subtree_degraded_success_witness :
  let req := Demo.request [Demo.upload "skipped.pdf" "%PDF-s"; Demo.upload "report.pdf" "%PDF-r"] in
  let out := @serve Demo.collaborators req ∅ 0 in
  @dispatched Demo.collaborators req ∅ 0 ["skipped"; "report"] out.2
  ∧ fs out.2 !! @parse_dir_of req (@workspace Demo.collaborators req 0) "skipped" = None
  ∧ status_code out.1 = 200
  ∧ ∃ result_dict,
      out.1 = @success_response Demo.collaborators req result_dict
      ∧ result_dict !! "skipped" = Some ∅.
Proof.
  intros req out.
  assert (@dispatched Demo.collaborators req ∅ 0 ["skipped"; "report"] out.2) as Hdisp.
  { exists ["%PDF-s"; "%PDF-r"],
           (@stage_files Demo.collaborators (@workspace Demo.collaborators req 0) (files req)
              [] [] (os_makedirs (@workspace Demo.collaborators req 0)
                       (drawn (initial ∅ 0))).2).2.
    split; [|vm_compute; reflexivity].
    eexists. split; vm_compute; reflexivity. }
  assert (fs out.2 !! @parse_dir_of req (@workspace Demo.collaborators req 0) "skipped" = None)
    as Hnone by (vm_compute; reflexivity).
  assert (∀ name, name ∈ ["skipped"; "report"] →
            is_Some (fs out.2 !! @parse_dir_of req (@workspace Demo.collaborators req 0) name) →
            ∃ rd, @collect_stem Demo.collaborators req (@workspace Demo.collaborators req 0)
                    name ∅ out.2 = (Normal rd, out.2)) as Hpasses.
  { intros name [->|[->|Hin%elem_of_nil]%elem_of_cons]%elem_of_cons _; [| |done];
      eexists; vm_compute; reflexivity. }
  destruct (@C9_missing_subtree_degraded_success Demo.collaborators req ∅ 0
              ["skipped"; "report"] out.2 Hdisp Hpasses)
    as (_ & rd & Hserve & Hstatus & Hentries).
  split_and!; [exact Hdisp|exact Hnone|exact Hstatus|].
  exists rd. split.
  - subst out. by rewrite Hserve.
  - apply Hentries; [left|exact Hnone].
Defined.

Lemma C10_duplicate_stems_collapse_witness :
  let req := Demo.request [Demo.upload "a.pdf" "%PDF-1"; Demo.upload "a.png" "PNG-2"] in
  let out := @serve Demo.collaborators req ∅ 0 in
  let result_dict : gmap string (gmap string pyvalue) :=
    {[ "a" := {[ "md_content" := PStr "# a" ]} ]} in
  out = (@success_response Demo.collaborators req result_dict, out.2)
  ∧ stem_of <$> files req = ["a"; "a"]
  ∧ size result_dict = 1
  ∧ ∃ payloads,
      engine_calls out.2
      = [@engine_args Demo.collaborators req "./output/u" ["a"; "a"] payloads]
      ∧ length payloads = 2.
Proof.
  intros req out result_dict.
  assert (@serve Demo.collaborators req ∅ 0
          = (@success_response Demo.collaborators req result_dict, out.2)) as Hserve
    by (vm_compute; reflexivity).
  destruct (@C10_duplicate_stems_collapse Demo.collaborators req ∅ 0 result_dict out.2 Hserve)
    as ((payloads & Hcalls & Hdec) & _ & Hsize & _).
  split_and!; [exact Hserve|reflexivity|exact Hsize|].
  exists payloads. split; [exact Hcalls|].
  apply Forall2_length in Hdec. by rewrite <- Hdec.
Defined.

(** * Further properties of the handler *)

Section More.
Context `{Collaborators}.

(** ** What staging touches *)

Lemma os_makedirs_disk p w w' :
  os_makedirs p w = (Normal (), w') → makedirs_on p (fs w) = Ok (fs w').
Proof.
  unfold os_makedirs. destruct (makedirs_on p (fs w)) as [made|e]; intros Hm;
    by simplify_eq.
Qed.



Lemma stage_files_disk unique_dir files names payloads w acc w' :
  stage_files unique_dir files names payloads w = (Normal acc, w') →
  fs w' = foldl (λ d f, delete (temp_path unique_dir f) d) (fs w) files.
Proof.
  revert names payloads w. induction files as [|f rest IH]; intros names payloads w.
  - intros [= <- <-]. done.
  - rewrite stage_files_cons.
    destruct (stage_file unique_dir f names payloads w) as [[acc1|r|e] w1] eqn:Hf;
      [|discriminate..].
    apply stage_file_Normal in Hf as (_ & Hfs & _).
    intros Hrest. rewrite (IH _ _ _ Hrest). simpl. by rewrite Hfs.
Qed.

Lemma serve_draws req disk k :
  uuid_draws (serve req disk k).2 = S k ∨ uuid_draws (serve req disk k).2 = S (S k).
Proof.
  destruct (serve_tried req disk k) as (o & w & _ & Htried & ->).
  pose proof (tried_draws _ _ _ _ _ Htried) as Hdraws.
  destruct o as [[]|r|e]; simpl; [by left|right; by rewrite Hdraws].
Qed.

(** X1. Every request is answered 200, 400 or 500. It takes one
    identifier from the generator for the workspace, and a second one
    exactly when the answer is 500. *)
Theorem X1_status_and_identifiers req disk k :
  (status_code (serve req disk k).1 = 200 ∧ uuid_draws (serve req disk k).2 = S k)
  ∨ (status_code (serve req disk k).1 = 400 ∧ uuid_draws (serve req disk k).2 = S k)
  ∨ (status_code (serve req disk k).1 = 500 ∧ uuid_draws (serve req disk k).2 = S (S k)).
Proof.
  destruct (serve_tried req disk k) as (o & w & _ & Htried & ->).
  pose proof (tried_draws _ _ _ _ _ Htried) as Hdraws.
  destruct Htried as [e w2 Hmk|w2 r w3 Hmk Hst|w2 e w3 Hmk Hst|names payloads w3 e w4 Hst Hcall
                     |names w4 e Hdisp Hcol|names w4 rd Hdisp Hcol]; simpl;
    try (right; right; split; [done|by rewrite Hdraws]).
  - apply staging_returned_response in Hst as (H400 & _). right. left. done.
  - by left.
Qed.


(** X3. In a request answered 200 the engine ran on the disk that
    [os.makedirs] left, with the workspace and the directories above it,
    and with none of the temporary copies; the disk after the response is
    the one the engine left: collection writes nothing. *)
Theorem X3_engine_disk req disk k result_dict w :
  serve req disk k = (success_response req result_dict, w) →
  ∃ payloads,
    aio_do_parse (engine_args req (workspace req k) (stem_of <$> files req) payloads)
      (staged_disk (workspace req k) (files req) disk)
    = (fs w, Ok ())
    ∧ staged_disk (workspace req k) (files req) disk !! workspace req k = Some Dir
    ∧ ∀ f, f ∈ files req →
        staged_disk (workspace req k) (files req) disk !! temp_path (workspace req k) f = None.
Proof.
  intros (names & Hdisp & _)%serve_success_inv.
  pose proof (dispatched_world _ _ _ _ _ Hdisp) as (Hclash & _ & Hnames & _).
  destruct Hdisp as (payloads & w3 & Hstaged & Hcall).
  pose proof (staged_world _ _ _ _ _ _ Hstaged) as (_ & _ & Hdir3 & _ & _ & _ & Hgone3).
  destruct Hstaged as (w2 & Hmk & Hst).
  exists payloads. subst names.
  rewrite (call_aio_do_parse_no_clash _ _ (engine_args_config _ _ _ _) Hclash) in Hcall.
  apply os_makedirs_disk in Hmk. apply stage_files_disk in Hst.
  unfold staged_disk. simpl in Hmk. rewrite Hmk, <- Hst.
  split_and!; [|exact Hdir3|exact Hgone3].
  destruct (aio_do_parse _ (fs w3)) as [d [[]|e]]; [|discriminate].
  by injection Hcall as <-.
Qed.

(** ** The entries of a response *)

(** The keys of an entry are among the five the loop body writes. *)
Lemma collect_stem_other_keys req unique_dir pdf_name result_dict w result_dict' w' :
  collect_stem req unique_dir pdf_name result_dict w = (Normal result_dict', w') →
  ∃ data, result_dict' !! pdf_name = Some data
    ∧ ∀ key, key ∉ kind_key <$> text_kinds → key ≠ "images" → data !! key = None.
Proof.
  rewrite collect_stem_table. unfold collect_stem_by_table.
  set (fam := family_of (backend req)).
  set (subtree := output_subtree fam unique_dir pdf_name (parse_method req)).
  unfold bind at 1, os_path_exists.
  destruct (bool_decide (is_Some (fs w !! subtree))).
  - intros Hrun. apply bind_Normal in Hrun as (rd1 & w1 & Hkinds & Himages).
    destruct (collect_kinds_entry _ _ _ _ _ _ _ _ _ ∅ Hkinds
                (lookup_insert_eq _ _ _) text_kind_keys_NoDup)
      as (data1 & Hd1 & Hkeep1 & _).
    destruct (return_images req).
    + unfold store_images in Himages.
      apply bind_Normal in Himages as (paths & w2 & _ & Himages).
      apply bind_Normal in Himages as (images & w3 & _ & Hret).
      injection Hret as <- <-.
      exists (<["images" := PDict images]> data1). split.
      * unfold data_setitem. by rewrite lookup_alter_eq, Hd1.
      * intros key Hkey Hne. rewrite lookup_insert_ne by done.
        by rewrite Hkeep1, lookup_empty.
    + injection Himages as <- <-. exists data1. split; [done|].
      intros key Hkey _. by rewrite Hkeep1, lookup_empty.
  - intros [= <- <-]. exists ∅. split; [by rewrite lookup_insert_eq|].
    intros key _ _. apply lookup_empty.
Qed.

(** The entry of a stem in a response that carries results is what one
    pass of the loop body builds on the final disk. *)
Lemma serve_results_entry req disk k result_dict stem data :
  content (serve req disk k).1 !! "results" = Some (JResults result_dict) →
  result_dict !! stem = Some data →
  collect_stem req (workspace req k) stem ∅ (serve req disk k).2
  = (Normal {[stem := data]}, (serve req disk k).2).
Proof.
  intros (names & _ & Hcol & _)%serve_results_inv Hdata.
  apply collect_Normal in Hcol as (Hdom & _ & Hentry).
  assert (stem ∈ names) as Hin.
  { apply (elem_of_list_to_set (C:=gset string)).
    rewrite dom_empty_L, union_empty_l_L in Hdom. rewrite <- Hdom.
    apply elem_of_dom. by exists data. }
  destruct (Hentry stem Hin) as (data' & Hdata' & Hpass). congruence.
Qed.

(** X4. In a response that carries results, the keys of a stem's entry
    are exactly the keys of the requested kinds when the stem's subtree is
    on the disk, and there are none when it is not: nothing that was not
    asked for is returned. *)
Theorem X4_entry_keys req disk k result_dict stem data :
  content (serve req disk k).1 !! "results" = Some (JResults result_dict) →
  result_dict !! stem = Some data →
  dom data =
    if bool_decide (is_Some (fs (serve req disk k).2 !! parse_dir_of req (workspace req k) stem))
    then requested_keys req else ∅.
Proof.
  intros Hres Hdata. pose proof (serve_results_entry _ _ _ _ _ _ Hres Hdata) as Hpass.
  set (w := (serve req disk k).2) in *.
  destruct (collect_stem_entry _ _ _ _ _ _ _ Hpass) as (data1 & Hd1 & Hshape).
  destruct (collect_stem_other_keys _ _ _ _ _ _ _ Hpass) as (data2 & Hd2 & Hother).
  rewrite lookup_singleton_eq in Hd1, Hd2. injection Hd1 as <-. injection Hd2 as <-.
  destruct (bool_decide (is_Some (fs w !! parse_dir_of req (workspace req k) stem)));
    [|by rewrite Hshape, dom_empty_L].
  destruct Hshape as [Hkinds Himages].
  apply set_eq. intros key. rewrite elem_of_dom. unfold requested_keys.
  rewrite elem_of_union, elem_of_list_to_set, list_elem_of_fmap. split.
  - intros Hsome. destruct (decide (key ∈ kind_key <$> text_kinds)) as [Hin|Hnotin].
    + apply list_elem_of_fmap in Hin as (kind & -> & _). left. exists kind. split; [done|].
      apply list_elem_of_filter. split; [|apply text_kinds_all].
      specialize (Hkinds kind). destruct (kind_requested req kind); [done|].
      rewrite Hkinds in Hsome. by destruct Hsome.
    + destruct (decide (key = "images")) as [->|Hne].
      * right. destruct (return_images req); [by apply elem_of_singleton|].
        rewrite Himages in Hsome. by destruct Hsome.
      * rewrite (Hother key Hnotin Hne) in Hsome. by destruct Hsome.
  - intros [(kind & -> & [Hreq _]%list_elem_of_filter)|Himg].
    + specialize (Hkinds kind). rewrite Hreq in Hkinds.
      destruct Hkinds as (v & _ & ->). eauto.
    + destruct (return_images req); [|by apply elem_of_empty in Himg].
      apply elem_of_singleton in Himg as ->. destruct Himages as (images & _ & ->). eauto.
Qed.

(** A requested text kind whose file is there and decodes is returned as
    the decoded text, with the line ends of text mode. *)
Lemma present_artifact_text req disk k result_dict stem data kind bytes text :
  content (serve req disk k).1 !! "results" = Some (JResults result_dict) →
  result_dict !! stem = Some data →
  is_Some (fs (serve req disk k).2 !! parse_dir_of req (workspace req k) stem) →
  kind_requested req kind = true →
  fs (serve req disk k).2
    !! kind_path (family_of (backend req)) (parse_dir_of req (workspace req k) stem) stem kind
    = Some (File bytes) →
  decode_utf8 bytes = Ok text →
  data !! kind_key kind = Some (PStr (Py.universal_newlines text)).
Proof.
  intros Hres Hdata Hdir Hreq Hfile Hdec.
  pose proof (serve_results_entry _ _ _ _ _ _ Hres Hdata) as Hpass.
  set (w := (serve req disk k).2) in *.
  destruct (collect_stem_entry _ _ _ _ _ _ _ Hpass) as (data1 & Hd1 & Hshape).
  rewrite lookup_singleton_eq in Hd1. injection Hd1 as <-.
  rewrite bool_decide_eq_true_2 in Hshape by done. destruct Hshape as [Hkinds _].
  specialize (Hkinds kind). rewrite Hreq in Hkinds. destruct Hkinds as (v & Hget & ->).
  rewrite (get_infer_result_present _ _ _ _ _ Hfile), Hdec in Hget.
  by injection Hget as <-.
Qed.

(** X5. In a response that carries results, a requested text kind whose
    file is on the disk under the stem's subtree, with bytes the codec
    decodes, is returned under its key as the text read in text mode: the
    decoded text, in which [\r\n] and a lone [\r] have become [\n]. *)
Theorem X5_present_artifact_text req disk k result_dict stem data kind bytes text :
  content (serve req disk k).1 !! "results" = Some (JResults result_dict) →
  result_dict !! stem = Some data →
  is_Some (fs (serve req disk k).2 !! parse_dir_of req (workspace req k) stem) →
  kind_requested req kind = true →
  fs (serve req disk k).2
    !! kind_path (family_of (backend req)) (parse_dir_of req (workspace req k) stem) stem kind
    = Some (File bytes) →
  decode_utf8 bytes = Ok text →
  data !! kind_key kind = Some (PStr (Py.universal_newlines text))
  ∧ get_infer_result (kind_suffix (family_of (backend req)) kind) stem
      (parse_dir_of req (workspace req k) stem) (serve req disk k).2
    = (Normal (Some (Py.universal_newlines text)), (serve req disk k).2).
Proof.
  intros Hres Hdata Hdir Hreq Hfile Hdec. split.
  - by eapply present_artifact_text.
  - unfold kind_path in Hfile. by rewrite (get_infer_result_present _ _ _ _ _ Hfile), Hdec.
Qed.

(** The loop fails as soon as the pass of one of its stems does. *)
Lemma collect_raises req unique_dir names result_dict w name :
  name ∈ names →
  (∀ rd, collect_stem req unique_dir name ∅ w ≠ (Normal rd, w)) →
  ∃ e, collect req unique_dir names result_dict w = (Raise e, w).
Proof.
  intros Hin Hfail. revert result_dict.
  induction names as [|name0 rest IH]; intros rd; [by apply elem_of_nil in Hin|].
  rewrite collect_cons.
  destruct (collect_stem_local req unique_dir name0 w) as (o & Hnr & Ho).
  rewrite Ho. destruct o as [data|r|e]; simpl.
  - apply elem_of_cons in Hin as [->|Hin]; [|by apply IH].
    exfalso. apply (Hfail (<[name0 := data]> ∅)). by rewrite Ho.
  - by destruct (Hnr r).
  - by exists e.
Qed.

(** A request whose engine call completed and whose collection fails is
    answered 500, after the one engine call. *)
Lemma failed_collection_response req disk k names w name :
  dispatched req disk k names w →
  name ∈ names →
  (∀ rd, collect_stem req (workspace req k) name ∅ w ≠ (Normal rd, w)) →
  status_code (serve req disk k).1 = 500
  ∧ fs (serve req disk k).2 = fs w
  ∧ length (engine_calls (serve req disk k).2) = 1.
Proof.
  intros Hdisp Hin Hfail.
  destruct (collect_raises req (workspace req k) names ∅ w name Hin Hfail) as [e Hcol].
  rewrite (serve_respond _ _ _ (Raise e) w).
  - simpl. apply dispatched_world in Hdisp as (_ & _ & _ & payloads & _ & ->). done.
  - rewrite (dispatched_run _ _ _ _ _ Hdisp). unfold bind. by rewrite Hcol.
Qed.

(** X6. One unreadable artifact fails the whole request. After a
    completed engine call, if for some stem with a subtree a requested
    text kind's path is a directory, or a file whose bytes the codec
    rejects, the answer is 500, whatever the other stems hold. *)
Theorem X6_unreadable_artifact_fails_request req disk k names w stem kind :
  dispatched req disk k names w →
  stem ∈ names →
  is_Some (fs w !! parse_dir_of req (workspace req k) stem) →
  kind_requested req kind = true →
  (fs w !! kind_path (family_of (backend req)) (parse_dir_of req (workspace req k) stem)
            stem kind = Some Dir
   ∨ ∃ bytes e,
       fs w !! kind_path (family_of (backend req)) (parse_dir_of req (workspace req k) stem)
                 stem kind = Some (File bytes)
       ∧ decode_utf8 bytes = Exception e) →
  status_code (serve req disk k).1 = 500
  ∧ fs (serve req disk k).2 = fs w
  ∧ length (engine_calls (serve req disk k).2) = 1.
Proof.
  intros Hdisp Hin Hdir Hreq Hbad.
  apply (failed_collection_response _ _ _ _ _ stem Hdisp Hin).
  intros rd Hpass.
  destruct (collect_stem_entry _ _ _ _ _ _ _ Hpass) as (data & _ & Hshape).
  rewrite bool_decide_eq_true_2 in Hshape by done. destruct Hshape as [Hkinds _].
  specialize (Hkinds kind). rewrite Hreq in Hkinds. destruct Hkinds as (v & Hget & _).
  destruct Hbad as [Hd|(bytes & e & Hfile & Hdec)].
  - destruct (get_infer_result_directory _ _ _ _ Hd) as [e He].
    unfold kind_path in *. congruence.
  - rewrite (get_infer_result_present _ _ _ _ _ Hfile), Hdec in Hget. discriminate.
Qed.

(** ** Inline images *)

Lemma encode_image_Normal image_path w enc w' :
  encode_image image_path w = (Normal enc, w') →
  w' = w ∧ ∃ bytes, fs w !! image_path = Some (File bytes) ∧ enc = b64encode bytes.
Proof.
  unfold encode_image, bind, open_read_bytes, ret.
  destruct (fs w !! image_path) as [[|bytes]|]; intros; simplify_eq. eauto.
Qed.

(** What the comprehension builds: a key per base name, every value the
    data URI of a matched regular file of that base name, and every
    matched path a regular file. *)
Lemma images_dict_Normal image_paths acc w images w' :
  images_dict image_paths acc w = (Normal images, w') →
  dom images = dom acc ∪ list_to_set (Py.os_path_basename <$> image_paths)
  ∧ (∀ p, p ∈ image_paths → ∃ bytes, fs w !! p = Some (File bytes))
  ∧ ∀ key v, images !! key = Some v →
      acc !! key = Some v
      ∨ ∃ p bytes, p ∈ image_paths ∧ Py.os_path_basename p = key
                   ∧ fs w !! p = Some (File bytes) ∧ v = data_uri bytes.
Proof.
  revert acc w. induction image_paths as [|p rest IH]; intros acc w.
  - intros [= <- <-]. split_and!.
    + simpl. by rewrite union_empty_r_L.
    + intros p Hp. by apply elem_of_nil in Hp.
    + intros key v Hv. by left.
  - simpl. intros Hrun. apply bind_Normal in Hrun as (enc & w1 & Henc & Hrest).
    apply encode_image_Normal in Henc as (-> & bytes & Hfile & ->).
    apply IH in Hrest as (Hdom & Hfiles & Hvals). split_and!.
    + rewrite Hdom, dom_insert_L. simpl.
      by rewrite (comm_L (∪) {[Py.os_path_basename p]} (dom acc)), (assoc_L (∪)).
    + intros q [->|Hq]%elem_of_cons; [eauto|by apply Hfiles].
    + intros key v Hv. destruct (Hvals key v Hv) as [Hacc|(q & qb & Hq & Hkey & Hqf & ->)].
      * destruct (decide (Py.os_path_basename p = key)) as [<-|Hne].
        -- rewrite lookup_insert_eq in Hacc. injection Hacc as <-.
           right. exists p, bytes. split_and!; [left|done..].
        -- rewrite lookup_insert_ne in Hacc by done. by left.
      * right. exists q, qb. split_and!; [by right|done..].
Qed.

(** X7. In a response that carries results, with images requested and
    the stem's subtree on the disk, the entry holds under [images] a dict
    with one key per base name of the paths the glob matched; each value
    is the data URI of the bytes of a matched regular file with that base
    name. *)
Theorem X7_inline_images req disk k result_dict stem data :
  content (serve req disk k).1 !! "results" = Some (JResults result_dict) →
  result_dict !! stem = Some data →
  is_Some (fs (serve req disk k).2 !! parse_dir_of req (workspace req k) stem) →
  return_images req = true →
  ∃ images,
    data !! "images" = Some (PDict images)
    ∧ dom images
      = list_to_set (Py.os_path_basename
          <$> glob (images_pattern (parse_dir_of req (workspace req k) stem))
                (fs (serve req disk k).2))
    ∧ ∀ key v, images !! key = Some v →
        ∃ p bytes,
          p ∈ glob (images_pattern (parse_dir_of req (workspace req k) stem))
                (fs (serve req disk k).2)
          ∧ Py.os_path_basename p = key
          ∧ fs (serve req disk k).2 !! p = Some (File bytes)
          ∧ v = data_uri bytes.
Proof.
  intros Hres Hdata Hdir Himg.
  pose proof (serve_results_entry _ _ _ _ _ _ Hres Hdata) as Hpass.
  set (w := (serve req disk k).2) in *.
  destruct (collect_stem_entry _ _ _ _ _ _ _ Hpass) as (data1 & Hd1 & Hshape).
  rewrite lookup_singleton_eq in Hd1. injection Hd1 as <-.
  rewrite bool_decide_eq_true_2 in Hshape by done. destruct Hshape as [_ Himages].
  rewrite Himg in Himages. destruct Himages as (images & Hdict & Hkey).
  apply images_dict_Normal in Hdict as (Hdom & _ & Hvals).
  exists images. split_and!; [done| |].
  - by rewrite Hdom, dom_empty_L, union_empty_l_L.
  - intros key v Hv. destruct (Hvals key v Hv) as [Hempty|Hfound]; [|done].
    by rewrite lookup_empty in Hempty.
Qed.

(** X8. A matched image path that is not a regular file fails the whole
    request: after a completed engine call, with images requested, if the
    glob under some stem's subtree matches a path that is a directory or
    is not on the disk, the answer is 500. *)
Theorem X8_unreadable_image_fails_request req disk k names w stem p :
  dispatched req disk k names w →
  stem ∈ names →
  is_Some (fs w !! parse_dir_of req (workspace req k) stem) →
  return_images req = true →
  p ∈ glob (images_pattern (parse_dir_of req (workspace req k) stem)) (fs w) →
  (∀ bytes, fs w !! p ≠ Some (File bytes)) →
  status_code (serve req disk k).1 = 500
  ∧ fs (serve req disk k).2 = fs w
  ∧ length (engine_calls (serve req disk k).2) = 1.
Proof.
  intros Hdisp Hin Hdir Himg Hp Hbad.
  apply (failed_collection_response _ _ _ _ _ stem Hdisp Hin).
  intros rd Hpass.
  destruct (collect_stem_entry _ _ _ _ _ _ _ Hpass) as (data & _ & Hshape).
  rewrite bool_decide_eq_true_2 in Hshape by done. destruct Hshape as [_ Himages].
  rewrite Himg in Himages. destruct Himages as (images & Hdict & _).
  apply images_dict_Normal in Hdict as (_ & Hfiles & _).
  destruct (Hfiles p Hp) as [bytes Hfile]. by apply (Hbad bytes).
Qed.

(** ** Staging, once more *)

Lemma config_clash_no_success req disk k :
  config_clashes = true →
  engine_calls (serve req disk k).2 = [] ∧ status_code (serve req disk k).1 ≠ 200.
Proof.
  intros Hclash. destruct (serve_tried req disk k) as (o & w & _ & Htried & ->).
  split.
  - rewrite respond_calls.
    destruct (tried_calls _ _ _ _ _ Htried) as [Hnil|(Hno & _)]; [done|congruence].
  - destruct Htried as [e w2 Hmk|w2 r w3 Hmk Hst|w2 e w3 Hmk Hst|names ps w3 e w4 Hst Hcall
                       |names w4 e Hdisp Hcol|names w4 rd Hdisp Hcol]; simpl; try done.
    + apply staging_returned_response in Hst as (-> & _). done.
    + apply dispatched_world in Hdisp as (Hno & _). congruence.
Qed.

(** X9. Once a batch of uploads is answered 400, uploads appended after
    it change nothing: the response and the world left behind are the
    same, and the appended files are never written. *)
Theorem X9_files_after_a_rejection_are_ignored req disk k uploads more :
  status_code (serve (with_files uploads req) disk k).1 = 400 →
  serve (with_files (uploads ++ more) req) disk k = serve (with_files uploads req) disk k.
Proof.
  destruct (serve_tried (with_files uploads req) disk k) as (o & w & _ & Htried & ->).
  destruct Htried as [e w2 Hmk|w2 r w3 Hmk Hst|w2 e w3 Hmk Hst|names payloads w3 e w4 Hst Hcall
                     |names w4 e Hdisp Hcol|names w4 rd Hdisp Hcol]; simpl;
    try discriminate.
  intros _. apply (serve_respond _ _ _ (Return r) w3).
  rewrite parse_pdf_try_phases.
  change (workspace (with_files (uploads ++ more) req) k)
    with (workspace (with_files uploads req) k).
  unfold bind at 1. rewrite Hmk. unfold bind at 1.
  change (files (with_files (uploads ++ more) req)) with (uploads ++ more).
  change (files (with_files uploads req)) with uploads in Hst.
  by rewrite stage_files_app, Hst.
Qed.

(** X10. Reconciling the languages a second time changes nothing, and
    reconciliation invents no language: an entry of the result is an entry
    of the caller's list, or ["ch"] when the caller's list is empty. *)
Theorem X10_reconciliation_is_stable langs names :
  actual_lang_list (actual_lang_list langs names) names = actual_lang_list langs names
  ∧ ∀ l, l ∈ actual_lang_list langs names → l ∈ langs ∨ (langs = [] ∧ l = "ch").
Proof.
  split.
  - apply actual_lang_list_same, actual_lang_list_length.
  - intros l Hl. destruct (decide (length langs = length names)) as [Heq|Hne].
    + rewrite actual_lang_list_same in Hl by done. by left.
    + rewrite actual_lang_list_broadcast in Hl by done.
      apply elem_of_replicate in Hl as [-> _].
      destruct langs as [|l0 rest]; [by right|left; left].
Qed.

(** X16. When the engine raises, the answer is the 500 that carries the
    engine's message; the engine was entered once, and the disk is left as
    the engine left it. *)
Theorem X16_engine_failure req disk k names payloads w3 disk' e :
  staged req disk k names payloads w3 →
  config_clashes = false →
  aio_do_parse (engine_args req (workspace req k) names payloads) (fs w3)
    = (disk', Exception e) →
  (serve req disk k).1 = server_error_response e (uuid4 (S k))
  ∧ fs (serve req disk k).2 = disk'
  ∧ engine_calls (serve req disk k).2
    = [engine_args req (workspace req k) names payloads].
Proof.
  intros Hst Hclash Hengine.
  pose proof (staged_world _ _ _ _ _ _ Hst) as (Hc3 & Hu3 & _).
  rewrite (serve_respond _ _ _ (Raise e)
             (set_fs disk' (logged (engine_args req (workspace req k) names payloads) w3))).
  - simpl. by rewrite Hu3, Hc3.
  - rewrite (staged_run _ _ _ _ _ _ Hst). unfold bind at 1.
    rewrite (call_aio_do_parse_no_clash _ _ (engine_args_config _ _ _ _) Hclash).
    by rewrite Hengine.
Qed.

(** X17. When the path of the workspace is taken by a regular file, the
    request is answered 500 and nothing else happens: the disk is as it
    was, no upload is written, the engine is not called. *)
Theorem X17_allocation_failure req disk k data :
  disk !! workspace req k = Some (File data) →
  status_code (serve req disk k).1 = 500
  ∧ fs (serve req disk k).2 = disk
  ∧ engine_calls (serve req disk k).2 = []
  ∧ content (serve req disk k).1 !! "request_id" = Some (JStr (uuid4 (S k))).
Proof.
  intros Hfile.
  rewrite (serve_respond _ _ _
             (Raise ("[Errno 17] File exists: '" +:+ workspace req k +:+ "'"))
             (drawn (initial disk k))).
  - simpl. split_and!; [done..|].
    by rewrite lookup_insert_ne, lookup_singleton_eq.
  - rewrite parse_pdf_try_phases. unfold bind at 1, os_makedirs, makedirs_on. simpl.
    by rewrite Hfile.
Qed.


(** ** Workspaces *)

(** X13. Two workspaces under the same output root are different paths
    as soon as their identifiers are different and do not start with a
    slash; so the workspace of the request that follows a request is not
    the workspace of that request, whether it was answered 500 or not. *)
Theorem X13_workspaces_are_distinct req req' disk k :
  output_dir req' = output_dir req →
  Py.startswith (uuid4 k) "/" = false →
  (∀ j, j = S k ∨ j = S (S k) → Py.startswith (uuid4 j) "/" = false ∧ uuid4 j ≠ uuid4 k) →
  workspace req' (uuid_draws (serve req disk k).2) ≠ workspace req k.
Proof.
  intros Hroot Hk Hnext.
  assert (∀ j, Py.startswith (uuid4 j) "/" = false → uuid4 j ≠ uuid4 k →
               workspace req' j ≠ workspace req k) as Hdistinct.
  { intros j Hj Hne. unfold workspace, Py.os_path_join. simpl. unfold Py.join2.
    rewrite Hroot, Hj, Hk.
    destruct (bool_decide (output_dir req = "") || Py.endswith_sep (output_dir req)).
    - intros Heq. by apply (inj (String.append (output_dir req))) in Heq.
    - intros Heq. apply (inj (String.append (output_dir req))) in Heq.
      by apply (inj (String.append "/")) in Heq. }
  destruct (serve_draws req disk k) as [Hd|Hd]; rewrite Hd;
    apply Hdistinct; apply Hnext; auto.
Qed.

(** ** The process configuration *)

Lemma dict_get_setitem {V} k k' (v : V) d :
  PyDict.get k' (PyDict.setitem k v d)
  = if bool_decide (k' = k) then Some v else PyDict.get k' d.
Proof.
  induction d as [|[k0 v0] rest IH]; simpl.
  - done.
  - destruct (decide (k = k0)) as [->|Hne].
    + rewrite (bool_decide_eq_true_2 (k0 = k0)) by done. simpl.
      by destruct (bool_decide (k' = k0)).
    + rewrite (bool_decide_eq_false_2 (k = k0)) by done. simpl. rewrite IH.
      destruct (decide (k' = k0)) as [->|Hne'].
      * rewrite (bool_decide_eq_true_2 (k0 = k0)) by done.
        by rewrite bool_decide_eq_false_2 by done.
      * by rewrite (bool_decide_eq_false_2 (k' = k0)) by done.
Qed.

Lemma dict_keys_setitem {V} k k' (v : V) d :
  k' ∈ (PyDict.setitem k v d).*1 ↔ k' = k ∨ k' ∈ d.*1.
Proof.
  induction d as [|[k0 v0] rest IH]; simpl.
  - rewrite list_elem_of_singleton, elem_of_nil. tauto.
  - destruct (decide (k = k0)) as [->|Hne].
    + rewrite (bool_decide_eq_true_2 (k0 = k0)) by done. simpl.
      rewrite !elem_of_cons. tauto.
    + rewrite (bool_decide_eq_false_2 (k = k0)) by done. simpl.
      rewrite !elem_of_cons, IH. tauto.
Qed.

Lemma dict_NoDup_setitem {V} k (v : V) d :
  NoDup d.*1 → NoDup (PyDict.setitem k v d).*1.
Proof.
  induction d as [|[k0 v0] rest IH]; simpl.
  - intros _. apply NoDup_singleton.
  - intros [Hfresh Hnd]%NoDup_cons. destruct (decide (k = k0)) as [->|Hne].
    + rewrite (bool_decide_eq_true_2 (k0 = k0)) by done. simpl. by apply NoDup_cons.
    + rewrite (bool_decide_eq_false_2 (k = k0)) by done. simpl. apply NoDup_cons.
      split; [|by apply IH]. rewrite dict_keys_setitem. intros [Heq|Hin]; [congruence|done].
Qed.

Lemma dict_get_None {V} k (d : list (string * V)) :
  k ∉ d.*1 → PyDict.get k d = None.
Proof.
  induction d as [|[k0 v0] rest IH]; simpl; [done|].
  intros [Hne Hnotin]%not_elem_of_cons.
  rewrite bool_decide_eq_false_2 by done. by apply IH.
Qed.

Lemma dict_get_ior {V} k (d1 d2 : list (string * V)) :
  NoDup d2.*1 →
  PyDict.get k (PyDict.ior d1 d2)
  = match PyDict.get k d2 with
    | Some v => Some v
    | None => PyDict.get k d1
    end.
Proof.
  revert d1. induction d2 as [|[k2 v2] rest IH]; intros d1; [done|].
  simpl. intros [Hfresh Hnd]%NoDup_cons.
  change (PyDict.ior d1 ((k2, v2) :: rest)) with (PyDict.ior (PyDict.setitem k2 v2 d1) rest).
  rewrite (IH _ Hnd), dict_get_setitem.
  destruct (decide (k = k2)) as [->|Hne].
  - rewrite (bool_decide_eq_true_2 (k2 = k2)) by done. by rewrite dict_get_None.
  - by rewrite (bool_decide_eq_false_2 (k = k2)) by done.
Qed.

Lemma dict_keys_ior {V} k (d1 d2 : list (string * V)) :
  k ∈ (PyDict.ior d1 d2).*1 ↔ k ∈ d1.*1 ∨ k ∈ d2.*1.
Proof.
  revert d1. induction d2 as [|[k2 v2] rest IH]; intros d1.
  - simpl. rewrite elem_of_nil. tauto.
  - change (PyDict.ior d1 ((k2, v2) :: rest)) with (PyDict.ior (PyDict.setitem k2 v2 d1) rest).
    rewrite IH, dict_keys_setitem. simpl. rewrite elem_of_cons. tauto.
Qed.

Lemma dict_NoDup_ior {V} (d1 d2 : list (string * V)) :
  NoDup d1.*1 → NoDup (PyDict.ior d1 d2).*1.
Proof.
  revert d1. induction d2 as [|[k2 v2] rest IH]; intros d1 Hnd; [done|].
  change (PyDict.ior d1 ((k2, v2) :: rest)) with (PyDict.ior (PyDict.setitem k2 v2 d1) rest).
  by apply IH, dict_NoDup_setitem.
Qed.

(** X11. After [main], the configuration a request reads holds every
    command-line option with its parsed value and every other keyword
    argument with its own; it replaces whatever the state held, its keys
    are those of the two dicts, and no key is repeated. *)
Theorem X11_main_layers_options kwargs parsed st key :
  NoDup kwargs.*1 → NoDup parsed.*1 →
  PyDict.get key (getattr_config (main kwargs parsed st))
  = match PyDict.get key parsed with
    | Some v => Some v
    | None => PyDict.get key kwargs
    end
  ∧ (key ∈ (getattr_config (main kwargs parsed st)).*1 ↔ key ∈ kwargs.*1 ∨ key ∈ parsed.*1)
  ∧ NoDup (getattr_config (main kwargs parsed st)).*1.
Proof.
  intros Hk Hp. unfold main, getattr_config. simpl. split_and!.
  - by apply dict_get_ior.
  - apply dict_keys_ior.
  - by apply dict_NoDup_ior.
Qed.

(** ** The success payload *)

(** X14. A response with status 200 has exactly the keys [backend],
    [version] and [results]; [backend] is the request's backend as given,
    [version] is the version the health endpoint reports, and the engine
    was called exactly once. *)
Theorem X14_success_payload req disk k :
  status_code (serve req disk k).1 = 200 →
  dom (content (serve req disk k).1) = {[ "backend"; "version"; "results" ]}
  ∧ content (serve req disk k).1 !! "backend" = Some (JStr (backend req))
  ∧ content (serve req disk k).1 !! "version" = JStr <$> health_check !! "version"
  ∧ is_Some (content (serve req disk k).1 !! "results")
  ∧ length (engine_calls (serve req disk k).2) = 1.
Proof.
  destruct (serve_tried req disk k) as (o & w & _ & Htried & ->).
  destruct Htried as [e w2 Hmk|w2 r w3 Hmk Hst|w2 e w3 Hmk Hst|names payloads w3 e w4 Hst Hcall
                     |names w4 e Hdisp Hcol|names w4 rd Hdisp Hcol]; simpl;
    try discriminate.
  - apply staging_returned_response in Hst as (-> & _). discriminate.
  - intros _. apply dispatched_world in Hdisp as (_ & _ & _ & payloads & _ & ->).
    split_and!.
    + rewrite !dom_insert_L, dom_singleton_L. set_solver.
    + by rewrite lookup_insert_eq.
    + unfold health_check.
      rewrite lookup_insert_ne, lookup_insert_eq by done.
      by rewrite !lookup_insert_ne, lookup_singleton_eq by done.
    + rewrite !lookup_insert_ne, lookup_singleton_eq by done. eauto.
    + done.
Qed.

(** X15. With a pipeline backend and a parse method that starts with a
    slash, the subtree of every stem is the parse method itself, a path
    outside the workspace, and a requested text kind is returned from the
    file of the stem in that directory, as the text read in text mode. *)
Theorem X15_absolute_parse_method req disk k result_dict stem data kind bytes text :
  Py.startswith (backend req) "pipeline" = true →
  Py.startswith (parse_method req) "/" = true →
  content (serve req disk k).1 !! "results" = Some (JResults result_dict) →
  result_dict !! stem = Some data →
  is_Some (fs (serve req disk k).2 !! parse_method req) →
  kind_requested req kind = true →
  fs (serve req disk k).2
    !! Py.os_path_join (parse_method req) [stem +:+ kind_suffix PipelineFamily kind]
    = Some (File bytes) →
  decode_utf8 bytes = Ok text →
  (∀ unique_dir pdf_name, parse_dir_of req unique_dir pdf_name = parse_method req)
  ∧ data !! kind_key kind = Some (PStr (Py.universal_newlines text)).
Proof.
  intros Hpipe Habs Hres Hdata Hdir Hreq Hfile Hdec.
  assert (∀ unique_dir pdf_name, parse_dir_of req unique_dir pdf_name = parse_method req)
    as Hsub.
  { intros ud name. unfold parse_dir_of, family_of, output_subtree, Py.os_path_join.
    rewrite Hpipe. simpl. unfold Py.join2 at 1. by rewrite Habs. }
  split; [exact Hsub|].
  apply (present_artifact_text req disk k result_dict stem data kind bytes text);
    try done.
  - by rewrite Hsub.
  - unfold kind_path, family_of. by rewrite Hsub, Hpipe.
Qed.

End More.

(** X12. A command-line option, or keyword argument of [main], named
    like one of the keywords the handler passes to the engine breaks every
    request of the process: none reaches the engine and none is answered
    200. *)
Theorem X12_option_named_like_a_keyword (C : Collaborators) kwargs parsed st key req disk k :
  key ∈ explicit_keywords →
  key ∈ kwargs.*1 ∨ key ∈ parsed.*1 →
  engine_calls (@serve (serving C (main kwargs parsed st)) req disk k).2 = []
  ∧ status_code (@serve (serving C (main kwargs parsed st)) req disk k).1 ≠ 200.
Proof.
  intros Hkey Hin. apply (@config_clash_no_success (serving C (main kwargs parsed st))).
  apply bool_decide_eq_true_2. apply Exists_exists.
  apply (dict_keys_ior key kwargs parsed) in Hin.
  apply list_elem_of_fmap in Hin as (kv & -> & Hkv).
  exists kv. split; [exact Hkv|exact Hkey].
Qed.

(** * The further properties on concrete requests *)


Lemma X3_engine_disk_witness :
  let req := Demo.request [Demo.upload "report.pdf" "%PDF-1.7"] in
  let out := @serve Demo.collaborators req ∅ 0 in
  let result_dict : gmap string (gmap string pyvalue) :=
    {[ "report" := {[ "md_content" := PStr "# report" ]} ]} in
  out = (@success_response Demo.collaborators req result_dict, out.2)
  ∧ staged_disk "./output/u" (files req) ∅ = {[ "./output" := Dir; "./output/u" := Dir ]}
  ∧ ∃ payloads,
      @aio_do_parse Demo.collaborators
        (@engine_args Demo.collaborators req "./output/u" ["report"] payloads)
        (staged_disk "./output/u" (files req) ∅)
      = (fs out.2, Ok ()).
Proof.
  intros req out result_dict.
  assert (@serve Demo.collaborators req ∅ 0
          = (@success_response Demo.collaborators req result_dict, out.2)) as Hserve
    by (vm_compute; reflexivity).
  destruct (@X3_engine_disk Demo.collaborators req ∅ 0 result_dict out.2 Hserve)
    as (payloads & Hengine & _).
  split_and!; [exact Hserve|vm_compute; reflexivity|].
  exists payloads. exact Hengine.
Defined.

Lemma X4_entry_keys_witness :
  let req := Demo.request_with [Demo.upload "report.pdf" "%PDF-1.7"] ["ch"] "pipeline"
               true true false false false in
  let out := @serve Demo.collaborators req ∅ 0 in
  let data : gmap string pyvalue :=
    {[ "md_content" := PStr "# report"; "middle_json" := PNone ]} in
  content out.1 !! "results" = Some (JResults {[ "report" := data ]})
  ∧ dom data = requested_keys req
  ∧ requested_keys req = {[ "md_content"; "middle_json" ]}.
Proof.
  intros req out data.
  assert (content out.1 !! "results" = Some (JResults {[ "report" := data ]})) as Hres
    by (vm_compute; reflexivity).
  pose proof (@X4_entry_keys Demo.collaborators req ∅ 0 {[ "report" := data ]} "report" data
                Hres (lookup_singleton_eq _ _)) as Hdom.
  rewrite bool_decide_eq_true_2 in Hdom by (exists Dir; vm_compute; reflexivity).
  split_and!; [exact Hres|exact Hdom|vm_compute; reflexivity].
Defined.

Lemma X5_present_artifact_text_witness :
  let req := Demo.request_with [Demo.upload "report.pdf" "%PDF-1.7"] ["ch"] "pipeline"
               true true false false false in
  let disk : gmap string node :=
    {[ "./output/u/report/auto/report_middle.json" := File ("{" +:+ Demo.crlf +:+ "}") ]} in
  let out := @serve Demo.collaborators req disk 0 in
  let data : gmap string pyvalue :=
    {[ "md_content" := PStr "# report";
       "middle_json" := PStr ("{" +:+ Demo.lf +:+ "}") ]} in
  content out.1 !! "results" = Some (JResults {[ "report" := data ]})
  ∧ fs out.2 !! "./output/u/report/auto/report_middle.json"
    = Some (File ("{" +:+ Demo.crlf +:+ "}"))
  ∧ data !! "middle_json" = Some (PStr ("{" +:+ Demo.lf +:+ "}")).
Proof.
  intros req disk out data.
  assert (content out.1 !! "results" = Some (JResults {[ "report" := data ]})) as Hres
    by (vm_compute; reflexivity).
  assert (fs out.2 !! "./output/u/report/auto/report_middle.json"
          = Some (File ("{" +:+ Demo.crlf +:+ "}"))) as Hfile
    by (vm_compute; reflexivity).
  destruct (@X5_present_artifact_text Demo.collaborators req disk 0 {[ "report" := data ]}
              "report" data IntermediateStructure ("{" +:+ Demo.crlf +:+ "}")
              ("{" +:+ Demo.crlf +:+ "}") Hres (lookup_singleton_eq _ _))
    as [Hkey _]; [exists Dir; vm_compute; reflexivity|reflexivity|exact Hfile
                 |vm_compute; reflexivity|].
  split_and!; [exact Hres|exact Hfile|exact Hkey].
Defined.

Lemma X6_unreadable_artifact_fails_request_witness :
  let req := Demo.request_with [Demo.upload "report.pdf" "%PDF-1.7"] ["ch"] "pipeline"
               true true false false false in
  let disk : gmap string node :=
    {[ "./output/u/report/auto/report_middle.json" := Dir ]} in
  let out := @serve Demo.collaborators req disk 0 in
  let w := {| fs := fs out.2; uuid_draws := 1; engine_calls := engine_calls out.2 |} in
  @dispatched Demo.collaborators req disk 0 ["report"] w
  ∧ fs w !! "./output/u/report/auto/report_middle.json" = Some Dir
  ∧ status_code out.1 = 500
  ∧ length (engine_calls out.2) = 1.
Proof.
  intros req disk out w.
  assert (@dispatched Demo.collaborators req disk 0 ["report"] w) as Hdisp.
  { exists ["%PDF-1.7"],
           (@stage_files Demo.collaborators (@workspace Demo.collaborators req 0) (files req)
              [] [] (os_makedirs (@workspace Demo.collaborators req 0)
                       (drawn (initial disk 0))).2).2.
    split; [|vm_compute; reflexivity].
    eexists. split; vm_compute; reflexivity. }
  assert (fs w !! "./output/u/report/auto/report_middle.json" = Some Dir) as Hd
    by (vm_compute; reflexivity).
  destruct (@X6_unreadable_artifact_fails_request Demo.collaborators req disk 0 ["report"] w
              "report" IntermediateStructure Hdisp)
    as (H500 & _ & Hone);
    [left|exists Dir; vm_compute; reflexivity|reflexivity|left; exact Hd|].
  split_and!; [exact Hdisp|exact Hd|exact H500|exact Hone].
Defined.

Lemma X7_inline_images_witness :
  let req := Demo.request_with [Demo.upload "report.pdf" "%PDF-1.7"] ["en"] "pipeline"
               false false false false true in
  let disk : gmap string node :=
    {[ "./output/u/report/auto/images/x.jpg" := File "Man" ]} in
  let out := @serve Demo.collaborators req disk 0 in
  let data : gmap string pyvalue :=
    {[ "images" := PDict {[ "x.jpg" := "data:image/jpeg;base64,TWFu" ]} ]} in
  content out.1 !! "results" = Some (JResults {[ "report" := data ]})
  ∧ ∃ images, data !! "images" = Some (PDict images) ∧ dom images = {[ "x.jpg" ]}.
Proof.
  intros req disk out data.
  assert (content out.1 !! "results" = Some (JResults {[ "report" := data ]})) as Hres
    by (vm_compute; reflexivity).
  destruct (@X7_inline_images Demo.collaborators req disk 0 {[ "report" := data ]}
              "report" data Hres (lookup_singleton_eq _ _))
    as (images & Hkey & Hdom & _); [exists Dir; vm_compute; reflexivity|reflexivity|].
  split; [exact Hres|]. exists images. split; [exact Hkey|].
  rewrite Hdom. vm_compute. reflexivity.
Defined.

Lemma X8_unreadable_image_fails_request_witness :
  let req := Demo.request_with [Demo.upload "report.pdf" "%PDF-1.7"] ["en"] "pipeline"
               true false false false true in
  let disk : gmap string node :=
    {[ "./output/u/report/auto/images/d.jpg" := Dir ]} in
  let out := @serve Demo.collaborators req disk 0 in
  let w := {| fs := fs out.2; uuid_draws := 1; engine_calls := engine_calls out.2 |} in
  @dispatched Demo.collaborators req disk 0 ["report"] w
  ∧ fs w !! "./output/u/report/auto/images/d.jpg" = Some Dir
  ∧ status_code out.1 = 500.
Proof.
  intros req disk out w.
  assert (@dispatched Demo.collaborators req disk 0 ["report"] w) as Hdisp.
  { exists ["%PDF-1.7"],
           (@stage_files Demo.collaborators (@workspace Demo.collaborators req 0) (files req)
              [] [] (os_makedirs (@workspace Demo.collaborators req 0)
                       (drawn (initial disk 0))).2).2.
    split; [|vm_compute; reflexivity].
    eexists. split; vm_compute; reflexivity. }
  assert (fs w !! "./output/u/report/auto/images/d.jpg" = Some Dir) as Hd
    by (vm_compute; reflexivity).
  destruct (@X8_unreadable_image_fails_request Demo.collaborators req disk 0 ["report"] w
              "report" "./output/u/report/auto/images/d.jpg" Hdisp)
    as (H500 & _ & _).
  - left.
  - exists Dir. vm_compute. reflexivity.
  - reflexivity.
  - replace (@glob Demo.collaborators
               (images_pattern (@parse_dir_of req (@workspace Demo.collaborators req 0) "report"))
               (fs w))
      with ["./output/u/report/auto/images/d.jpg"] by (vm_compute; reflexivity).
    apply list_elem_of_here.
  - intros bytes Hb. rewrite Hd in Hb. discriminate.
  - split_and!; [exact Hdisp|exact Hd|exact H500].
Defined.

Lemma X9_files_after_a_rejection_are_ignored_witness :
  let req := Demo.request [] in
  let uploads := [Demo.upload "notes.txt" "hello"] in
  let more := [Demo.upload "report.pdf" "%PDF-1.7"] in
  status_code (@serve Demo.collaborators (with_files uploads req) ∅ 0).1 = 400
  ∧ @serve Demo.collaborators (with_files (uploads ++ more) req) ∅ 0
    = @serve Demo.collaborators (with_files uploads req) ∅ 0.
Proof.
  intros req uploads more.
  assert (status_code (@serve Demo.collaborators (with_files uploads req) ∅ 0).1 = 400)
    as H400 by (vm_compute; reflexivity).
  split; [exact H400|].
  exact (@X9_files_after_a_rejection_are_ignored Demo.collaborators req ∅ 0 uploads more H400).
Defined.

Lemma X11_main_layers_options_witness :
  let kwargs := [("device", CStr "cpu"); ("source", CStr "local")] in
  let parsed := [("device", CStr "cuda"); ("vram", CInt 8)] in
  let st := {| state_config := None |} in
  NoDup kwargs.*1 ∧ NoDup parsed.*1
  ∧ PyDict.get "device" (getattr_config (main kwargs parsed st)) = Some (CStr "cuda")
  ∧ getattr_config (main kwargs parsed st)
    = [("device", CStr "cuda"); ("source", CStr "local"); ("vram", CInt 8)].
Proof.
  intros kwargs parsed st.
  assert (NoDup kwargs.*1) as Hk by (apply (bool_decide_unpack _); vm_compute; exact I).
  assert (NoDup parsed.*1) as Hp by (apply (bool_decide_unpack _); vm_compute; exact I).
  destruct (X11_main_layers_options kwargs parsed st "device" Hk Hp) as (Hget & _ & _).
  split_and!; [exact Hk|exact Hp|exact Hget|reflexivity].
Defined.

Lemma X12_option_named_like_a_keyword_witness :
  let parsed := [("backend", CStr "vlm-transformers")] in
  let st := {| state_config := None |} in
  let req := Demo.request [Demo.upload "report.pdf" "%PDF-1.7"] in
  let out := @serve (serving Demo.collaborators (main [] parsed st)) req ∅ 0 in
  "backend" ∈ explicit_keywords
  ∧ engine_calls out.2 = []
  ∧ status_code out.1 ≠ 200.
Proof.
  intros parsed st req out.
  assert ("backend" ∈ explicit_keywords) as Hkey
    by (apply (bool_decide_unpack _); vm_compute; exact I).
  split; [exact Hkey|].
  apply (X12_option_named_like_a_keyword Demo.collaborators [] parsed st "backend" req ∅ 0 Hkey).
  right. left.
Defined.

Lemma X13_workspaces_are_distinct_witness :
  let req := Demo.request [Demo.upload "report.pdf" "%PDF-1.7"] in
  let out := @serve Demo.collaborators req ∅ 0 in
  @workspace Demo.collaborators req 0 = "./output/u"
  ∧ @workspace Demo.collaborators req (uuid_draws out.2) = "./output/ux"
  ∧ @workspace Demo.collaborators req (uuid_draws out.2) ≠ @workspace Demo.collaborators req 0.
Proof.
  intros req out. split_and!; [reflexivity|vm_compute; reflexivity|].
  apply (@X13_workspaces_are_distinct Demo.collaborators req req ∅ 0);
    [reflexivity|reflexivity|].
  intros j [->| ->]; split; vm_compute; [reflexivity|discriminate|reflexivity|discriminate].
Defined.

Lemma X14_success_payload_witness :
  let req := Demo.request [Demo.upload "report.pdf" "%PDF-1.7"] in
  let out := @serve Demo.collaborators req ∅ 0 in
  status_code out.1 = 200
  ∧ content out.1 !! "backend" = Some (JStr "pipeline")
  ∧ content out.1 !! "version" = Some (JStr "2.0.0")
  ∧ @health_check Demo.collaborators !! "version" = Some "2.0.0".
Proof.
  intros req out.
  assert (status_code out.1 = 200) as H200 by (vm_compute; reflexivity).
  destruct (@X14_success_payload Demo.collaborators req ∅ 0 H200)
    as (_ & Hbackend & Hversion & _).
  split_and!; [exact H200|exact Hbackend| |vm_compute; reflexivity].
  unfold out. rewrite Hversion. vm_compute. reflexivity.
Defined.

Lemma X15_absolute_parse_method_witness :
  let req := Demo.request_absolute [Demo.upload "report.pdf" "%PDF-1.7"] in
  let out := @serve Demo.collaborators req ∅ 0 in
  let data : gmap string pyvalue := {[ "md_content" := PStr "# report" ]} in
  content out.1 !! "results" = Some (JResults {[ "report" := data ]})
  ∧ fs out.2 !! "/srv/shared/report.md" = Some (File "# report")
  ∧ @parse_dir_of req (@workspace Demo.collaborators req 0) "report" = "/srv/shared"
  ∧ data !! "md_content" = Some (PStr "# report").
Proof.
  intros req out data.
  assert (content out.1 !! "results" = Some (JResults {[ "report" := data ]})) as Hres
    by (vm_compute; reflexivity).
  assert (fs out.2 !! "/srv/shared/report.md" = Some (File "# report")) as Hfile
    by (vm_compute; reflexivity).
  destruct (@X15_absolute_parse_method Demo.collaborators req ∅ 0 {[ "report" := data ]}
              "report" data RenderedText "# report" "# report" eq_refl eq_refl Hres
              (lookup_singleton_eq _ _))
    as [Hsub Hkey]; [exists Dir; vm_compute; reflexivity|reflexivity|exact Hfile
                    |vm_compute; reflexivity|].
  split_and!; [exact Hres|exact Hfile|apply Hsub|exact Hkey].
Defined.

Lemma X16_engine_failure_witness :
  let req := Demo.request_with [Demo.upload "a.pdf" "%PDF-a"] ["ch"] "pipeline-broken"
               true false false false false in
  let out := @serve Demo.collaborators req ∅ 0 in
  let w3 := {| fs := {[ "./output" := Dir; "./output/u" := Dir ]};
               uuid_draws := 1; engine_calls := [] |} in
  @staged Demo.collaborators req ∅ 0 ["a"] ["%PDF-a"] w3
  ∧ out.1 = @server_error_response "engine failure" "ux"
  ∧ fs out.2 = {[ "./output" := Dir; "./output/u" := Dir ]}.
Proof.
  intros req out w3.
  assert (@staged Demo.collaborators req ∅ 0 ["a"] ["%PDF-a"] w3) as Hst
    by (eexists; split; vm_compute; reflexivity).
  destruct (@X16_engine_failure Demo.collaborators req ∅ 0 ["a"] ["%PDF-a"] w3
              {[ "./output" := Dir; "./output/u" := Dir ]} "engine failure" Hst)
    as (Hresp & Hdisk & _); [vm_compute; reflexivity..|].
  split_and!; [exact Hst|exact Hresp|exact Hdisk].
Defined.

Lemma X17_allocation_failure_witness :
  let req := Demo.request [Demo.upload "report.pdf" "%PDF-1.7"] in
  let disk : gmap string node := {[ "./output/u" := File "taken" ]} in
  let out := @serve Demo.collaborators req disk 0 in
  disk !! @workspace Demo.collaborators req 0 = Some (File "taken")
  ∧ status_code out.1 = 500
  ∧ fs out.2 = disk
  ∧ engine_calls out.2 = [].
Proof.
  intros req disk out.
  assert (disk !! @workspace Demo.collaborators req 0 = Some (File "taken")) as Hfile
    by (vm_compute; reflexivity).
  destruct (@X17_allocation_failure Demo.collaborators req disk 0 "taken" Hfile)
    as (H500 & Hdisk & Hcalls & _).
  split_and!; [exact Hfile|exact H500|exact Hdisk|exact Hcalls].
Defined.


(** ** File names *)

Lemma ascii_lower_slash c : Ascii.eqb (Py.ascii_lower c) "/" = Ascii.eqb c "/".
Proof. by destruct c as [[] [] [] [] [] [] [] []]. Qed.

Lemma ascii_lower_dot c : Ascii.eqb (Py.ascii_lower c) "." = Ascii.eqb c ".".
Proof. by destruct c as [[] [] [] [] [] [] [] []]. Qed.

Lemma ascii_lower_idemp c : Py.ascii_lower (Py.ascii_lower c) = Py.ascii_lower c.
Proof. by destruct c as [[] [] [] [] [] [] [] []]. Qed.

Lemma lower_idemp s : Py.lower (Py.lower s) = Py.lower s.
Proof. induction s as [|c s IH]; [done|]. simpl. by rewrite ascii_lower_idemp, IH. Qed.

Lemma lower_length s : String.length (Py.lower s) = String.length s.
Proof. induction s as [|c s IH]; [done|]. simpl. by rewrite IH. Qed.

Lemma lower_empty s : Py.lower s = "" ↔ s = "".
Proof. by destruct s. Qed.

Lemma lower_dot s : Py.lower s = "." ↔ s = ".".
Proof.
  destruct s as [|c [|d s]]; simpl; [done| |split; discriminate].
  split.
  - intros [= Hc]. f_equal. apply Ascii.eqb_eq. rewrite <- ascii_lower_dot, Hc. done.
  - by intros [= ->].
Qed.

Lemma lower_split s : Py.split "/" (Py.lower s) = Py.lower <$> Py.split "/" s.
Proof.
  induction s as [|c s IH]; [done|]. simpl. rewrite ascii_lower_slash, IH.
  destruct (Ascii.eqb c "/"); [done|]. by destruct (Py.split "/" s).
Qed.

Lemma lower_path_parts s : Py.path_parts (Py.lower s) = Py.lower <$> Py.path_parts s.
Proof.
  unfold Py.path_parts. rewrite lower_split.
  induction (Py.split "/" s) as [|x l IH]; [done|].
  rewrite fmap_cons, !filter_cons, IH.
  destruct (decide (x ≠ "" ∧ x ≠ ".")) as [Hx|Hx].
  - rewrite decide_True; [done|]. by rewrite lower_empty, lower_dot.
  - rewrite decide_False; [done|]. by rewrite lower_empty, lower_dot.
Qed.

Lemma last_fmap {A B} (f : A → B) l d : List.last (f <$> l) (f d) = f (List.last l d).
Proof.
  induction l as [|x l IH]; [done|]. destruct l as [|y l]; [done|]. exact IH.
Qed.

Lemma lower_Path_name s : Py.Path_name (Py.lower s) = Py.lower (Py.Path_name s).
Proof. unfold Py.Path_name. rewrite lower_path_parts. apply (last_fmap Py.lower _ ""). Qed.

Lemma lower_rfind_dot s : Py.rfind "." (Py.lower s) = Py.rfind "." s.
Proof.
  induction s as [|c s IH]; [done|]. simpl. by rewrite IH, ascii_lower_dot.
Qed.

Lemma lower_substring i n s :
  String.substring i n (Py.lower s) = Py.lower (String.substring i n s).
Proof.
  revert i n. induction s as [|c s IH]; intros i n.
  - by destruct i, n.
  - destruct i as [|i]; [|apply IH]. destruct n as [|n]; [done|]. simpl. by rewrite IH.
Qed.

Lemma lower_Path_suffix s : Py.Path_suffix (Py.lower s) = Py.lower (Py.Path_suffix s).
Proof.
  unfold Py.Path_suffix, Py.suffix_index, Py.from_index.
  rewrite lower_Path_name, lower_rfind_dot, lower_length.
  destruct (Py.rfind "." (Py.Path_name s)) as [i|]; [|done].
  destruct ((0 <? i)%nat && (i <? String.length (Py.Path_name s) - 1)%nat); [|done].
  apply lower_substring.
Qed.

Lemma substring_all s : String.substring 0 (String.length s) s = s.
Proof. induction s as [|c s IH]; [done|]. simpl. by rewrite IH. Qed.

Lemma substring_split s i :
  String.substring 0 i s +:+ String.substring i (String.length s - i) s = s.
Proof.
  revert i. induction s as [|c s IH]; intros i.
  - by destruct i.
  - destruct i as [|i].
    + simpl. by rewrite substring_all.
    + simpl. change (String c (String.substring 0 i s +:+ String.substring i (String.length s - i) s) = String c s).
      by rewrite IH.
Qed.

Lemma append_nil_r s : s +:+ "" = s.
Proof.
  induction s as [|c s IH]; [done|].
  change (String c (s +:+ "") = String c s). by rewrite IH.
Qed.

(** ** The directories above a path *)

Lemma length_append a b :
  String.length (a +:+ b) = (String.length a + String.length b)%nat.
Proof. induction a as [|c a IH]; [done|]. simpl. by rewrite IH. Qed.

Lemma rstrip_sep_prefix s : ∃ t, s = Py.rstrip_sep s +:+ t.
Proof.
  induction s as [|c s [t IH]]; [by exists ""|]. simpl.
  destruct (Py.rstrip_sep s) as [|c' r].
  - destruct (Ascii.eqb c "/"); [by exists (String c s)|]. by exists s.
  - exists t. change (String c s = String c (String c' r +:+ t)). by f_equal.
Qed.

Lemma os_path_split_head p : ∃ t, p = (Py.os_path_split p).1 +:+ t.
Proof.
  unfold Py.os_path_split. destruct (Py.rfind "/" p) as [i|]; [|by exists p]. simpl.
  pose proof (substring_split p (S i)) as Hsplit. unfold Py.upto_index.
  set (head := String.substring 0 (S i) p) in *.
  destruct (negb (bool_decide (head = "")) && negb (Py.all_sep head)).
  - destruct (rstrip_sep_prefix head) as [t Ht]. eexists.
    rewrite <- Hsplit at 1. rewrite Ht at 1. by rewrite append_assoc.
  - eexists. by rewrite Hsplit.
Qed.

Lemma os_path_split_head_shorter p :
  (Py.os_path_split p).1 ≠ p →
  (String.length (Py.os_path_split p).1 < String.length p)%nat.
Proof.
  intros Hne. destruct (os_path_split_head p) as [t Ht].
  destruct t as [|c t]; [by rewrite append_nil_r in Ht|].
  rewrite Ht at 2. rewrite length_append. simpl. lia.
Qed.

Lemma heads_fuel n m p :
  (String.length p ≤ n)%nat → (String.length p ≤ m)%nat → Py.heads n p = Py.heads m p.
Proof.
  revert m p. induction n as [|n IH]; intros m p Hn Hm.
  - destruct p; [|simpl in Hn; lia]. by destruct m.
  - destruct m as [|m]; [destruct p; [done|simpl in Hm; lia]|].
    simpl. destruct (decide ((Py.os_path_split p).1 = "" ∨ (Py.os_path_split p).1 = p))
      as [Hstop|Hgo].
    + by rewrite !bool_decide_eq_true_2.
    + rewrite !bool_decide_eq_false_2 by done. f_equal.
      assert (String.length (Py.os_path_split p).1 < String.length p)%nat
        by (apply os_path_split_head_shorter; tauto).
      apply IH; lia.
Qed.

(** More fuel than the length of the path yields no other chain: the
    walk up never stops for want of fuel. *)
Lemma parents_fuel fuel p : (String.length p ≤ fuel)%nat → Py.heads fuel p = Py.parents p.
Proof. intros Hfuel. by apply heads_fuel. Qed.

Section Names.
Context `{Collaborators}.

(** X18. The intake check does not depend on the letter case of the file
    name: two uploads whose names are the same up to the case of their
    ASCII letters are both accepted or both rejected. *)
Theorem X18_intake_ignores_letter_case file file' :
  Py.lower (filename file) = Py.lower (filename file') →
  accepted file = accepted file'.
Proof.
  intros Hsame. unfold accepted.
  by rewrite <- !lower_Path_suffix, Hsame.
Qed.

(** X19. The stem an upload is filed under and the suffix the intake
    check looks at are the two halves of the name its temporary copy is
    written under. *)
Theorem X19_stem_and_suffix_make_the_name file :
  stem_of file +:+ Py.Path_suffix (filename file) = Py.Path_name (filename file).
Proof.
  unfold stem_of, Py.Path_stem, Py.Path_suffix, Py.upto_index, Py.from_index.
  destruct (Py.suffix_index (Py.Path_name (filename file))) as [i|].
  - apply substring_split.
  - apply append_nil_r.
Qed.

End Names.

Lemma X18_intake_ignores_letter_case_witness :
  let file := Demo.upload "SCAN.Png" "PNG" in
  let file' := Demo.upload "scan.png" "junk" in
  Py.lower (filename file) = Py.lower (filename file')
  ∧ @accepted Demo.collaborators file = true
  ∧ @accepted Demo.collaborators file' = true.
Proof.
  intros file file'.
  assert (Py.lower (filename file) = Py.lower (filename file')) as Hsame by reflexivity.
  pose proof (@X18_intake_ignores_letter_case Demo.collaborators file file' Hsame) as Heq.
  split_and!; [exact Hsame| |vm_compute; reflexivity].
  rewrite Heq. vm_compute. reflexivity.
Defined.
